(** * Supplier quotation comparison: scoring, aggregation and parsing

    A shallow embedding of [comparison.py] (with the record types of
    [models.py]) and the properties of its deterministic core.

    Modelling conventions.
    - An [int] is a [Z].  Everything that computes with [float] is written
      once over an arithmetic [Arith num] and runs at two instances: IEEE
      binary64 numbers ([Binary64]), the [float] of the program, and exact
      rationals [Q] (compared with [==]), in which a decimal literal is the
      rational it denotes and [round] rounds the exact value.  A property
      stated for every arithmetic holds of the program as it runs; values
      the program computes are evaluated at [Binary64]; orders and ranges
      are proved at [Q].
    - An [int] that meets a [float] in [+], [*] or a comparison is within
      the binary64 range (beyond it Python raises [OverflowError]).
    - A Python [dict] with a fixed set of keys is a record; an absent key or a
      [None] value is [None].  [annual_prices], which is iterated, is the
      list of its entries in insertion order (a dict holds a key once); a
      dict that is only looked up is a [gmap].
    - A Python [str] is a [string] of ASCII characters; the whitespace class
      of a regular expression is written out for the code points below 256.
    - A call either returns a value or raises: type [outcome]. *)

From Stdlib Require Import ZArith QArith Qround Lqa Lia Ascii String Floats.
From Stdlib Require Import Sorting.Sorted Sorting.Permutation.
From stdpp Require Import base option list gmap strings.

Set Warnings "-inexact-float".
Local Open Scope string_scope.

(** ** Outcomes of a call: a value, or a raised exception *)

Inductive PyExn : Type :=
  | ValueError
  | TypeError
  | KeyError
  | AttributeError
  | ExternalError (msg : string).

Inductive outcome (A : Type) : Type :=
  | Returns (a : A)
  | Raises (e : PyExn).
Arguments Returns {A} a.
Arguments Raises {A} e.

#[global] Instance outcome_ret : MRet outcome := fun A a => Returns a.
#[global] Instance outcome_bind : MBind outcome := fun A B f m =>
  match m with
  | Returns a => f a
  | Raises e => Raises e
  end.

#[global] Instance outcome_fmap : FMap outcome := fun A B f m =>
  match m with
  | Returns a => Returns (f a)
  | Raises e => Raises e
  end.

(** [try: body / except (classes): return handler]. *)
Definition try_except {A} (body : outcome A) (catches : PyExn -> bool) (handler : A)
  : outcome A :=
  match body with
  | Returns a => Returns a
  | Raises e => if catches e then Returns handler else Raises e
  end.

Definition is_ValueError_or_TypeError (e : PyExn) : bool :=
  match e with ValueError | TypeError => true | _ => false end.

Definition is_ValueError_or_AttributeError (e : PyExn) : bool :=
  match e with ValueError | AttributeError => true | _ => false end.

Fixpoint mapM {A B} (f : A -> outcome B) (l : list A) : outcome (list B) :=
  match l with
  | [] => Returns []
  | x :: r => y ← f x; ys ← mapM f r; mret (y :: ys)
  end.

(** ** Numbers *)

Definition Qltb (x y : Q) : bool := negb (Qle_bool y x).

(** Rounding to the nearest integer, ties to the even one. *)
Definition round_half_even (q : Q) : Z :=
  let f := Qfloor q in
  match (q - inject_Z f ?= 1 # 2)%Q with
  | Lt => f
  | Gt => (f + 1)%Z
  | Eq => if Z.even f then f else (f + 1)%Z
  end.

(** [round(x, ndigits)] of an exact value. *)
Definition round_exact (x : Q) (ndigits : nat) : Q :=
  let scale := inject_Z (10 ^ Z.of_nat ndigits) in
  Qred (inject_Z (round_half_even (x * scale)) / scale).

(** The arithmetic the code needs of a number type: [+], [-], [*], [/] and
    the comparisons [<] and [==] on numbers, the value of an [int] where it
    meets a number, [int / int], the value of a decimal literal, [float] of
    a decimal text (given as the rational the text denotes), the test
    [x == 0] and [round(x, ndigits)]. *)
Class Arith (num : Type) : Type := {
  add : num -> num -> num;
  sub : num -> num -> num;
  mul : num -> num -> num;
  div : num -> num -> num;
  num_ltb : num -> num -> bool;
  num_eqb : num -> num -> bool;
  of_int : Z -> num;
  int_div : Z -> Z -> num;
  literal : Q -> num;
  of_decimal : Q -> num;
  is_zero : num -> bool;
  py_round : num -> nat -> num
}.

#[global] Instance Q_arith : Arith Q | 0 := {|
  add := Qplus;
  sub := Qminus;
  mul := Qmult;
  div := Qdiv;
  num_ltb := Qltb;
  num_eqb := Qeq_bool;
  of_int := inject_Z;
  int_div := fun a b => (inject_Z a / inject_Z b)%Q;
  literal := fun q => q;
  of_decimal := fun q => q;
  is_zero := fun x => Qeq_bool x 0;
  py_round := round_exact
|}.

Module Binary64.

(** The binary64 number nearest to an integer. *)
Definition of_Z (z : Z) : float :=
  SF2Prim (SpecFloat.binary_normalize prec emax z 0 false).

(** An integer as an operand that is not rounded. *)
Definition exact_int (z : Z) : spec_float :=
  match z with
  | Z0 => S754_zero false
  | Zpos p => S754_finite false p 0
  | Zneg p => S754_finite true p 0
  end.

(** The binary64 number nearest to the quotient of two integers, ties to
    even, infinite beyond the range: [int / int], and [float] of a decimal
    text. *)
Definition nearest_quotient (n d : Z) : float :=
  SF2Prim (SpecFloat.SFdiv prec emax (exact_int n) (exact_int d)).

(** The rational a finite binary64 number is. *)
Definition exact_value (s : bool) (m : positive) (e : Z) : Q :=
  let v := if (0 <=? e)%Z then inject_Z (Zpos m * 2 ^ e)
           else Qmake (Zpos m) (Z.to_pos (2 ^ (- e))) in
  if s then Qopp v else v.

(** [round(x, ndigits)] on a [float]: infinities and NaN round to
    themselves; a finite number is rounded on its exact value, ties to even,
    and the decimal result is read back as the nearest binary64 number. *)
Definition round (x : float) (ndigits : nat) : float :=
  match Prim2SF x with
  | S754_finite s m e =>
      let scale := (10 ^ Z.of_nat ndigits)%Z in
      match round_half_even (exact_value s m e * inject_Z scale) with
      | Z0 => SF2Prim (S754_zero s)
      | z => nearest_quotient z scale
      end
  | _ => x
  end.

(** A decimal literal [n / 10^k] is read as the binary64 number nearest to
    it: the correctly rounded quotient of two integers that are binary64
    numbers themselves. *)
#[global] Instance arith : Arith float | 10 := {|
  add := PrimFloat.add;
  sub := PrimFloat.sub;
  mul := PrimFloat.mul;
  div := PrimFloat.div;
  num_ltb := PrimFloat.ltb;
  num_eqb := PrimFloat.eqb;
  of_int := of_Z;
  int_div := nearest_quotient;
  literal := fun q => PrimFloat.div (of_Z (Qnum q)) (of_Z (Zpos (Qden q)));
  of_decimal := fun q => nearest_quotient (Qnum q) (Zpos (Qden q));
  is_zero := fun x => PrimFloat.eqb x 0%float;
  py_round := round
|}.

End Binary64.

(** Built-in [min] and [max] over a non-empty sequence: the first smallest
    (largest) element; [ValueError] on an empty one. *)
Definition py_min {A} (ltb : A -> A -> bool) (l : list A) : outcome A :=
  match l with
  | [] => Raises ValueError
  | x :: r => Returns (fold_left (fun m y => if ltb y m then y else m) r x)
  end.

Definition py_max {A} (ltb : A -> A -> bool) (l : list A) : outcome A :=
  match l with
  | [] => Raises ValueError
  | x :: r => Returns (fold_left (fun m y => if ltb m y then y else m) r x)
  end.

(** [max(0, x)]: the first argument unless the second is greater. *)
Definition max0 {num : Type} `{Arith num} (x : num) : num :=
  if num_ltb (of_int 0) x then x else of_int 0.

(** [min(100, n)] on integers. *)
Definition min100 (n : Z) : Z := if (n <? 100)%Z then n else 100%Z.

(** ** Strings *)

Definition is_digit (c : ascii) : bool :=
  let n := nat_of_ascii c in (48 <=? n)%nat && (n <=? 57)%nat.

(** The class [\s] of a regular expression on [str]. *)
Definition is_space (c : ascii) : bool :=
  let n := nat_of_ascii c in
  ((9 <=? n)%nat && (n <=? 13)%nat) || ((28 <=? n)%nat && (n <=? 32)%nat) ||
  (n =? 133)%nat || (n =? 160)%nat.

Definition lower_ascii (c : ascii) : ascii :=
  let n := nat_of_ascii c in
  if (65 <=? n)%nat && (n <=? 90)%nat then ascii_of_nat (n + 32) else c.

Definition upper_ascii (c : ascii) : ascii :=
  let n := nat_of_ascii c in
  if (97 <=? n)%nat && (n <=? 122)%nat then ascii_of_nat (n - 32) else c.

Fixpoint str_map (f : ascii -> ascii) (s : string) : string :=
  match s with
  | EmptyString => EmptyString
  | String c r => String (f c) (str_map f r)
  end.

Definition lower (s : string) : string := str_map lower_ascii s.
Definition upper (s : string) : string := str_map upper_ascii s.

(** [needle in hay] on strings. *)
Fixpoint contains (needle hay : string) : bool :=
  String.prefix needle hay ||
  match hay with
  | EmptyString => false
  | String _ r => contains needle r
  end.

Definition digit_value (c : ascii) : Z := Z.of_nat (nat_of_ascii c) - 48.

(** Value of a run of decimal digits, most significant first. *)
Fixpoint digits_value (acc : Z) (s : string) : Z :=
  match s with
  | EmptyString => acc
  | String c r => digits_value (10 * acc + digit_value c) r
  end.

(** ** Currency normalisation *)

Section Conversion.
Context {num : Type} `{Arith num}.

Definition EXCHANGE_RATES : gmap string num :=
  {[ "USD" := literal 0.92%Q; "EUR" := literal 1.0%Q; "GBP" := literal 1.17%Q;
     "JPY" := literal 0.0062%Q ]}.

(** [convert_to_eur], with the rate table it reads as a parameter. *)
Definition convert_with (rates : gmap string num) (amount : num)
    (from_currency : string) : num :=
  if decide (from_currency = "EUR") then amount
  else mul amount (default (literal 1.0%Q) (rates !! from_currency)).

Definition convert_to_eur (amount : num) (from_currency : string) : num :=
  convert_with EXCHANGE_RATES amount from_currency.

End Conversion.

(** ** Comparison items

    One dict per supplier.  The keys written by [_build_comparison_item] are
    the fields of [ItemData]; the keys attached later by the scorer and the
    ranker are optional fields of [Item].  [obj_id] is the identity of the
    dict object: the scored list and the original list share their objects. *)

(** The value under ["moq"]: absent or [None], a text, or an integer. *)
Inductive MoqVal : Type :=
  | MoqNone
  | MoqText (s : string)
  | MoqInt (n : Z).

Record BreakdownRow (num : Type) : Type := {
  unit_price : num;
  quantity : Z;
  total : num
}.
Arguments unit_price {num}.
Arguments quantity {num}.
Arguments total {num}.

Record ItemData (num : Type) : Type := {
  supplier : string;
  original_currency : string;
  total_cost_eur : num;
  total_cost_original : num;
  tooling_cost_eur : num;
  tooling_cost_original : num;
  tooling_cost_type : option string;
  unit_cost_avg_eur : num;
  unit_cost_avg_original : num;
  delivery_terms : option string;
  incoterms : string;
  lead_time : option string;
  lead_time_weeks : option num;
  payment_terms : option string;
  payment_days : option Z;
  moq : MoqVal;
  quotation_date : option string;
  price_breakdown_eur : list (Z * BreakdownRow num);
  price_breakdown_original : list (Z * BreakdownRow num);
  years_covered : list Z
}.
Arguments supplier {num}.
Arguments original_currency {num}.
Arguments total_cost_eur {num}.
Arguments total_cost_original {num}.
Arguments tooling_cost_eur {num}.
Arguments tooling_cost_original {num}.
Arguments tooling_cost_type {num}.
Arguments unit_cost_avg_eur {num}.
Arguments unit_cost_avg_original {num}.
Arguments delivery_terms {num}.
Arguments incoterms {num}.
Arguments lead_time {num}.
Arguments lead_time_weeks {num}.
Arguments payment_terms {num}.
Arguments payment_days {num}.
Arguments moq {num}.
Arguments quotation_date {num}.
Arguments price_breakdown_eur {num}.
Arguments price_breakdown_original {num}.
Arguments years_covered {num}.

Record Scores (num : Type) : Type := {
  tco_score : num;
  delivery_score : num;
  payment_score : num;
  tooling_score : num;
  moq_score : num;
  missing_data_penalty : Z
}.
Arguments tco_score {num}.
Arguments delivery_score {num}.
Arguments payment_score {num}.
Arguments tooling_score {num}.
Arguments moq_score {num}.
Arguments missing_data_penalty {num}.

Record Item (num : Type) : Type := {
  obj_id : nat;
  data : ItemData num;
  scores : option (Scores num);
  total_score : option num;
  final_ranking : option nat;
  cost_ranking : option nat;
  ranking : option nat
}.
Arguments obj_id {num}.
Arguments data {num}.
Arguments scores {num}.
Arguments total_score {num}.
Arguments final_ranking {num}.
Arguments cost_ranking {num}.
Arguments ranking {num}.

Definition new_item {num} (id : nat) (d : ItemData num) : Item num :=
  {| obj_id := id; data := d; scores := None; total_score := None;
     final_ranking := None; cost_ranking := None; ranking := None |}.

(** [item["scores"] = s; item["total_score"] = t]. *)
Definition set_scores {num} (s : Scores num) (t : num) (it : Item num) : Item num :=
  {| obj_id := obj_id it; data := data it; scores := Some s; total_score := Some t;
     final_ranking := final_ranking it; cost_ranking := cost_ranking it;
     ranking := ranking it |}.

Definition set_final_ranking {num} (n : nat) (it : Item num) : Item num :=
  {| obj_id := obj_id it; data := data it; scores := scores it;
     total_score := total_score it; final_ranking := Some n;
     cost_ranking := cost_ranking it; ranking := ranking it |}.

Definition set_cost_ranking {num} (n : nat) (it : Item num) : Item num :=
  {| obj_id := obj_id it; data := data it; scores := scores it;
     total_score := total_score it; final_ranking := final_ranking it;
     cost_ranking := Some n; ranking := ranking it |}.

Definition set_ranking {num} (n : nat) (it : Item num) : Item num :=
  {| obj_id := obj_id it; data := data it; scores := scores it;
     total_score := total_score it; final_ranking := final_ranking it;
     cost_ranking := cost_ranking it; ranking := Some n |}.

(** [d[key]] on a key that may be missing. *)
Definition getitem {A} (v : option A) : outcome A :=
  match v with
  | Some a => Returns a
  | None => Raises KeyError
  end.

(** ** Built-in stable sorting

    [sorted(l, key=..., reverse=...)] and [list.sort(key=...)]: the keys are
    computed once, in list order, and elements with equal keys keep their
    relative order, also when [reverse] is set. *)

Fixpoint insert_sorted {A} (strictly_before : A -> A -> bool) (x : A) (l : list A)
  : list A :=
  match l with
  | [] => [x]
  | y :: r =>
      if strictly_before y x then y :: insert_sorted strictly_before x r
      else x :: y :: r
  end.

Definition stable_sort {A} (strictly_before : A -> A -> bool) (l : list A) : list A :=
  foldr (insert_sorted strictly_before) [] l.

Definition key_order {A K} (ltb : K -> K -> bool) (reverse : bool) (p q : K * A) : bool :=
  if reverse then ltb q.1 p.1 else ltb p.1 q.1.

Definition py_sorted {A K} (ltb : K -> K -> bool) (key : A -> outcome K)
    (reverse : bool) (l : list A) : outcome (list A) :=
  ks ← mapM key l;
  mret ((stable_sort (key_order ltb reverse) (zip ks l)).*2).

(** [for idx, item in enumerate(l, 1): item[...] = idx]. *)
Definition stamp_enumerate {num} (set : nat -> Item num -> Item num)
    (l : list (Item num)) : list (Item num) :=
  imap (fun i it => set (S i) it) l.

(** ** ProcurementScorer *)

Module ProcurementScorer.

Record Weights (num : Type) : Type := {
  w_tco : num;
  w_delivery : num;
  w_payment : num;
  w_tooling : num;
  w_moq : num
}.
Arguments w_tco {num}.
Arguments w_delivery {num}.
Arguments w_payment {num}.
Arguments w_tooling {num}.
Arguments w_moq {num}.

Definition WEIGHTS {num : Type} `{Arith num} : Weights num :=
  {| w_tco := literal 0.35%Q; w_delivery := literal 0.25%Q;
     w_payment := literal 0.20%Q; w_tooling := literal 0.10%Q;
     w_moq := literal 0.10%Q |}.

Section Scoring.
Context {num : Type} `{Arith num}.

(** [100 * (1 - (x - lo) / (hi - lo))], then [round(max(0, score), 2)], on
    numbers. *)
Definition min_max_score (x lo hi : num) : num :=
  let score := mul (of_int 100) (sub (of_int 1) (div (sub x lo) (sub hi lo))) in
  py_round (max0 score) 2.

(** The same on integers: the differences are integers and their quotient
    is [int / int]. *)
Definition min_max_score_int (x lo hi : Z) : num :=
  let score := mul (of_int 100) (sub (of_int 1) (int_div (x - lo) (hi - lo))) in
  py_round (max0 score) 2.

Definition _score_tco (item : Item num) (all_items : list (Item num)) : outcome num :=
  let tcos := map (fun d => total_cost_eur (data d)) all_items in
  min_tco ← py_min num_ltb tcos;
  max_tco ← py_max num_ltb tcos;
  if num_eqb max_tco min_tco then mret (literal 100.0%Q)
  else mret (min_max_score (total_cost_eur (data item)) min_tco max_tco).

Definition _score_delivery (item : Item num) (all_items : list (Item num)) : outcome num :=
  let lead_times := omap (fun d => lead_time_weeks (data d)) all_items in
  match lead_times, lead_time_weeks (data item) with
  | [], _ | _, None => mret (literal 20.0%Q)
  | _, Some weeks =>
      min_weeks ← py_min num_ltb lead_times;
      max_weeks ← py_max num_ltb lead_times;
      if num_eqb max_weeks min_weeks then mret (literal 100.0%Q)
      else mret (min_max_score weeks min_weeks max_weeks)
  end.

Definition _score_payment (item : Item num) (all_items : list (Item num)) : outcome num :=
  let payment_days_list := omap (fun d => payment_days (data d)) all_items in
  match payment_days_list, payment_days (data item) with
  | [], _ | _, None => mret (literal 20.0%Q)
  | _, Some days =>
      min_days ← py_min Z.ltb payment_days_list;
      max_days ← py_max Z.ltb payment_days_list;
      if (max_days =? min_days)%Z then mret (literal 100.0%Q)
      else mret (min_max_score_int days min_days max_days)
  end.

Definition _score_tooling (item : Item num) (all_items : list (Item num)) : outcome num :=
  let tooling_costs := map (fun d => tooling_cost_eur (data d)) all_items in
  min_tooling ← py_min num_ltb tooling_costs;
  max_tooling ← py_max num_ltb tooling_costs;
  if num_eqb max_tooling min_tooling then mret (literal 100.0%Q)
  else mret (min_max_score (tooling_cost_eur (data item)) min_tooling max_tooling).

(** [isinstance(v, (int, float)) and v > 0], giving the number. *)
Definition valid_moq (v : MoqVal) : option Z :=
  match v with
  | MoqInt n => if (0 <? n)%Z then Some n else None
  | _ => None
  end.

Definition _score_moq (item : Item num) (all_items : list (Item num)) : outcome num :=
  let moqs := omap (fun d => valid_moq (moq (data d))) all_items in
  match moqs, valid_moq (moq (data item)) with
  | [], _ | _, None => mret (literal 20.0%Q)
  | _, Some m =>
      min_moq ← py_min Z.ltb moqs;
      max_moq ← py_max Z.ltb moqs;
      if (max_moq =? min_moq)%Z then mret (literal 100.0%Q)
      else mret (min_max_score_int m min_moq max_moq)
  end.

(** [v in [None, "N/A", ""]]. *)
Definition text_missing (v : option string) : bool :=
  match v with
  | None => true
  | Some s => bool_decide (s = "N/A") || bool_decide (s = "")
  end.

(** [v in [None, "N/A", 0]]. *)
Definition moq_missing (v : MoqVal) : bool :=
  match v with
  | MoqNone => true
  | MoqText s => bool_decide (s = "N/A")
  | MoqInt n => (n =? 0)%Z
  end.

Definition missing_fields (item : Item num) : list bool :=
  let d := data item in
  [ text_missing (lead_time d);
    text_missing (payment_terms d);
    text_missing (delivery_terms d);
    text_missing (quotation_date d);
    moq_missing (moq d);
    is_zero (tooling_cost_eur d) && is_zero (tooling_cost_original d) ].

(** [sum] of a list of booleans. *)
Definition count_true (l : list bool) : Z :=
  fold_left (fun acc (b : bool) => (acc + if b then 1 else 0)%Z) l 0%Z.

Definition _calculate_missing_data_penalty (item : Item num) : Z :=
  min100 (count_true (missing_fields item) * 10).

Definition base_total (w : Weights num) (s : Scores num) : num :=
  add (add (add (add (mul (tco_score s) (w_tco w)) (mul (delivery_score s) (w_delivery w)))
                (mul (payment_score s) (w_payment w)))
           (mul (tooling_score s) (w_tooling w)))
      (mul (moq_score s) (w_moq w)).

(** [1 - (penalty / 100)], the penalty being an [int]. *)
Definition penalty_factor (s : Scores num) : num :=
  sub (of_int 1) (int_div (missing_data_penalty s) 100).

Definition _calculate_weighted_total (s : Scores num) : num :=
  py_round (max0 (mul (base_total WEIGHTS s) (penalty_factor s))) 2.

Definition _calculate_all_scores (item : Item num) (all_items : list (Item num))
  : outcome (Scores num) :=
  tco ← _score_tco item all_items;
  delivery ← _score_delivery item all_items;
  payment ← _score_payment item all_items;
  tooling ← _score_tooling item all_items;
  moq ← _score_moq item all_items;
  mret {| tco_score := tco; delivery_score := delivery; payment_score := payment;
          tooling_score := tooling; moq_score := moq;
          missing_data_penalty := _calculate_missing_data_penalty item |}.

(** The first loop of [score_all]: the items before the cursor ([done]) have
    their scores attached already, and every item is scored against the whole
    list as it stands at that moment. *)
Fixpoint score_loop (done todo : list (Item num)) : outcome (list (Item num)) :=
  match todo with
  | [] => mret done
  | item :: rest =>
      s ← _calculate_all_scores item (done ++ todo);
      score_loop (done ++ [set_scores s (_calculate_weighted_total s) item]) rest
  end.

Definition score_all (comparison_data : list (Item num)) : outcome (list (Item num)) :=
  match comparison_data with
  | [] => mret []
  | _ =>
      scored ← score_loop [] comparison_data;
      scored_data ← py_sorted num_ltb (fun x => getitem (total_score x)) true scored;
      mret (stamp_enumerate set_final_ranking scored_data)
  end.

End Scoring.

End ProcurementScorer.

(** ** models.py *)

Module models.

Inductive Currency : Type := USD | EUR | GBP | JPY.

Definition value (c : Currency) : string :=
  match c with
  | USD => "USD"
  | EUR => "EUR"
  | GBP => "GBP"
  | JPY => "JPY"
  end.

(** The calendar date of a [datetime]; its time of day is never read. *)
Record datetime : Type := {
  year : Z;
  month : Z;
  day : Z
}.

Record ExtractedQuotation (num : Type) : Type := {
  supplier_name : string;
  annual_prices : list (Z * num);
  annual_quantities : gmap Z Z;
  tooling_cost : option num;
  tooling_cost_type : option string;
  delivery_terms : option string;
  payment_terms : option string;
  lead_time : option string;
  currency : Currency;
  quotation_date : option datetime;
  moq : option Z
}.
Arguments supplier_name {num}.
Arguments annual_prices {num}.
Arguments annual_quantities {num}.
Arguments tooling_cost {num}.
Arguments tooling_cost_type {num}.
Arguments delivery_terms {num}.
Arguments payment_terms {num}.
Arguments lead_time {num}.
Arguments currency {num}.
Arguments quotation_date {num}.
Arguments moq {num}.

(** The reply of the recommendation model, as the [Recommendation] schema. *)
Record Recommendation (num : Type) : Type := {
  recommended_supplier : string;
  total_score : num;
  reasoning : string;
  key_advantages : list string;
  considerations : list string;
  missing_data_impact : option string
}.
Arguments recommended_supplier {num}.
Arguments total_score {num}.
Arguments reasoning {num}.
Arguments key_advantages {num}.
Arguments considerations {num}.
Arguments missing_data_impact {num}.

End models.

(** ** Field parsing: regular expressions *)

Fixpoint take_while (p : ascii -> bool) (s : string) : string :=
  match s with
  | EmptyString => EmptyString
  | String c r => if p c then String c (take_while p r) else EmptyString
  end.

Fixpoint drop_while (p : ascii -> bool) (s : string) : string :=
  match s with
  | EmptyString => EmptyString
  | String c r => if p c then drop_while p r else s
  end.

(** State of the scan for [\d+\.?\d*]: outside a match, or inside one with
    the text matched so far, before ([false]) or after ([true]) the dot. *)
Definition scan_state : Type := option (bool * string).

Definition snoc_char (tok : string) (c : ascii) : string :=
  tok ++ String c EmptyString.

(** [re.findall(r'\d+\.?\d*', s)], as a left-to-right scan. *)
Fixpoint findall_numbers_from (st : scan_state) (s : string) : list string :=
  match s with
  | EmptyString =>
      match st with
      | None => []
      | Some (_, tok) => [tok]
      end
  | String c r =>
      match st with
      | None =>
          if is_digit c then findall_numbers_from (Some (false, String c EmptyString)) r
          else findall_numbers_from None r
      | Some (false, tok) =>
          if is_digit c then findall_numbers_from (Some (false, snoc_char tok c)) r
          else if Ascii.eqb c "." then findall_numbers_from (Some (true, snoc_char tok c)) r
          else tok :: findall_numbers_from None r
      | Some (true, tok) =>
          if is_digit c then findall_numbers_from (Some (true, snoc_char tok c)) r
          else tok :: findall_numbers_from None r
      end
  end.

Definition findall_numbers (s : string) : list string := findall_numbers_from None s.

Definition all_digits (s : string) : bool :=
  forallb is_digit (list_ascii_of_string s).

(** The rational a decimal text [digits], [digits.] or [digits.digits]
    denotes. *)
Definition decimal_text_value (tok : string) : option Q :=
  let int_part := take_while is_digit tok in
  let rest := drop_while is_digit tok in
  match int_part, rest with
  | EmptyString, _ => None
  | _, EmptyString => Some (inject_Z (digits_value 0 int_part))
  | _, String c frac =>
      if Ascii.eqb c "." && all_digits frac then
        Some (inject_Z (digits_value 0 int_part) +
              inject_Z (digits_value 0 frac) /
              inject_Z (10 ^ Z.of_nat (String.length frac)))%Q
      else None
  end.

(** [float(tok)] on the decimal texts (the texts the pattern above can
    match): the number nearest to what the text denotes, whatever its
    length; [ValueError] stands for every other text. *)
Definition py_float {num : Type} `{Arith num} (tok : string) : outcome num :=
  match decimal_text_value tok with
  | Some q => Returns (of_decimal q)
  | None => Raises ValueError
  end.

(** The greatest number of digits [int] converts
    ([sys.get_int_max_str_digits()], 4300 unless changed). *)
Definition INT_MAX_STR_DIGITS : nat := 4300.

(** [int(tok)] on a run of decimal digits: [ValueError] on a run of more
    than 4300 digits, as on every other text. *)
Definition py_int (tok : string) : outcome Z :=
  match tok with
  | EmptyString => Raises ValueError
  | _ =>
      if all_digits tok && (String.length tok <=? INT_MAX_STR_DIGITS)%nat
      then Returns (digits_value 0 tok) else Raises ValueError
  end.

(** [re.search]: the leftmost position at which the pattern matches. *)
Fixpoint re_search {A} (match_at : string -> option A) (s : string) : option A :=
  match match_at s with
  | Some m => Some m
  | None =>
      match s with
      | EmptyString => None
      | String _ r => re_search match_at r
      end
  end.

(** [(\d+)\s*(?:days?|tag)] at the start of [s]: group 1. *)
Definition match_days_at (s : string) : option string :=
  let digits := take_while is_digit s in
  let rest := drop_while is_space (drop_while is_digit s) in
  match digits with
  | EmptyString => None
  | _ => if String.prefix "day" rest || String.prefix "tag" rest then Some digits else None
  end.

(** [net\s*(\d+)] at the start of [s]: group 1. *)
Definition match_net_at (s : string) : option string :=
  match s with
  | String "n" (String "e" (String "t" r)) =>
      match take_while is_digit (drop_while is_space r) with
      | EmptyString => None
      | digits => Some digits
      end
  | _ => None
  end.

(** ** QuotationComparator *)

Module QuotationComparator.

(** [tooling_cost_type and tooling_cost_type.lower() in ['renewal', 'recurring']]. *)
Definition is_recurring (tooling_cost_type : option string) : bool :=
  match tooling_cost_type with
  | None => false
  | Some t =>
      negb (bool_decide (t = "")) &&
      (bool_decide (lower t = "renewal") || bool_decide (lower t = "recurring"))
  end.

Section Aggregation.
Context {num : Type} `{Arith num}.

(** [len(quote.annual_prices) if quote.annual_prices else 1]. *)
Definition years_multiplier (annual_prices : list (Z * num)) : Z :=
  match annual_prices with
  | [] => 1%Z
  | _ => Z.of_nat (length annual_prices)
  end.

(** Truth value of an optional number: neither [None] nor zero. *)
Definition truthy (v : option num) : bool :=
  match v with
  | None => false
  | Some x => negb (is_zero x)
  end.

Definition _calculate_tooling_cost (quote : models.ExtractedQuotation num) : num :=
  let tooling_base :=
    match models.tooling_cost quote with
    | Some cost => if truthy (Some cost) then cost else of_int 0
    | None => of_int 0
    end in
  if is_recurring (models.tooling_cost_type quote)
  then mul tooling_base (of_int (years_multiplier (models.annual_prices quote)))
  else tooling_base.

(** [sum(...)] of numbers: from the integer 0, left to right. *)
Definition py_sum (l : list num) : num := fold_left add l (of_int 0).

(** [sum(prices[y] * quantities.get(y, 0) for y in prices.keys())]: the
    keys come in insertion order, each with its own price. *)
Definition annual_total (quote : models.ExtractedQuotation num) : num :=
  py_sum (map (fun '(y, price) =>
                 mul price (of_int (default 0%Z (models.annual_quantities quote !! y))))
              (models.annual_prices quote)).

Definition _calculate_tco (quote : models.ExtractedQuotation num) : num :=
  let total := annual_total quote in
  match models.tooling_cost quote with
  | Some cost =>
      if truthy (Some cost) then
        if is_recurring (models.tooling_cost_type quote)
        then add total (mul cost (of_int (years_multiplier (models.annual_prices quote))))
        else add total cost
      else total
  | None => total
  end.

Definition _calculate_avg_unit_cost (quote : models.ExtractedQuotation num) : num :=
  match models.annual_prices quote with
  | [] => literal 0.0%Q
  | prices => div (py_sum prices.*2) (of_int (Z.of_nat (length prices)))
  end.

Definition _calculate_avg_unit_cost_eur (quote : models.ExtractedQuotation num) : num :=
  match models.annual_prices quote with
  | [] => literal 0.0%Q
  | prices =>
      div (py_sum (map (fun p => convert_to_eur p (models.value (models.currency quote)))
                       prices.*2))
          (of_int (Z.of_nat (length prices)))
  end.

(** [for year in sorted(prices.keys())]: the entries by ascending year. *)
Definition sorted_by_year (prices : list (Z * num)) : list (Z * num) :=
  stable_sort (fun p q => (p.1 <? q.1)%Z) prices.

Definition _get_price_breakdown_original (quote : models.ExtractedQuotation num)
  : list (Z * BreakdownRow num) :=
  map (fun '(y, price) =>
         let qty := default 0%Z (models.annual_quantities quote !! y) in
         (y, {| unit_price := price; quantity := qty; total := mul price (of_int qty) |}))
      (sorted_by_year (models.annual_prices quote)).

Definition _get_price_breakdown_eur (quote : models.ExtractedQuotation num)
  : list (Z * BreakdownRow num) :=
  map (fun '(y, price) =>
         let unit_price_eur := convert_to_eur price (models.value (models.currency quote)) in
         let qty := default 0%Z (models.annual_quantities quote !! y) in
         (y, {| unit_price := unit_price_eur; quantity := qty;
                total := mul unit_price_eur (of_int qty) |}))
      (sorted_by_year (models.annual_prices quote)).

End Aggregation.

(** [not text or text == "N/A"]. *)
Definition absent_text (text : option string) : bool :=
  match text with
  | None => true
  | Some s => bool_decide (s = "") || bool_decide (s = "N/A")
  end.

Section LeadTime.
Context {num : Type} `{Arith num}.

(** The unit conversion of [_parse_lead_time]: days, else months, else years,
    else the number stands in weeks. *)
Definition to_weeks (lead_time_lower : string) (weeks : num) : num :=
  if contains "day" lead_time_lower || contains "tag" lead_time_lower
  then div weeks (of_int 7)
  else if contains "month" lead_time_lower || contains "monat" lead_time_lower
  then mul weeks (literal 4.33%Q)
  else if contains "year" lead_time_lower || contains "jahr" lead_time_lower
  then mul weeks (of_int 52)
  else weeks.

Definition _parse_lead_time (lead_time : option string) : outcome (option num) :=
  match lead_time with
  | None => mret None
  | Some text =>
      if absent_text (Some text) then mret None
      else
        try_except
          (match findall_numbers (lower text) with
           | [] => mret None
           | first :: _ =>
               weeks ← py_float first;
               mret (Some (py_round (to_weeks (lower text) weeks) 1))
           end)
          is_ValueError_or_TypeError None
  end.

End LeadTime.

Definition _parse_payment_terms (payment_terms : option string) : outcome (option Z) :=
  match payment_terms with
  | None => mret None
  | Some text =>
      if absent_text (Some text) then mret None
      else
        try_except
          (let found :=
             match re_search match_days_at (lower text) with
             | Some g => Some g
             | None => re_search match_net_at (lower text)
             end in
           match found with
           | Some g => n ← py_int g; mret (Some n)
           | None => mret None
           end)
          is_ValueError_or_AttributeError None
  end.

Definition INCOTERMS : list string :=
  ["EXW"; "FCA"; "FAS"; "FOB"; "CFR"; "CIF"; "CPT"; "CIP"; "DAP"; "DPU"; "DDP"].

Definition _extract_incoterms (delivery_terms : option string) : string :=
  match delivery_terms with
  | None => "N/A"
  | Some text =>
      if absent_text (Some text) then "N/A"
      else default "N/A" (head (filter (fun term => contains term (upper text)) INCOTERMS))
  end.

(** [text or "N/A"]. *)
Definition or_na (text : option string) : string :=
  match text with
  | None => "N/A"
  | Some s => if bool_decide (s = "") then "N/A" else s
  end.

(** The dict returned by [generate_recommendation]. *)
Record RecommendationDict (num : Type) : Type := {
  recommended_supplier : option string;
  rec_total_score : num;
  reasoning : string;
  key_advantages : list string;
  considerations : list string;
  missing_data_impact : option string
}.
Arguments recommended_supplier {num}.
Arguments rec_total_score {num}.
Arguments reasoning {num}.
Arguments key_advantages {num}.
Arguments considerations {num}.
Arguments missing_data_impact {num}.

(** The dict returned by [_generate_summary]; [None] is the empty dict. *)
Record Summary (num : Type) : Type := {
  total_suppliers : nat;
  lowest_cost : num;
  highest_cost : num;
  cost_range : num;
  best_supplier : option string;
  best_score : num
}.
Arguments total_suppliers {num}.
Arguments lowest_cost {num}.
Arguments highest_cost {num}.
Arguments cost_range {num}.
Arguments best_supplier {num}.
Arguments best_score {num}.

(** The dict returned by [compare]; every key absent is the empty dict. *)
Record Comparison (num : Type) : Type := {
  comparison_table : option (list (Item num));
  summary : option (option (Summary num));
  recommendation : option (option (RecommendationDict num));
  generated_at : option string
}.
Arguments comparison_table {num}.
Arguments summary {num}.
Arguments recommendation {num}.
Arguments generated_at {num}.

Section Collaborators.
Context {num : Type} `{Arith num}.
(** [datetime.strftime("%Y-%m-%d")], the recommendation model behind
    [LLMRecommendationEngine] (handed the scored items, from which the
    prompt text is rendered), and the clock. *)
Variable strftime_ymd : models.datetime -> string.
Variable llm_recommendation : list (Item num) -> outcome (models.Recommendation num).
Variable now_isoformat : string.

Definition _build_comparison_item (quote : models.ExtractedQuotation num)
  : outcome (ItemData num) :=
  let tco_original := _calculate_tco quote in
  let tooling_base := _calculate_tooling_cost quote in
  let price_breakdown_original := _get_price_breakdown_original quote in
  weeks ← _parse_lead_time (models.lead_time quote);
  days ← _parse_payment_terms (models.payment_terms quote);
  mret {|
    supplier := models.supplier_name quote;
    original_currency := models.value (models.currency quote);
    total_cost_eur := convert_to_eur tco_original (models.value (models.currency quote));
    total_cost_original := tco_original;
    tooling_cost_eur := convert_to_eur tooling_base (models.value (models.currency quote));
    tooling_cost_original := tooling_base;
    tooling_cost_type := models.tooling_cost_type quote;
    unit_cost_avg_eur := _calculate_avg_unit_cost_eur quote;
    unit_cost_avg_original := _calculate_avg_unit_cost quote;
    delivery_terms := Some (or_na (models.delivery_terms quote));
    incoterms := _extract_incoterms (models.delivery_terms quote);
    lead_time := Some (or_na (models.lead_time quote));
    lead_time_weeks := weeks;
    payment_terms := Some (or_na (models.payment_terms quote));
    payment_days := days;
    moq :=
      match models.moq quote with
      | Some n => if (n =? 0)%Z then MoqText "N/A" else MoqInt n
      | None => MoqText "N/A"
      end;
    quotation_date :=
      match models.quotation_date quote with
      | Some d => Some (strftime_ymd d)
      | None => Some "N/A"
      end;
    price_breakdown_eur := _get_price_breakdown_eur quote;
    price_breakdown_original := price_breakdown_original;
    years_covered := (models.annual_prices quote).*1
  |}.

(** [LLMRecommendationEngine.generate_recommendation]. *)
Definition generate_recommendation (comparison_data : list (Item num))
  : outcome (RecommendationDict num) :=
  match comparison_data with
  | [] =>
      mret {| recommended_supplier := None; rec_total_score := of_int 0;
              reasoning := "No suppliers available.";
              key_advantages := []; considerations := [];
              missing_data_impact := None |}
  | first :: _ =>
      recommendation ← llm_recommendation comparison_data;
      mret {|
        recommended_supplier :=
          Some (if bool_decide (models.recommended_supplier recommendation = "")
                then supplier (data first)
                else models.recommended_supplier recommendation);
        rec_total_score :=
          if is_zero (models.total_score recommendation)
          then default (of_int 0) (total_score first)
          else models.total_score recommendation;
        reasoning := models.reasoning recommendation;
        key_advantages := models.key_advantages recommendation;
        considerations := models.considerations recommendation;
        missing_data_impact := models.missing_data_impact recommendation
      |}
  end.

Definition _generate_summary (comparison_data : list (Item num))
  : outcome (option (Summary num)) :=
  match comparison_data with
  | [] => mret None
  | first :: _ =>
      let costs := map (fun d => total_cost_eur (data d)) comparison_data in
      lo ← py_min num_ltb costs;
      hi ← py_max num_ltb costs;
      mret (Some {| total_suppliers := length comparison_data;
                    lowest_cost := lo; highest_cost := hi;
                    cost_range := sub hi lo;
                    best_supplier := Some (supplier (data first));
                    best_score := default (of_int 0) (total_score first) |})
  end.

Definition empty_comparison : Comparison num :=
  {| comparison_table := None; summary := None; recommendation := None;
     generated_at := None |}.

(** Rank of the object [id] in the list sorted by cost; the stamp reaches
    the scored list because both lists hold the same objects. *)
Definition cost_rank_of (by_cost : list (Item num)) (id : nat) : option nat :=
  (fun p => S p.1) <$> list_find (fun it => obj_id it = id) by_cost.

Definition stamp_cost_ranking (by_cost : list (Item num)) (it : Item num) : Item num :=
  match cost_rank_of by_cost (obj_id it) with
  | Some n => set_cost_ranking n it
  | None => it
  end.

(** [item["ranking"] = item.get("final_ranking", item.get("cost_ranking", 999))]. *)
Definition stamp_ranking (it : Item num) : Item num :=
  set_ranking (default (default 999%nat (cost_ranking it)) (final_ranking it)) it.

Definition compare (quotations : list (models.ExtractedQuotation num))
  : outcome (Comparison num) :=
  match quotations with
  | [] => mret empty_comparison
  | _ =>
      built ← mapM _build_comparison_item quotations;
      let comparison_data := imap new_item built in
      scored_data ← ProcurementScorer.score_all comparison_data;
      by_cost ← py_sorted num_ltb (fun x => Returns (total_cost_eur (data x))) false
                  comparison_data;
      let scored_data := map (stamp_cost_ranking by_cost) scored_data in
      let scored_data := map stamp_ranking scored_data in
      recommendation ←
        match scored_data with
        | [] => mret None
        | _ => r ← generate_recommendation scored_data; mret (Some r)
        end;
      summary ← _generate_summary scored_data;
      mret {| comparison_table := Some scored_data;
              summary := Some summary;
              recommendation := Some recommendation;
              generated_at := Some now_isoformat |}
  end.
End Collaborators.

End QuotationComparator.

(** ** A cohort of three suppliers, used to run the definitions *)

Module Samples.

Section Cohorts.
Context {num : Type} `{Arith num}.

Definition sample_data (name : string) (tco tooling : Z)
    (lead_text : string) (weeks : option Z)
    (pay_text : string) (days : option Z) (m : MoqVal) : ItemData num :=
  {| supplier := name; original_currency := "EUR";
     total_cost_eur := of_int tco; total_cost_original := of_int tco;
     tooling_cost_eur := of_int tooling; tooling_cost_original := of_int tooling;
     tooling_cost_type := None;
     unit_cost_avg_eur := of_int 10; unit_cost_avg_original := of_int 10;
     delivery_terms := Some "FOB Shanghai"; incoterms := "FOB";
     lead_time := Some lead_text; lead_time_weeks := of_int <$> weeks;
     payment_terms := Some pay_text; payment_days := days;
     moq := m; quotation_date := Some "2024-01-15";
     price_breakdown_eur := []; price_breakdown_original := [];
     years_covered := [] |}.

Definition acme : Item num :=
  new_item 0 (sample_data "Acme" 1000 100 "4 weeks" (Some 4%Z)
                          "Net 30" (Some 30%Z) (MoqInt 100)).

(** Lead time, payment terms and MOQ were not extracted. *)
Definition borg : Item num :=
  new_item 1 (sample_data "Borg" 1500 50 "N/A" None "N/A" None (MoqText "N/A")).

Definition cyberdyne : Item num :=
  new_item 2 (sample_data "Cyberdyne" 2000 200 "6 weeks" (Some 6%Z)
                          "60 days" (Some 60%Z) (MoqInt 500)).

Definition cohort : list (Item num) := [acme; borg; cyberdyne].

(** Two suppliers with the same figures throughout, and a dearer third. *)
Definition twin (id : nat) (name : string) : Item num :=
  new_item id (sample_data name 1000 100 "4 weeks" (Some 4%Z)
                           "Net 30" (Some 30%Z) (MoqInt 100)).

Definition tied_cohort : list (Item num) := [twin 0 "First"; cyberdyne; twin 1 "Second"].

(** Three suppliers that differ in cost only. *)
Definition priced (id : nat) (name : string) (tco : Z) : Item num :=
  new_item id (sample_data name tco 100 "4 weeks" (Some 4%Z)
                           "Net 30" (Some 30%Z) (MoqInt 100)).

Definition narrow_cohort : list (Item num) :=
  [priced 0 "Low" 1000; priced 1 "Mid" 1067; priced 2 "High" 1160].

(** Two suppliers whose composite scores are both 58.5 in exact arithmetic
    ([Alpha] by a rounding tie at 58.495), and a third that leads. *)
Definition alpha : Item num :=
  new_item 0 (sample_data "Alpha" 1043 500 "1 week" (Some 1%Z)
                          "90 days" (Some 90%Z) (MoqInt 1000)).

Definition beta : Item num :=
  new_item 1 (sample_data "Beta" 2000 100 "14 weeks" (Some 14%Z)
                          "Net 30" (Some 30%Z) (MoqInt 100)).

Definition gamma : Item num :=
  new_item 2 (sample_data "Gamma" 1000 300 "51 weeks" (Some 51%Z)
                          "Net 30" (Some 30%Z) (MoqInt 500)).

Definition close_cohort : list (Item num) := [alpha; beta; gamma].

(** As [borg], at a cost that scores 7 on TCO: its weighted sum times the
    penalty factor, 16.415, is a rounding tie in exact arithmetic. *)
Definition sparse : Item num :=
  new_item 1 (sample_data "Sparse" 1930 50 "N/A" None "N/A" None (MoqText "N/A")).

Definition sparse_cohort : list (Item num) := [acme; sparse; cyberdyne].

(** The scores [alpha] and [sparse] get in their cohorts. *)
Definition alpha_scores : Scores num :=
  {| tco_score := literal 95.7%Q; delivery_score := of_int 100;
     payment_score := of_int 0; tooling_score := of_int 0; moq_score := of_int 0;
     missing_data_penalty := 0 |}.

Definition sparse_scores : Scores num :=
  {| tco_score := of_int 7; delivery_score := literal 20.0%Q;
     payment_score := literal 20.0%Q; tooling_score := of_int 100;
     moq_score := literal 20.0%Q; missing_data_penalty := 30 |}.

End Cohorts.

(** A recurring tooling fee of 1000 over three priced years, the last of
    them without a quantity. *)
Definition recurring_quote {num : Type} `{Arith num} : models.ExtractedQuotation num :=
  {| models.supplier_name := "Acme";
     models.annual_prices :=
       [(2024%Z, literal 12.5%Q); (2025%Z, literal 12%Q); (2026%Z, literal 11.5%Q)];
     models.annual_quantities := {[ 2024%Z := 1000%Z; 2025%Z := 2000%Z ]};
     models.tooling_cost := Some (literal 1000%Q);
     models.tooling_cost_type := Some "Recurring";
     models.delivery_terms := Some "FOB Shanghai";
     models.payment_terms := Some "Net 30";
     models.lead_time := Some "8 weeks";
     models.currency := models.USD;
     models.quotation_date := None;
     models.moq := Some 500%Z |}.

(** A recurring tooling fee that is no binary64 number, over three priced
    years. *)
Definition odd_fee_quote {num : Type} `{Arith num} : models.ExtractedQuotation num :=
  {| models.supplier_name := "Odd";
     models.annual_prices :=
       [(2024%Z, literal 12.5%Q); (2025%Z, literal 12.5%Q); (2026%Z, literal 12.5%Q)];
     models.annual_quantities := {[ 2024%Z := 1000%Z; 2025%Z := 1000%Z; 2026%Z := 1000%Z ]};
     models.tooling_cost := Some (literal 1000.1%Q);
     models.tooling_cost_type := Some "recurring";
     models.delivery_terms := None;
     models.payment_terms := None;
     models.lead_time := None;
     models.currency := models.EUR;
     models.quotation_date := None;
     models.moq := None |}.

(** A second quotation, in EUR, with one priced year and no tooling. *)
Definition plain_quote {num : Type} `{Arith num} : models.ExtractedQuotation num :=
  {| models.supplier_name := "Borg";
     models.annual_prices := [(2024%Z, of_int 10)];
     models.annual_quantities := {[ 2024%Z := 1000%Z ]};
     models.tooling_cost := None;
     models.tooling_cost_type := None;
     models.delivery_terms := Some "Delivered at our dock";
     models.payment_terms := Some "45 days";
     models.lead_time := Some "14 days";
     models.currency := models.EUR;
     models.quotation_date := Some {| models.year := 2024; models.month := 1;
                                      models.day := 15 |};
     models.moq := None |}.

(** Stand-ins for the collaborators: a fixed date text, and a model that
    names no supplier and no score. *)
Definition stub_strftime (d : models.datetime) : string := "2024-01-15".

Definition stub_recommendation {num : Type} `{Arith num} (items : list (Item num))
  : outcome (models.Recommendation num) :=
  Returns {| models.recommended_supplier := ""; models.total_score := of_int 0;
             models.reasoning := "stub"; models.key_advantages := [];
             models.considerations := []; models.missing_data_impact := None |}.

End Samples.

(** ** Vocabulary of the statements *)

(** A call that returns a score between 0 and 100. *)
Definition returns_score (o : outcome Q) : Prop :=
  exists v, o = Returns v /\ (0 <= v <= 100)%Q.

(** The reference-currency TCO values of a cohort, in input order. *)
Definition tcos {num} (cohort : list (Item num)) : list num :=
  map (fun d => total_cost_eur (data d)) cohort.

(** [it'] is [it] with its scores against [cohort] attached. *)
Definition scored_from {num} `{Arith num} (cohort : list (Item num)) (it it' : Item num)
  : Prop :=
  exists s, ProcurementScorer._calculate_all_scores it cohort = Returns s /\
            it' = set_scores s (ProcurementScorer._calculate_weighted_total s) it.

(** The composite score of a scored item. *)
Definition score_of {num} `{Arith num} (it : Item num) : num :=
  default (of_int 0) (total_score it).

(** The order [sorted(..., key=total_score, reverse=True)] sorts by. *)
Definition better {num} `{Arith num} (a b : Item num) : bool :=
  num_ltb (score_of b) (score_of a).

(** Five scores within 0..100 and a penalty within 0..100. *)
Definition scores_in_range (s : Scores Q) : Prop :=
  (0 <= tco_score s <= 100)%Q /\ (0 <= delivery_score s <= 100)%Q /\
  (0 <= payment_score s <= 100)%Q /\ (0 <= tooling_score s <= 100)%Q /\
  (0 <= moq_score s <= 100)%Q /\ (0 <= missing_data_penalty s <= 100)%Z.

(** Keys paired with their elements, and an order on such pairs read on the
    elements alone. *)
Definition decorate {A K} (key : A -> K) (x : A) : K * A := (key x, x).

Definition undecorated {A K} (sb : K * A -> K * A -> bool) (key : A -> K)
    (a b : A) : bool :=
  sb (decorate key a) (decorate key b).

(** The six missing-data conditions, as the specification words them. *)
Module MissingData.

#[global] Instance MoqVal_eq_dec : EqDecision MoqVal.
Proof. solve_decision. Defined.

#[global] Instance Qeq_decision (x y : Q) : Decision (x == y)%Q := Qeq_dec x y.

(** A text that is missing, ["N/A"] or empty. *)
Definition text_absent (v : option string) : Prop :=
  v = None \/ v = Some "N/A" \/ v = Some "".

(** An MOQ that is missing, ["N/A"] or zero. *)
Definition moq_absent (v : MoqVal) : Prop :=
  v = MoqNone \/ v = MoqText "N/A" \/ v = MoqInt 0.

(** A tooling cost that is zero in both currencies. *)
Definition tooling_absent {num} `{Arith num} (d : ItemData num) : Prop :=
  is_zero (tooling_cost_original d) = true /\ is_zero (tooling_cost_eur d) = true.

Definition indicator (P : Prop) `{Decision P} : Z := if decide P then 1%Z else 0%Z.

(** How many of the six conditions hold for an item. *)
Definition conditions_true {num} `{Arith num} (item : Item num) : Z :=
  let d := data item in
  (indicator (text_absent (lead_time d)) +
   indicator (text_absent (payment_terms d)) +
   indicator (text_absent (delivery_terms d)) +
   indicator (text_absent (quotation_date d)) +
   indicator (moq_absent (moq d)) +
   indicator (tooling_absent d))%Z.

End MissingData.

(** The lead-time rule, as the specification words it. *)
Module LeadTimeRule.

#[global] Instance text_absent_dec (v : option string) :
  Decision (MissingData.text_absent v).
Proof. unfold MissingData.text_absent. apply _. Defined.

(** The fractional part of a numeric token: a dot right after the digits,
    with the digits that follow it. *)
Definition fraction_after (rest : string) : string :=
  match rest with
  | String c after =>
      if Ascii.eqb c "." then String c (take_while is_digit after) else EmptyString
  | EmptyString => EmptyString
  end.

(** The first numeric token (integer or decimal) of a text: from its first
    digit, the run of digits and the fractional part when there is one. *)
Definition first_numeric_token (text : string) : option string :=
  let from_digit := drop_while (fun c => negb (is_digit c)) text in
  match from_digit with
  | EmptyString => None
  | _ => Some (take_while is_digit from_digit ++
               fraction_after (drop_while is_digit from_digit))
  end.

(** The number a numeric token denotes. *)
Definition decimal_value (tok : string) : Q :=
  let int_part := take_while is_digit tok in
  match drop_while is_digit tok with
  | EmptyString => inject_Z (digits_value 0 int_part)
  | String _ frac =>
      (inject_Z (digits_value 0 int_part) +
       inject_Z (digits_value 0 frac) / inject_Z (10 ^ Z.of_nat (String.length frac)))%Q
  end.

Definition mentions (keywords : list string) (text : string) : bool :=
  existsb (fun k => contains k text) keywords.

Section Rule.
Context {num : Type} `{Arith num}.

(** Weeks for a number read with the unit the text mentions: days first,
    then months, then years, else the number is in weeks already. *)
Definition in_weeks (text : string) (n : num) : num :=
  if mentions ["day"; "tag"] text then div n (of_int 7)
  else if mentions ["month"; "monat"] text then mul n (literal 4.33%Q)
  else if mentions ["year"; "jahr"] text then mul n (of_int 52)
  else n.

(** Absent, "N/A" or empty input and a text without a numeric token are
    unparseable; otherwise the number of the first numeric token, in weeks,
    rounded to one decimal place. *)
Definition weeks_of (lead_time : option string) : option num :=
  if decide (MissingData.text_absent lead_time) then None
  else
    text ← lead_time;
    tok ← first_numeric_token (lower text);
    Some (py_round (in_weeks (lower text) (of_decimal (decimal_value tok))) 1).

End Rule.

End LeadTimeRule.

(** A numeric token of [n] nines. *)
Definition nines (n : nat) : string := string_of_list_ascii (repeat "9"%char n).

(** The inverse conversion of the round-trip property: a reference-currency
    amount divided by the currency's rate. *)
Definition rate {num : Type} `{Arith num} (c : models.Currency) : num :=
  default (literal 1.0%Q) (EXCHANGE_RATES !! models.value c).

Definition from_eur {num : Type} `{Arith num} (amount : num) (c : models.Currency) : num :=
  div amount (rate c).

(** ** Vocabulary of the further properties *)

(** [re.search(days pattern) or re.search(net pattern)] of
    [_parse_payment_terms], on the lower-cased text: the captured group. *)
Definition payment_match (text : string) : option string :=
  match re_search match_days_at (lower text) with
  | Some g => Some g
  | None => re_search match_net_at (lower text)
  end.

(** A text with a decimal digit in it. *)
Definition has_digit (text : string) : bool :=
  existsb is_digit (list_ascii_of_string text).

(** The sample quotation with a zero quantity written out for its last
    priced year and a quantity for a year that has no price. *)
Definition recurring_quote_stray {num : Type} `{Arith num} : models.ExtractedQuotation num :=
  {| models.supplier_name := "Acme";
     models.annual_prices := models.annual_prices Samples.recurring_quote;
     models.annual_quantities :=
       {[ 2024%Z := 1000%Z; 2025%Z := 2000%Z; 2026%Z := 0%Z; 2030%Z := 99%Z ]};
     models.tooling_cost := models.tooling_cost Samples.recurring_quote;
     models.tooling_cost_type := Some "Recurring";
     models.delivery_terms := Some "FOB Shanghai";
     models.payment_terms := Some "Net 30";
     models.lead_time := Some "8 weeks";
     models.currency := models.USD;
     models.quotation_date := None;
     models.moq := Some 500%Z |}.

(** The value [_parse_payment_terms] returns: the number of the captured
    digits, and [None] when nothing is captured or [int] refuses the
    digits for their length. *)
Definition payment_days_of (payment_terms : option string) : option Z :=
  if QuotationComparator.absent_text payment_terms then None
  else
    text ← payment_terms;
    g ← payment_match text;
    if (String.length g <=? INT_MAX_STR_DIGITS)%nat then Some (digits_value 0 g) else None.

(** The six fields of a quotation the missing-data penalty looks for, each
    with whether the extraction left it out: lead time, payment terms and
    delivery terms absent, empty or "N/A"; no quotation date; no MOQ or a
    MOQ of 0; no tooling cost or a tooling cost of 0. *)
Definition left_out (quote : models.ExtractedQuotation Q) : list bool :=
  [ QuotationComparator.absent_text (models.lead_time quote);
    QuotationComparator.absent_text (models.payment_terms quote);
    QuotationComparator.absent_text (models.delivery_terms quote);
    bool_decide (models.quotation_date quote = None);
    match models.moq quote with
    | None => true
    | Some n => (n =? 0)%Z
    end;
    negb (QuotationComparator.truthy (models.tooling_cost quote)) ].

(** The order [list.sort(key=total_cost_eur)] sorts by. *)
Definition cheaper (a b : Item Q) : bool :=
  Qltb (total_cost_eur (data a)) (total_cost_eur (data b)).

(** The comparison table [compare] assembles from the items it built
    ([comparison_data]) and their scored copies: ranked by score, each row
    stamped with its score rank, its cost rank and its display rank. *)
Definition ranked_table (comparison_data scored : list (Item Q)) : list (Item Q) :=
  map QuotationComparator.stamp_ranking
      (map (QuotationComparator.stamp_cost_ranking (stable_sort cheaper comparison_data))
           (stamp_enumerate set_final_ranking (stable_sort better scored))).

(** ** llm_extractor.py: construction of the extractor

    The environment variables are a map from names to values, whether the
    [anthropic] package can be imported is a flag, and the client objects
    are records of what they were constructed with. *)

Module LLMExtractor.

(** [instructor.patch(OpenAI(api_key=..., base_url=...))], with the base URL
    when one is given, or [instructor.from_anthropic(Anthropic(api_key=...))]. *)
Inductive Client : Type :=
  | OpenAI (api_key : string) (base_url : option string)
  | Anthropic (api_key : string).

(** What the constructor raises, with the message. *)
Inductive InitError : Type :=
  | ValueError_msg (msg : string)
  | ImportError_msg (msg : string).

(** The attributes of the constructed object. *)
Record t : Type := {
  provider : string;
  model : option string;
  client : Client
}.

Definition DEFAULT_MODEL : string := "llama-3.3-70b-versatile".

(** Truth value of an optional text: neither [None] nor empty. *)
Definition truthy (v : option string) : bool :=
  match v with
  | None => false
  | Some s => negb (bool_decide (s = ""))
  end.

(** [api_key = api_key or os.getenv(name)], then
    [if not api_key: raise ValueError(msg)]. *)
Definition key_or_env (api_key : option string) (environ : gmap string string)
    (name msg : string) : InitError + string :=
  match (if truthy api_key then api_key else environ !! name) with
  | Some key => if bool_decide (key = "") then inl (ValueError_msg msg) else inr key
  | None => inl (ValueError_msg msg)
  end.

(** [self.model] after
    [if not model or model == "llama-3.3-70b-versatile": self.model = name]. *)
Definition model_or (model : option string) (name : string) : option string :=
  if negb (truthy model) || bool_decide (model = Some DEFAULT_MODEL)
  then Some name else model.

Definition __init__ (environ : gmap string string) (anthropic_installed : bool)
    (provider : string) (model : option string) (api_key : option string)
  : InitError + t :=
  let self_provider := lower provider in
  if bool_decide (self_provider = "ollama") then
    let base_url := default "http://localhost:11434/v1" (environ !! "OLLAMA_BASE_URL") in
    inr {| provider := self_provider; model := model_or model "llama3.1:8b";
           client := OpenAI "ollama" (Some base_url) |}
  else if bool_decide (self_provider = "groq") then
    match key_or_env api_key environ "GROQ_API_KEY"
            "Groq API key required. Set GROQ_API_KEY env var or pass api_key" with
    | inl e => inl e
    | inr key =>
        inr {| provider := self_provider; model := model;
               client := OpenAI key (Some "https://api.groq.com/openai/v1") |}
    end
  else if bool_decide (self_provider = "openai") then
    match key_or_env api_key environ "OPENAI_API_KEY"
            "OpenAI API key required. Set OPENAI_API_KEY env var or pass api_key" with
    | inl e => inl e
    | inr key =>
        inr {| provider := self_provider; model := model; client := OpenAI key None |}
    end
  else if bool_decide (self_provider = "anthropic") then
    if anthropic_installed then
      match key_or_env api_key environ "ANTHROPIC_API_KEY"
              "Anthropic API key required. Set ANTHROPIC_API_KEY env var or pass api_key" with
      | inl e => inl e
      | inr key =>
          inr {| provider := self_provider;
                 model := model_or model "claude-3-5-sonnet-20241022";
                 client := Anthropic key |}
      end
    else
      inl (ImportError_msg
             "anthropic package required. Install: pip install anthropic instructor-anthropic")
  else if bool_decide (self_provider = "deepseek") then
    match key_or_env api_key environ "DEEPSEEK_API_KEY"
            "DeepSeek API key required. Set DEEPSEEK_API_KEY env var or pass api_key" with
    | inl e => inl e
    | inr key =>
        inr {| provider := self_provider; model := model_or model "deepseek-chat";
               client := OpenAI key (Some "https://api.deepseek.com/v1") |}
    end
  else if bool_decide (self_provider = "together") then
    match key_or_env api_key environ "TOGETHER_API_KEY"
            "Together AI API key required. Set TOGETHER_API_KEY env var or pass api_key" with
    | inl e => inl e
    | inr key =>
        inr {| provider := self_provider;
               model := model_or model "meta-llama/Llama-3-70b-chat-hf";
               client := OpenAI key (Some "https://api.together.xyz/v1") |}
    end
  else if bool_decide (self_provider = "huggingface") then
    match key_or_env api_key environ "HUGGINGFACE_API_KEY"
            "Hugging Face API key required. Set HUGGINGFACE_API_KEY env var or pass api_key" with
    | inl e => inl e
    | inr key =>
        inr {| provider := self_provider;
               model := model_or model "meta-llama/Llama-3-8b-chat-hf";
               client := OpenAI key (Some "https://api-inference.huggingface.co/v1") |}
    end
  else if bool_decide (self_provider = "openrouter") then
    match key_or_env api_key environ "OPENROUTER_API_KEY"
            "OpenRouter API key required. Set OPENROUTER_API_KEY env var or pass api_key" with
    | inl e => inl e
    | inr key =>
        inr {| provider := self_provider;
               model := model_or model "meta-llama/llama-3.1-70b-instruct";
               client := OpenAI key (Some "https://openrouter.ai/api/v1") |}
    end
  else
    inl (ValueError_msg
           ("Unsupported provider: " ++ provider ++
            ". Supported: ollama, groq, openai, anthropic, deepseek, together, huggingface, openrouter")).

(** The providers the constructor knows, each with the environment variable
    its key is read from (none for the local one) and the model it puts in
    the place of the default model name (none where the name is kept). *)
Definition PROVIDERS : list (string * option string * option string) :=
  [ ("ollama", None, Some "llama3.1:8b");
    ("groq", Some "GROQ_API_KEY", None);
    ("openai", Some "OPENAI_API_KEY", None);
    ("anthropic", Some "ANTHROPIC_API_KEY", Some "claude-3-5-sonnet-20241022");
    ("deepseek", Some "DEEPSEEK_API_KEY", Some "deepseek-chat");
    ("together", Some "TOGETHER_API_KEY", Some "meta-llama/Llama-3-70b-chat-hf");
    ("huggingface", Some "HUGGINGFACE_API_KEY", Some "meta-llama/Llama-3-8b-chat-hf");
    ("openrouter", Some "OPENROUTER_API_KEY", Some "meta-llama/llama-3.1-70b-instruct") ].

(** The key a client was constructed with. *)
Definition client_key (c : Client) : string :=
  match c with
  | OpenAI key _ => key
  | Anthropic key => key
  end.

End LLMExtractor.

(** ** compare_quotations.py: gathering the quotations

    The script's two loops, with the PDF loader, the extractor, the text of
    an exception, the saved JSON file and the validation of a saved record
    as parameters. *)

Module compare_quotations.

Section Script.
Context {num Documents JsonItem : Type}.
Variable load : string -> outcome Documents.
Variable extract : Documents -> outcome (models.ExtractedQuotation num).
Variable str : PyExn -> string.
Variable validate : JsonItem -> outcome (models.ExtractedQuotation num).

(** [for pdf_file in pdf_files: try: ... except Exception as e: ...]. *)
Fixpoint extraction_loop (pdf_files : list string)
    (quotations : list (models.ExtractedQuotation num))
    (extraction_errors : list (string * string))
  : list (models.ExtractedQuotation num) * list (string * string) :=
  match pdf_files with
  | [] => (quotations, extraction_errors)
  | pdf_file :: rest =>
      match documents ← load pdf_file; extract documents with
      | Returns quotation => extraction_loop rest (quotations ++ [quotation]) extraction_errors
      | Raises e =>
          extraction_loop rest quotations (extraction_errors ++ [(pdf_file, str e)])
      end
  end.

(** [for item in data: ...] inside the [try]: a record that fails to
    validate ends the loop, and what was appended before it stays. *)
Fixpoint load_loop (existing_names : gset string) (data : list JsonItem)
    (quotations : list (models.ExtractedQuotation num))
  : list (models.ExtractedQuotation num) :=
  match data with
  | [] => quotations
  | item :: rest =>
      match validate item with
      | Returns quote =>
          if bool_decide (models.supplier_name quote ∈ existing_names)
          then load_loop existing_names rest quotations
          else load_loop existing_names rest (quotations ++ [quote])
      | Raises _ => quotations
      end
  end.

(** [if len(quotations) < 4 and os.path.exists(...)]: [saved] is [None]
    when the file does not exist, else the outcome of [json.load]. *)
Definition load_missing (saved : option (outcome (list JsonItem)))
    (quotations : list (models.ExtractedQuotation num))
  : list (models.ExtractedQuotation num) :=
  if (length quotations <? 4)%nat then
    match saved with
    | Some (Returns data) =>
        load_loop (list_to_set (map models.supplier_name quotations)) data quotations
    | Some (Raises _) => quotations
    | None => quotations
    end
  else quotations.

(** What one PDF file gives: [loader.load] then [extractor.extract]. *)
Definition process (pdf_file : string) : outcome (models.ExtractedQuotation num) :=
  documents ← load pdf_file; extract documents.

(** The saved records up to the first one that fails to validate. *)
Fixpoint validated_prefix (data : list JsonItem) : list (models.ExtractedQuotation num) :=
  match data with
  | [] => []
  | item :: rest =>
      match validate item with
      | Returns quote => quote :: validated_prefix rest
      | Raises _ => []
      end
  end.

(** The quotations handed to [compare], and the extraction errors. *)
Definition gather (pdf_files : list string) (saved : option (outcome (list JsonItem)))
  : list (models.ExtractedQuotation num) * list (string * string) :=
  let '(quotations, extraction_errors) := extraction_loop pdf_files [] [] in
  (load_missing saved quotations, extraction_errors).

End Script.

End compare_quotations.

(** Stand-ins to run the script's loops: a quotation known by its supplier
    name only, a loader that fails on one file, an extractor that names the
    supplier after the document, and saved records that are supplier names,
    the empty one failing validation. *)
Module ScriptSamples.

Definition named_quote (name : string) : models.ExtractedQuotation Q :=
  {| models.supplier_name := name;
     models.annual_prices := [];
     models.annual_quantities := ∅;
     models.tooling_cost := None;
     models.tooling_cost_type := None;
     models.delivery_terms := None;
     models.payment_terms := None;
     models.lead_time := None;
     models.currency := models.USD;
     models.quotation_date := None;
     models.moq := None |}.

Definition stub_load (pdf_file : string) : outcome string :=
  if bool_decide (pdf_file = "b.pdf") then Raises (ExternalError "unreadable")
  else Returns pdf_file.

Definition stub_extract (documents : string) : outcome (models.ExtractedQuotation Q) :=
  if bool_decide (documents = "c.pdf") then Raises (ExternalError "rate limit")
  else Returns (named_quote documents).

Definition stub_str (e : PyExn) : string :=
  match e with
  | ExternalError msg => msg
  | _ => ""
  end.

Definition stub_validate (item : string) : outcome (models.ExtractedQuotation Q) :=
  if bool_decide (item = "") then Raises ValueError else Returns (named_quote item).

End ScriptSamples.

(** ** comparison.py: the comparison table as rows of text

    [to_dataframe] and [_format_price_summary].  The frame is the list of
    its rows, a row the record of its columns; [format(x, spec)] on a number
    is a parameter, [str] of an [int] is its decimal text, and the symbols
    outside ASCII stand as their UTF-8 bytes. *)

From Stdlib Require Qabs.
From stdpp Require pretty.

Module Reporting.

Import QuotationComparator.
Local Open Scope string_scope.

(** [str] of an [int]. *)
Definition str_int (n : Z) : string := pretty.pretty n.


(** [sep.join(l)]. *)
Fixpoint join (sep : string) (l : list string) : string :=
  match l with
  | [] => ""
  | [x] => x
  | x :: r => x ++ sep ++ join sep r
  end.

(** [breakdown[year]]. *)
Definition breakdown_at (breakdown : list (Z * BreakdownRow Q)) (year : Z)
  : outcome (BreakdownRow Q) :=
  match list_find (fun p => p.1 = year) breakdown with
  | Some (_, p) => Returns p.2
  | None => Raises KeyError
  end.

(** One row of the frame, column by column: "Rank", "Supplier Name",
    "Recommendation", "Total Score", "Missing Data Penalty", the five score
    columns, "Total Cost (TCO) - EUR", "Tooling Cost - EUR", "Average Unit
    Price - EUR", "Price Summary (EUR)", "Original Currency", "Total Cost
    (Original)", "Incoterms", "Delivery Terms", "Lead Time", "Lead Time
    (Weeks)", "Payment Terms", "Payment Days", "MOQ", "Quotation Date" and
    "Years Covered". *)
Record Row : Type := {
  Rank : nat;
  Supplier_Name : string;
  Recommendation : string;
  Total_Score : string;
  Missing_Data_Penalty : string;
  TCO_Score : string;
  Delivery_Score : string;
  Payment_Score : string;
  Tooling_Score : string;
  MOQ_Score : string;
  Total_Cost_EUR : string;
  Tooling_Cost_EUR : string;
  Average_Unit_Price_EUR : string;
  Price_Summary_EUR : string;
  Original_Currency : string;
  Total_Cost_Original : string;
  Incoterms : string;
  Delivery_Terms : option string;
  Lead_Time : option string;
  Lead_Time_Weeks : option Q;
  Payment_Terms : option string;
  Payment_Days : Z + string;
  MOQ : MoqVal;
  Quotation_Date : option string;
  Years_Covered : string
}.

(** [comparison.get("recommendation", {}).get("recommended_supplier")]. *)
Definition recommended_supplier_of (comparison : Comparison Q) : outcome (option string) :=
  match recommendation comparison with
  | None => Returns None
  | Some None => Raises AttributeError
  | Some (Some r) => Returns (recommended_supplier r)
  end.

Section Formatting.
Variable format_float : string -> Q -> string.

Definition _format_price_summary (breakdown : list (Z * BreakdownRow Q)) : outcome string :=
  match breakdown with
  | [] => mret "N/A"
  | _ =>
      let years := stable_sort Z.ltb breakdown.*1 in
      match years with
      | [] => mret "N/A"
      | [year] =>
          row ← breakdown_at breakdown year;
          mret (str_int year ++ ": €" ++ format_float ".2f" (unit_price row))
      | first_year :: _ =>
          let last_year := List.last years first_year in
          first_row ← breakdown_at breakdown first_year;
          last_row ← breakdown_at breakdown last_year;
          let first_price := unit_price first_row in
          let last_price := unit_price last_row in
          let trend :=
            if Qltb last_price first_price then "↓"
            else if Qltb first_price last_price then "↑" else "→" in
          let reduction :=
            if Qltb 0 first_price
            then Qabs.Qabs ((first_price - last_price) / first_price * 100)
            else 0%Q in
          mret (str_int first_year ++ ": €" ++ format_float ".2f" first_price ++ " → " ++
                str_int last_year ++ ": €" ++ format_float ".2f" last_price ++ " (" ++
                trend ++ " " ++ format_float ".1f" reduction ++ "%)")
      end
  end.

(** The body of the loop of [to_dataframe]. *)
Definition dataframe_row (comparison : Comparison Q) (item : Item Q) : outcome Row :=
  let d := data item in
  let score := fun (key : (Scores Q) -> Q) => default 0%Q (key <$> scores item) in
  let penalty := default 0%Z (missing_data_penalty <$> scores item) in
  price_summary ← _format_price_summary (price_breakdown_eur d);
  rank ← getitem (ranking item);
  rec_note ←
    (if (rank =? 1)%nat then
       named ← recommended_supplier_of comparison;
       mret (if bool_decide (named = Some (supplier d)) then "RECOMMENDED" else "")
     else mret "");
  mret {|
    Rank := rank;
    Supplier_Name := supplier d;
    Recommendation := rec_note;
    Total_Score := format_float ".1f" (default 0%Q (total_score item));
    Missing_Data_Penalty :=
      if (0 <? penalty)%Z then "-" ++ format_float ".1f" (inject_Z penalty) else "0";
    TCO_Score := format_float ".1f" (score tco_score);
    Delivery_Score := format_float ".1f" (score delivery_score);
    Payment_Score := format_float ".1f" (score payment_score);
    Tooling_Score := format_float ".1f" (score tooling_score);
    MOQ_Score := format_float ".1f" (score moq_score);
    Total_Cost_EUR := "€" ++ format_float ",.2f" (total_cost_eur d);
    Tooling_Cost_EUR := "€" ++ format_float ",.2f" (tooling_cost_eur d);
    Average_Unit_Price_EUR := "€" ++ format_float ".2f" (unit_cost_avg_eur d);
    Price_Summary_EUR := price_summary;
    Original_Currency := original_currency d;
    Total_Cost_Original :=
      format_float ",.2f" (total_cost_original d) ++ " " ++ original_currency d;
    Incoterms := incoterms d;
    Delivery_Terms := delivery_terms d;
    Lead_Time := lead_time d;
    Lead_Time_Weeks := lead_time_weeks d;
    Payment_Terms := payment_terms d;
    Payment_Days :=
      match payment_days d with
      | Some days => if (days =? 0)%Z then inr "N/A" else inl days
      | None => inr "N/A"
      end;
    MOQ := moq d;
    Quotation_Date := quotation_date d;
    Years_Covered := join ", " (map str_int (stable_sort Z.ltb (years_covered d)))
  |}.

(** [to_dataframe]: the empty frame when the comparison is empty or has no
    table, else one row per item of the table. *)
Definition to_dataframe (comparison : Comparison Q) : outcome (list Row) :=
  match comparison_table comparison with
  | None => mret []
  | Some table => mapM (dataframe_row comparison) table
  end.

End Formatting.

(** A stand-in for [format]: the spec and the exact fraction. *)
Definition stub_format (spec : string) (x : Q) : string :=
  str_int (Qnum (Qred x)) ++ "/" ++ str_int (Zpos (Qden (Qred x))) ++ ":" ++ spec.

End Reporting.

(** * Properties *)

Lemma bind_returns {A B} (f : A -> outcome B) (x : A) : Returns x ≫= f = f x.
Proof. reflexivity. Qed.

(** ** Arithmetic helpers *)

(** At the exact instance the operations of the arithmetic are those of
    [Q]. *)
Ltac q_ops :=
  cbn [add sub mul div num_ltb num_eqb of_int int_div literal of_decimal is_zero
       Q_arith] in *;
  change (inject_Z 0) with 0%Q in *;
  change (inject_Z 1) with 1%Q in *;
  change (inject_Z 100) with 100%Q in *;
  change (inject_Z 7) with 7%Q in *;
  change (inject_Z 52) with 52%Q in *.

Ltac q_round :=
  change (@py_round Q Q_arith) with round_exact in *; unfold round_exact in *.

Section NumberFacts.
Local Open Scope Q_scope.

Lemma Qltb_lt (x y : Q) : Qltb x y = true <-> x < y.
Proof.
  unfold Qltb. rewrite negb_true_iff, <- not_true_iff_false, Qle_bool_iff.
  split; [apply Qnot_le_lt | apply Qlt_not_le].
Qed.

Lemma Qltb_ge (x y : Q) : Qltb x y = false <-> y <= x.
Proof.
  unfold Qltb. rewrite negb_false_iff, Qle_bool_iff. reflexivity.
Qed.

Lemma max0_nonneg (x : Q) : 0 <= max0 x.
Proof.
  unfold max0; q_ops. destruct (Qltb 0 x) eqn:E; [|lra].
  apply Qltb_lt in E. lra.
Qed.

Lemma max0_le (x b : Q) : 0 <= b -> x <= b -> max0 x <= b.
Proof. unfold max0; q_ops. destruct (Qltb 0 x); intros; lra. Qed.

Lemma max0_of_nonneg (x : Q) : 0 <= x -> max0 x == x.
Proof.
  unfold max0; q_ops. destruct (Qltb 0 x) eqn:E; [lra|]. apply Qltb_ge in E. lra.
Qed.

Lemma max0_comp (x y : Q) : x == y -> max0 x == max0 y.
Proof.
  intros E. unfold max0; q_ops.
  destruct (Qltb 0 x) eqn:Ex, (Qltb 0 y) eqn:Ey; try lra.
  - apply Qltb_lt in Ex. apply Qltb_ge in Ey. lra.
  - apply Qltb_ge in Ex. apply Qltb_lt in Ey. lra.
Qed.

Lemma round_half_even_comp (x y : Q) : x == y -> round_half_even x = round_half_even y.
Proof.
  intros E. unfold round_half_even.
  rewrite (Qfloor_comp _ _ E).
  assert (Ec : (x - inject_Z (Qfloor y) ?= 1 # 2) = (y - inject_Z (Qfloor y) ?= 1 # 2))
    by (apply Qcompare_comp; [rewrite E|]; reflexivity).
  rewrite Ec. reflexivity.
Qed.

Lemma round_half_even_lower (a : Z) (q : Q) : inject_Z a <= q -> (a <= round_half_even q)%Z.
Proof.
  intros H. unfold round_half_even.
  assert (a <= Qfloor q)%Z.
  { rewrite <- (Qfloor_Z a). apply Qfloor_resp_le, H. }
  destruct (q - inject_Z (Qfloor q) ?= 1 # 2); [destruct (Z.even _)| |]; lia.
Qed.

Lemma round_half_even_upper (b : Z) (q : Q) : q <= inject_Z b -> (round_half_even q <= b)%Z.
Proof.
  intros H. unfold round_half_even.
  assert (Hf : (Qfloor q <= b)%Z).
  { rewrite <- (Qfloor_Z b). apply Qfloor_resp_le, H. }
  destruct (Z.eq_dec (Qfloor q) b) as [E|NE].
  - assert (Hlt : q - inject_Z (Qfloor q) < 1 # 2) by (rewrite E; lra).
    rewrite (proj1 (Qlt_alt _ _) Hlt). lia.
  - destruct (q - inject_Z (Qfloor q) ?= 1 # 2); [destruct (Z.even _)| |]; lia.
Qed.

Lemma scale_pos (n : nat) : 0 < inject_Z (10 ^ Z.of_nat n).
Proof.
  change 0 with (inject_Z 0). rewrite <- Zlt_Qlt. apply Z.pow_pos_nonneg; lia.
Qed.

Lemma py_round_comp (x y : Q) (n : nat) : x == y -> py_round x n = py_round y n.
Proof.
  intros E. q_round.
  set (s := inject_Z (10 ^ Z.of_nat n)).
  rewrite (round_half_even_comp (x * s) (y * s)); [reflexivity | rewrite E; reflexivity].
Qed.

(** Rounding keeps a number between the integer bounds it lies between. *)
Lemma py_round_bounds (a b : Z) (x : Q) (n : nat) :
  inject_Z a <= x <= inject_Z b ->
  inject_Z a <= py_round x n <= inject_Z b.
Proof.
  intros [Ha Hb]. q_round. rewrite Qred_correct.
  pose proof (scale_pos n) as Hs.
  set (s := (10 ^ Z.of_nat n)%Z) in *.
  assert (Hl : (a * s <= round_half_even (x * inject_Z s))%Z).
  { apply round_half_even_lower. rewrite inject_Z_mult. nra. }
  assert (Hu : (round_half_even (x * inject_Z s) <= b * s)%Z).
  { apply round_half_even_upper. rewrite inject_Z_mult. nra. }
  set (k := round_half_even (x * inject_Z s)) in *.
  rewrite Zle_Qle, inject_Z_mult in Hl, Hu.
  split.
  - apply Qle_shift_div_l; [exact Hs | exact Hl].
  - apply Qle_shift_div_r; [exact Hs | exact Hu].
Qed.

Lemma py_round_unit_interval (x : Q) (n : nat) :
  0 <= x <= 100 -> 0 <= py_round x n <= 100.
Proof. intros H. apply (py_round_bounds 0 100 x n). exact H. Qed.

Lemma py_round_integer (a : Z) (x : Q) (n : nat) :
  x == inject_Z a -> py_round x n == inject_Z a.
Proof.
  intros E. pose proof (py_round_bounds a a x n) as H.
  destruct H as [H1 H2]; [split; rewrite E; apply Qle_refl|]. lra.
Qed.

Lemma min_max_score_range (x lo hi : Q) :
  lo <= x -> lo < hi ->
  0 <= ProcurementScorer.min_max_score x lo hi <= 100.
Proof.
  intros Hx Hlh. unfold ProcurementScorer.min_max_score; q_ops.
  apply py_round_unit_interval. split; [apply max0_nonneg|].
  apply max0_le; [lra|].
  assert (0 <= (x - lo) / (hi - lo)).
  { apply Qle_shift_div_l; lra. }
  lra.
Qed.

Lemma min_max_score_at_min (x lo hi : Q) :
  x == lo -> lo < hi -> ProcurementScorer.min_max_score x lo hi == 100.
Proof.
  intros E Hlh. unfold ProcurementScorer.min_max_score; q_ops.
  apply (py_round_integer 100).
  assert (Ez : 100 * (1 - (x - lo) / (hi - lo)) == 100) by (rewrite E; field; lra).
  rewrite max0_of_nonneg; rewrite Ez; [reflexivity | lra].
Qed.

Lemma min_max_score_at_max (x lo hi : Q) :
  x == hi -> lo < hi -> ProcurementScorer.min_max_score x lo hi == 0.
Proof.
  intros E Hlh. unfold ProcurementScorer.min_max_score; q_ops.
  apply (py_round_integer 0).
  assert (Ez : 100 * (1 - (x - lo) / (hi - lo)) == 0) by (rewrite E; field; lra).
  unfold max0; q_ops. destruct (Qltb 0 _) eqn:El; [|reflexivity].
  apply Qltb_lt in El. lra.
Qed.

Lemma min_max_score_int_Q (x lo hi : Z) :
  ProcurementScorer.min_max_score_int (num := Q) x lo hi =
  ProcurementScorer.min_max_score (inject_Z x) (inject_Z lo) (inject_Z hi).
Proof.
  unfold ProcurementScorer.min_max_score_int, ProcurementScorer.min_max_score.
  apply py_round_comp, max0_comp. q_ops. unfold Zminus.
  rewrite !inject_Z_plus, !inject_Z_opp. reflexivity.
Qed.

Lemma perfect_score_range : 0 <= 100.0 <= 100.
Proof. split; unfold Qle; simpl; lia. Qed.

Lemma fallback_score_range : 0 <= 20.0 <= 100.
Proof. split; unfold Qle; simpl; lia. Qed.

End NumberFacts.

(** ** Comparisons of binary64 numbers

    [<] and [==] on [float] are specified by [SFcompare] on the numbers'
    sign, exponent and mantissa. *)

Section Binary64Order.
Import SpecFloat.

Lemma SFcompare_finite_Eq (s1 s2 : bool) (m1 m2 : positive) (e1 e2 : Z) :
  SFcompare (S754_finite s1 m1 e1) (S754_finite s2 m2 e2) = Some Eq ->
  s1 = s2 /\ m1 = m2 /\ e1 = e2.
Proof.
  cbn [SFcompare]. destruct s1, s2; try discriminate;
    destruct (Z.compare e1 e2) eqn:E1; try discriminate;
    destruct (Pos.compare_cont Eq m1 m2) eqn:E2; try discriminate;
    apply Z.compare_eq in E1; apply Pos.compare_eq in E2; auto.
Qed.

Lemma SFcompare_ties (a b c : spec_float) :
  SFcompare a c = Some Eq -> SFcompare b c = Some Eq -> SFcompare b a = Some Eq.
Proof.
  destruct a as [sa|sa| |sa ma ea], c as [sc|sc| |sc mc ec],
           b as [sb|sb| |sb mb eb];
    try (cbn [SFcompare]; repeat match goal with
                                 | s : bool |- _ => destruct s
                                 end; (discriminate || reflexivity)).
  intros Ha Hb.
  apply SFcompare_finite_Eq in Ha. destruct Ha as (-> & -> & ->). exact Hb.
Qed.

Lemma float_tie_not_less (x y t : float) :
  PrimFloat.eqb x t = true -> PrimFloat.eqb y t = true -> PrimFloat.ltb y x = false.
Proof.
  rewrite !FloatAxioms.eqb_spec, FloatAxioms.ltb_spec. unfold SFeqb, SFltb. intros Hx Hy.
  destruct (SFcompare (Prim2SF x) (Prim2SF t)) as [[]|] eqn:Ex; try discriminate.
  destruct (SFcompare (Prim2SF y) (Prim2SF t)) as [[]|] eqn:Ey; try discriminate.
  rewrite (SFcompare_ties _ _ _ Ex Ey). reflexivity.
Qed.

Ltac cmp_cases :=
  repeat match goal with
         | s : bool |- _ => destruct s
         | H : context [Z.compare ?a ?b] |- _ =>
             destruct (Z.compare_spec a b); try subst
         | |- context [Z.compare ?a ?b] =>
             destruct (Z.compare_spec a b); try subst
         | H : context [Pos.compare_cont Eq ?a ?b] |- _ =>
             change (Pos.compare_cont Eq a b) with (Pos.compare a b) in *;
             destruct (Pos.compare_spec a b); try subst
         | |- context [Pos.compare_cont Eq ?a ?b] =>
             change (Pos.compare_cont Eq a b) with (Pos.compare a b) in *;
             destruct (Pos.compare_spec a b); try subst
         end.

(** [<] on numbers that are not NaN is negatively transitive. *)
Lemma SFltb_neg_trans (a b c : spec_float) :
  b <> S754_nan ->
  SFltb b a = false -> SFltb c b = false -> SFltb c a = false.
Proof.
  unfold SFltb. intros Hb.
  destruct a as [sa|sa| |sa ma ea], b as [sb|sb| |sb mb eb],
           c as [sc|sc| |sc mc ec]; try congruence;
    cbn [SFcompare]; cmp_cases; cbn [CompOpp]; try reflexivity; try discriminate;
    try lia.
Qed.

Lemma SFltb_asym (a b : spec_float) : SFltb a b = true -> SFltb b a = false.
Proof.
  unfold SFltb.
  destruct a as [sa|sa| |sa ma ea], b as [sb|sb| |sb mb eb];
    cbn [SFcompare]; cmp_cases; cbn [CompOpp]; try reflexivity; try discriminate;
    try lia.
Qed.

Lemma float_ltb_asym (x y : float) : PrimFloat.ltb x y = true -> PrimFloat.ltb y x = false.
Proof. rewrite !FloatAxioms.ltb_spec. apply SFltb_asym. Qed.

Lemma float_not_nan (x : float) : PrimFloat.eqb x x = true -> Prim2SF x <> S754_nan.
Proof. rewrite FloatAxioms.eqb_spec. intros Hx E. rewrite E in Hx. discriminate. Qed.

Lemma float_ltb_neg_trans (x y z : float) :
  PrimFloat.eqb y y = true ->
  PrimFloat.ltb y x = false -> PrimFloat.ltb z y = false -> PrimFloat.ltb z x = false.
Proof.
  rewrite !FloatAxioms.ltb_spec. intros Hy. apply SFltb_neg_trans, float_not_nan, Hy.
Qed.

End Binary64Order.
(** ** The built-in [min] and [max] *)

Section MinMaxFacts.
Context {A : Type} (ltb : A -> A -> bool) (le : A -> A -> Prop) (ok : A -> Prop).
Hypothesis le_refl : forall x, le x x.
Hypothesis le_trans : forall x y z, ok y -> le x y -> le y z -> le x z.
Hypothesis ltb_true : forall x y, ltb x y = true -> le x y.
Hypothesis ltb_false : forall x y, ltb x y = false -> le y x.

Lemma fold_min_spec (r : list A) (x : A) :
  Forall ok (x :: r) ->
  let m := fold_left (fun m y => if ltb y m then y else m) r x in
  In m (x :: r) /\ Forall (le m) (x :: r).
Proof.
  revert x. induction r as [|y r IH]; intros x Hok; simpl.
  - split; [left; reflexivity | repeat constructor; apply le_refl].
  - inversion Hok as [|? ? Hx0 Hok']; subst. inversion Hok' as [|? ? Hy0 Hr0]; subst.
    destruct (ltb y x) eqn:E.
    + destruct (IH y Hok') as [Hin Hall]. inversion Hall as [|? ? Hy Hr]; subst.
      split; [simpl in Hin; tauto|].
      constructor; [eapply le_trans; [exact Hy0 | exact Hy | apply ltb_true, E]|].
      constructor; assumption.
    + assert (Hokx : Forall ok (x :: r)) by (constructor; assumption).
      destruct (IH x Hokx) as [Hin Hall]. inversion Hall as [|? ? Hx Hr]; subst.
      split; [simpl in Hin; simpl; tauto|].
      constructor; [assumption|].
      constructor; [eapply le_trans; [exact Hx0 | exact Hx | apply ltb_false, E] | assumption].
Qed.

Lemma fold_max_spec (r : list A) (x : A) :
  Forall ok (x :: r) ->
  let m := fold_left (fun m y => if ltb m y then y else m) r x in
  In m (x :: r) /\ Forall (fun y => le y m) (x :: r).
Proof.
  revert x. induction r as [|y r IH]; intros x Hok; simpl.
  - split; [left; reflexivity | repeat constructor; apply le_refl].
  - inversion Hok as [|? ? Hx0 Hok']; subst. inversion Hok' as [|? ? Hy0 Hr0]; subst.
    destruct (ltb x y) eqn:E.
    + destruct (IH y Hok') as [Hin Hall]. inversion Hall as [|? ? Hy Hr]; subst.
      split; [simpl in Hin; tauto|].
      constructor; [eapply le_trans; [exact Hy0 | apply ltb_true, E | exact Hy]|].
      constructor; assumption.
    + assert (Hokx : Forall ok (x :: r)) by (constructor; assumption).
      destruct (IH x Hokx) as [Hin Hall]. inversion Hall as [|? ? Hx Hr]; subst.
      split; [simpl in Hin; simpl; tauto|].
      constructor; [assumption|].
      constructor; [eapply le_trans; [exact Hx0 | apply ltb_false, E | exact Hx] | assumption].
Qed.

(** On a non-empty list [min] returns a member below every member. *)
Lemma py_min_spec (l : list A) :
  Forall ok l -> l <> [] ->
  exists m, py_min ltb l = Returns m /\ In m l /\ Forall (le m) l.
Proof.
  destruct l as [|x r]; [congruence|]. intros Hok _.
  eexists; split; [reflexivity|]. apply fold_min_spec, Hok.
Qed.

Lemma py_max_spec (l : list A) :
  Forall ok l -> l <> [] ->
  exists m, py_max ltb l = Returns m /\ In m l /\ Forall (fun y => le y m) l.
Proof.
  destruct l as [|x r]; [congruence|]. intros Hok _.
  eexists; split; [reflexivity|]. apply fold_max_spec, Hok.
Qed.
End MinMaxFacts.

Lemma Forall_trivial {A} (l : list A) : Forall (fun _ => True) l.
Proof. induction l; constructor; auto. Qed.

Lemma py_min_Q (l : list Q) :
  l <> [] -> exists m, py_min Qltb l = Returns m /\ In m l /\ Forall (Qle m) l.
Proof.
  apply (py_min_spec Qltb Qle (fun _ => True)); [| | | |apply Forall_trivial].
  - apply Qle_refl.
  - intros x y z _. apply Qle_trans.
  - intros x y H. apply Qltb_lt in H. apply Qlt_le_weak, H.
  - intros x y H. apply Qltb_ge in H. exact H.
Qed.

Lemma py_max_Q (l : list Q) :
  l <> [] -> exists m, py_max Qltb l = Returns m /\ In m l /\ Forall (fun y => Qle y m) l.
Proof.
  apply (py_max_spec Qltb Qle (fun _ => True)); [| | | |apply Forall_trivial].
  - apply Qle_refl.
  - intros x y z _. apply Qle_trans.
  - intros x y H. apply Qltb_lt in H. apply Qlt_le_weak, H.
  - intros x y H. apply Qltb_ge in H. exact H.
Qed.

Lemma py_min_Z (l : list Z) :
  l <> [] -> exists m, py_min Z.ltb l = Returns m /\ In m l /\ Forall (Z.le m) l.
Proof.
  apply (py_min_spec Z.ltb Z.le (fun _ => True)); try apply Forall_trivial; intros; lia.
Qed.

Lemma py_max_Z (l : list Z) :
  l <> [] -> exists m, py_max Z.ltb l = Returns m /\ In m l /\ Forall (fun y => Z.le y m) l.
Proof.
  apply (py_max_spec Z.ltb Z.le (fun _ => True)); try apply Forall_trivial; intros; lia.
Qed.

Lemma min_max_pick_Q (l : list Q) (x : Q) :
  In x l ->
  exists lo hi,
    py_min Qltb l = Returns lo /\ py_max Qltb l = Returns hi /\
    In lo l /\ In hi l /\
    Forall (Qle lo) l /\ Forall (fun y => Qle y hi) l /\ (lo <= x <= hi)%Q.
Proof.
  intros Hx.
  assert (Hne : l <> []) by (intros ->; inversion Hx).
  destruct (py_min_Q l Hne) as (lo & Hlo & Hlo_in & Hlo_all).
  destruct (py_max_Q l Hne) as (hi & Hhi & Hhi_in & Hhi_all).
  exists lo, hi. repeat split; try assumption.
  - exact (proj1 (List.Forall_forall _ _) Hlo_all x Hx).
  - exact (proj1 (List.Forall_forall _ _) Hhi_all x Hx).
Qed.

Lemma min_max_pick_Z (l : list Z) (x : Z) :
  In x l ->
  exists lo hi,
    py_min Z.ltb l = Returns lo /\ py_max Z.ltb l = Returns hi /\
    In lo l /\ In hi l /\
    Forall (Z.le lo) l /\ Forall (fun y => Z.le y hi) l /\ (lo <= x <= hi)%Z.
Proof.
  intros Hx.
  assert (Hne : l <> []) by (intros ->; inversion Hx).
  destruct (py_min_Z l Hne) as (lo & Hlo & Hlo_in & Hlo_all).
  destruct (py_max_Z l Hne) as (hi & Hhi & Hhi_in & Hhi_all).
  exists lo, hi. repeat split; try assumption.
  - exact (proj1 (List.Forall_forall _ _) Hlo_all x Hx).
  - exact (proj1 (List.Forall_forall _ _) Hhi_all x Hx).
Qed.


(** On binary64 numbers none of which is NaN, [min] returns a member no
    member is less than, and [max] one no member is greater than. *)
Lemma py_min_float (l : list float) :
  Forall (fun x => PrimFloat.eqb x x = true) l -> l <> [] ->
  exists m, py_min PrimFloat.ltb l = Returns m /\ In m l /\
            Forall (fun y => PrimFloat.ltb y m = false) l.
Proof.
  apply (py_min_spec PrimFloat.ltb (fun x y => PrimFloat.ltb y x = false)
           (fun x => PrimFloat.eqb x x = true)).
  - intros x. destruct (PrimFloat.ltb x x) eqn:E; [|reflexivity].
    rewrite <- E. apply float_ltb_asym, E.
  - intros x y z Hy Hxy Hyz. exact (float_ltb_neg_trans x y z Hy Hxy Hyz).
  - intros x y. apply float_ltb_asym.
  - intros x y E. exact E.
Qed.

Lemma py_max_float (l : list float) :
  Forall (fun x => PrimFloat.eqb x x = true) l -> l <> [] ->
  exists m, py_max PrimFloat.ltb l = Returns m /\ In m l /\
            Forall (fun y => PrimFloat.ltb m y = false) l.
Proof.
  apply (py_max_spec PrimFloat.ltb (fun x y => PrimFloat.ltb y x = false)
           (fun x => PrimFloat.eqb x x = true)).
  - intros x. destruct (PrimFloat.ltb x x) eqn:E; [|reflexivity].
    rewrite <- E. apply float_ltb_asym, E.
  - intros x y z Hy Hxy Hyz. exact (float_ltb_neg_trans x y z Hy Hxy Hyz).
  - intros x y. apply float_ltb_asym.
  - intros x y E. exact E.
Qed.
(** ** The criteria in any arithmetic *)

Lemma in_not_nil {B} (x : B) (l : list B) : In x l -> l <> [].
Proof. intros Hin ->. inversion Hin. Qed.

Section PickFacts.
Context {A : Type} (ltb : A -> A -> bool).

(** [min] and [max] of a non-empty sequence return one of its elements. *)
Lemma fold_pick_In (pick : A -> A -> bool) (r : list A) (x : A) :
  In (fold_left (fun m y => if pick m y then y else m) r x) (x :: r).
Proof.
  revert x. induction r as [|y r IH]; intros x; cbn [fold_left].
  - left. reflexivity.
  - destruct (pick x y).
    + right. apply IH.
    + destruct (IH x) as [E|Hin]; [left; exact E | right; right; exact Hin].
Qed.

Lemma py_min_In (l : list A) :
  l <> [] -> exists m, py_min ltb l = Returns m /\ In m l.
Proof.
  destruct l as [|x r]; [congruence|]. intros _. eexists. split; [reflexivity|].
  apply (fold_pick_In (fun m y => ltb y m)).
Qed.

Lemma py_max_In (l : list A) :
  l <> [] -> exists m, py_max ltb l = Returns m /\ In m l.
Proof.
  destruct l as [|x r]; [congruence|]. intros _. eexists. split; [reflexivity|].
  apply (fold_pick_In (fun m y => ltb m y)).
Qed.

End PickFacts.

Section CriteriaStructure.
Context {num : Type} {arith : Arith num}.
Import ProcurementScorer.
Local Open Scope list_scope.

(** Every criterion, for a cohort with at least one figure: the least and
    the greatest figure as [min] and [max] give them, then 100.0 when the
    two compare equal and the min-max score of the item otherwise. *)
Lemma score_tco_any (cohort : list (Item num)) :
  cohort <> [] ->
  exists lo hi,
    py_min num_ltb (tcos cohort) = Returns lo /\
    py_max num_ltb (tcos cohort) = Returns hi /\
    In lo (tcos cohort) /\ In hi (tcos cohort) /\
    forall b, _score_tco b cohort =
              Returns (if num_eqb hi lo then literal 100.0%Q
                       else min_max_score (total_cost_eur (data b)) lo hi).
Proof.
  intros Hne.
  assert (Hl : tcos cohort <> []) by (destruct cohort; [congruence | discriminate]).
  destruct (py_min_In num_ltb _ Hl) as (lo & Hlo & Ilo).
  destruct (py_max_In num_ltb _ Hl) as (hi & Hhi & Ihi).
  exists lo, hi. split_and!; try assumption.
  intros b. unfold _score_tco. fold (tcos cohort). rewrite Hlo, Hhi, !bind_returns.
  destruct (num_eqb hi lo); reflexivity.
Qed.

Lemma score_tooling_any (cohort : list (Item num)) :
  cohort <> [] ->
  let costs := map (fun d => tooling_cost_eur (data d)) cohort in
  exists lo hi,
    py_min num_ltb costs = Returns lo /\ py_max num_ltb costs = Returns hi /\
    In lo costs /\ In hi costs /\
    forall b, _score_tooling b cohort =
              Returns (if num_eqb hi lo then literal 100.0%Q
                       else min_max_score (tooling_cost_eur (data b)) lo hi).
Proof.
  intros Hne costs.
  assert (Hl : costs <> []) by (subst costs; destruct cohort; [congruence | discriminate]).
  destruct (py_min_In num_ltb _ Hl) as (lo & Hlo & Ilo).
  destruct (py_max_In num_ltb _ Hl) as (hi & Hhi & Ihi).
  exists lo, hi. split_and!; try assumption.
  intros b. unfold _score_tooling. fold costs. rewrite Hlo, Hhi, !bind_returns.
  destruct (num_eqb hi lo); reflexivity.
Qed.

Lemma score_delivery_any (cohort : list (Item num)) :
  let quoted := omap (fun d => lead_time_weeks (data d)) cohort in
  quoted <> [] ->
  exists lo hi,
    py_min num_ltb quoted = Returns lo /\ py_max num_ltb quoted = Returns hi /\
    In lo quoted /\ In hi quoted /\
    forall b w, lead_time_weeks (data b) = Some w ->
      _score_delivery b cohort =
      Returns (if num_eqb hi lo then literal 100.0%Q else min_max_score w lo hi).
Proof.
  intros quoted Hne.
  destruct (py_min_In num_ltb _ Hne) as (lo & Hlo & Ilo).
  destruct (py_max_In num_ltb _ Hne) as (hi & Hhi & Ihi).
  exists lo, hi. split_and!; try assumption.
  intros b w Hb. unfold _score_delivery. fold quoted. rewrite Hb.
  destruct quoted as [|v r]; [congruence|].
  rewrite Hlo, Hhi, !bind_returns. destruct (num_eqb hi lo); reflexivity.
Qed.

Lemma score_payment_any (cohort : list (Item num)) :
  let quoted := omap (fun d => payment_days (data d)) cohort in
  quoted <> [] ->
  exists lo hi,
    py_min Z.ltb quoted = Returns lo /\ py_max Z.ltb quoted = Returns hi /\
    In lo quoted /\ In hi quoted /\
    forall b days, payment_days (data b) = Some days ->
      _score_payment b cohort =
      Returns (if (hi =? lo)%Z then literal 100.0%Q else min_max_score_int days lo hi).
Proof.
  intros quoted Hne.
  destruct (py_min_In Z.ltb _ Hne) as (lo & Hlo & Ilo).
  destruct (py_max_In Z.ltb _ Hne) as (hi & Hhi & Ihi).
  exists lo, hi. split_and!; try assumption.
  intros b w Hb. unfold _score_payment. fold quoted. rewrite Hb.
  destruct quoted as [|v r]; [congruence|].
  rewrite Hlo, Hhi, !bind_returns. destruct (hi =? lo)%Z; reflexivity.
Qed.

Lemma score_moq_any (cohort : list (Item num)) :
  let quoted := omap (fun d => valid_moq (moq (data d))) cohort in
  quoted <> [] ->
  exists lo hi,
    py_min Z.ltb quoted = Returns lo /\ py_max Z.ltb quoted = Returns hi /\
    In lo quoted /\ In hi quoted /\
    forall b m, valid_moq (moq (data b)) = Some m ->
      _score_moq b cohort =
      Returns (if (hi =? lo)%Z then literal 100.0%Q else min_max_score_int m lo hi).
Proof.
  intros quoted Hne.
  destruct (py_min_In Z.ltb _ Hne) as (lo & Hlo & Ilo).
  destruct (py_max_In Z.ltb _ Hne) as (hi & Hhi & Ihi).
  exists lo, hi. split_and!; try assumption.
  intros b w Hb. unfold _score_moq. fold quoted. rewrite Hb.
  destruct quoted as [|v r]; [congruence|].
  rewrite Hlo, Hhi, !bind_returns. destruct (hi =? lo)%Z; reflexivity.
Qed.

(** The fallback: an item without the figure scores 20.0 whatever the cohort. *)
Lemma score_delivery_fallback (item : Item num) (cohort : list (Item num)) :
  lead_time_weeks (data item) = None ->
  _score_delivery item cohort = Returns (literal 20.0%Q).
Proof.
  intros E. unfold _score_delivery. rewrite E. destruct (omap _ cohort); reflexivity.
Qed.

Lemma score_payment_fallback (item : Item num) (cohort : list (Item num)) :
  payment_days (data item) = None ->
  _score_payment item cohort = Returns (literal 20.0%Q).
Proof.
  intros E. unfold _score_payment. rewrite E. destruct (omap _ cohort); reflexivity.
Qed.

Lemma score_moq_fallback (item : Item num) (cohort : list (Item num)) :
  valid_moq (moq (data item)) = None ->
  _score_moq item cohort = Returns (literal 20.0%Q).
Proof.
  intros E. unfold _score_moq. rewrite E. destruct (omap _ cohort); reflexivity.
Qed.

(** A criterion whose figure the item has is scored against a non-empty
    list of figures when the item is in the cohort. *)
Lemma omap_not_nil {B C} (f : B -> option C) (l : list B) (x : B) (y : C) :
  In x l -> f x = Some y -> omap f l <> [].
Proof.
  intros Hin Hf Hnil.
  assert (Hy : y ∈ omap f l).
  { apply list_elem_of_omap. exists x. split; [apply list_elem_of_In, Hin | exact Hf]. }
  rewrite Hnil in Hy. inversion Hy.
Qed.

(** No criterion raises on a non-empty cohort, whatever the item. *)
Lemma all_scores_returns_any (item : Item num) (cohort : list (Item num)) :
  cohort <> [] ->
  exists s,
    _calculate_all_scores item cohort = Returns s /\
    _score_tco item cohort = Returns (tco_score s) /\
    _score_delivery item cohort = Returns (delivery_score s) /\
    _score_payment item cohort = Returns (payment_score s) /\
    _score_tooling item cohort = Returns (tooling_score s) /\
    _score_moq item cohort = Returns (moq_score s) /\
    missing_data_penalty s = _calculate_missing_data_penalty item.
Proof.
  intros Hne.
  destruct (score_tco_any cohort Hne) as (l1 & h1 & _ & _ & _ & _ & Ha).
  destruct (score_tooling_any cohort Hne) as (l4 & h4 & _ & _ & _ & _ & Hd).
  assert (Hb : exists v, _score_delivery item cohort = Returns v).
  { destruct (lead_time_weeks (data item)) as [w|] eqn:Ew.
    - destruct (omap (fun d => lead_time_weeks (data d)) cohort) as [|v r] eqn:El.
      + eexists. unfold _score_delivery. rewrite El. reflexivity.
      + assert (Hq : omap (fun d => lead_time_weeks (data d)) cohort <> [])
          by (rewrite El; discriminate).
        destruct (score_delivery_any cohort Hq) as (lo & hi & _ & _ & _ & _ & Hs).
        eexists. apply (Hs item w Ew).
    - eexists. apply score_delivery_fallback, Ew. }
  assert (Hc : exists v, _score_payment item cohort = Returns v).
  { destruct (payment_days (data item)) as [w|] eqn:Ew.
    - destruct (omap (fun d => payment_days (data d)) cohort) as [|v r] eqn:El.
      + eexists. unfold _score_payment. rewrite El. reflexivity.
      + assert (Hq : omap (fun d => payment_days (data d)) cohort <> [])
          by (rewrite El; discriminate).
        destruct (score_payment_any cohort Hq) as (lo & hi & _ & _ & _ & _ & Hs).
        eexists. apply (Hs item w Ew).
    - eexists. apply score_payment_fallback, Ew. }
  assert (He : exists v, _score_moq item cohort = Returns v).
  { destruct (valid_moq (moq (data item))) as [w|] eqn:Ew.
    - destruct (omap (fun d => valid_moq (moq (data d))) cohort) as [|v r] eqn:El.
      + eexists. unfold _score_moq. rewrite El. reflexivity.
      + assert (Hq : omap (fun d => valid_moq (moq (data d))) cohort <> [])
          by (rewrite El; discriminate).
        destruct (score_moq_any cohort Hq) as (lo & hi & _ & _ & _ & _ & Hs).
        eexists. apply (Hs item w Ew).
    - eexists. apply score_moq_fallback, Ew. }
  destruct Hb as (b & Hb). destruct Hc as (c & Hc). destruct He as (e & He).
  eexists. unfold _calculate_all_scores.
  rewrite (Ha item), Hb, Hc, (Hd item), He, !bind_returns.
  split; [reflexivity|]. cbn [tco_score delivery_score payment_score tooling_score
                              moq_score missing_data_penalty].
  split_and!; reflexivity.
Qed.

End CriteriaStructure.
(** ** The five criteria *)

Section ScoreFacts.
Local Open Scope Q_scope.
Import ProcurementScorer.

Lemma returns_score_const (v : Q) : 0 <= v <= 100 -> returns_score (mret v).
Proof. intros H. exists v. split; [reflexivity | exact H]. Qed.

(** The two branches that follow [min] and [max] in every criterion. *)
Lemma branch_range_Q (x lo hi : Q) :
  lo <= x <= hi ->
  0 <= (if Qeq_bool hi lo then 100.0 else min_max_score x lo hi) <= 100.
Proof.
  intros [Hl Hh]. destruct (Qeq_bool hi lo) eqn:E.
  - apply perfect_score_range.
  - apply Qeq_bool_neq in E. apply min_max_score_range; [exact Hl|].
    apply Qnot_le_lt. intros Hc. apply E. lra.
Qed.

Lemma branch_range_Z (x lo hi : Z) :
  (lo <= x <= hi)%Z ->
  0 <= (if (hi =? lo)%Z then 100.0
        else min_max_score (inject_Z x) (inject_Z lo) (inject_Z hi)) <= 100.
Proof.
  intros [Hl Hh]. destruct (hi =? lo)%Z eqn:E.
  - apply perfect_score_range.
  - apply Z.eqb_neq in E. apply min_max_score_range.
    + rewrite <- Zle_Qle. exact Hl.
    + rewrite <- Zlt_Qlt. lia.
Qed.

Lemma score_tco_unfold (item : Item Q) (cohort : list (Item Q)) :
  In item cohort ->
  exists lo hi,
    In lo (tcos cohort) /\ In hi (tcos cohort) /\
    Forall (Qle lo) (tcos cohort) /\ Forall (fun y => y <= hi) (tcos cohort) /\
    lo <= total_cost_eur (data item) <= hi /\
    _score_tco item cohort =
      Returns (if Qeq_bool hi lo then 100.0
               else min_max_score (total_cost_eur (data item)) lo hi).
Proof.
  intros Hin.
  assert (Hx : In (total_cost_eur (data item)) (tcos cohort)).
  { unfold tcos. apply in_map_iff. exists item. split; [reflexivity | exact Hin]. }
  destruct (min_max_pick_Q _ _ Hx) as (lo & hi & Hlo & Hhi & H1 & H2 & H3 & H4 & H5).
  exists lo, hi. repeat split; try tauto.
  unfold _score_tco; q_ops. fold (tcos cohort). rewrite Hlo, Hhi. simpl.
  destruct (Qeq_bool hi lo); reflexivity.
Qed.

Lemma score_tco_range (item : Item Q) (cohort : list (Item Q)) :
  In item cohort -> returns_score (_score_tco item cohort).
Proof.
  intros Hin. destruct (score_tco_unfold item cohort Hin)
    as (lo & hi & _ & _ & _ & _ & Hb & ->).
  eexists; split; [reflexivity | apply branch_range_Q, Hb].
Qed.

Lemma score_tooling_range (item : Item Q) (cohort : list (Item Q)) :
  In item cohort -> returns_score (_score_tooling item cohort).
Proof.
  intros Hin.
  set (l := map (fun d => tooling_cost_eur (data d)) cohort).
  assert (Hx : In (tooling_cost_eur (data item)) l).
  { apply in_map_iff. exists item. split; [reflexivity | exact Hin]. }
  destruct (min_max_pick_Q _ _ Hx) as (lo & hi & Hlo & Hhi & _ & _ & _ & _ & Hb).
  unfold _score_tooling; q_ops. fold l. rewrite Hlo, Hhi. simpl.
  exists (if Qeq_bool hi lo then 100.0
          else min_max_score (tooling_cost_eur (data item)) lo hi).
  split; [destruct (Qeq_bool hi lo); reflexivity | apply branch_range_Q, Hb].
Qed.

Lemma in_omap {B C} (f : B -> option C) (l : list B) (x : B) (y : C) :
  In x l -> f x = Some y -> In y (omap f l).
Proof.
  intros Hin Hf. apply list_elem_of_In, list_elem_of_omap.
  exists x. split; [apply list_elem_of_In, Hin | exact Hf].
Qed.

Lemma score_delivery_range (item : Item Q) (cohort : list (Item Q)) :
  In item cohort -> returns_score (_score_delivery item cohort).
Proof.
  intros Hin. unfold _score_delivery; q_ops.
  destruct (lead_time_weeks (data item)) as [w|] eqn:Ew.
  - pose proof (in_omap (fun d => lead_time_weeks (data d)) cohort item w Hin Ew) as Hx.
    destruct (min_max_pick_Q _ _ Hx) as (lo & hi & Hlo & Hhi & _ & _ & _ & _ & Hb).
    destruct (omap _ cohort) as [|y r] eqn:El; [inversion Hx|].
    rewrite Hlo, Hhi. simpl.
    exists (if Qeq_bool hi lo then 100.0 else min_max_score w lo hi).
    split; [destruct (Qeq_bool hi lo); reflexivity | apply branch_range_Q, Hb].
  - destruct (omap _ cohort); apply returns_score_const, fallback_score_range.
Qed.

Lemma score_payment_range (item : Item Q) (cohort : list (Item Q)) :
  In item cohort -> returns_score (_score_payment item cohort).
Proof.
  intros Hin. unfold _score_payment; q_ops.
  destruct (payment_days (data item)) as [w|] eqn:Ew.
  - pose proof (in_omap (fun d => payment_days (data d)) cohort item w Hin Ew) as Hx.
    destruct (min_max_pick_Z _ _ Hx) as (lo & hi & Hlo & Hhi & _ & _ & _ & _ & Hb).
    destruct (omap _ cohort) as [|y r] eqn:El; [inversion Hx|].
    rewrite Hlo, Hhi, !bind_returns, min_max_score_int_Q.
    exists (if (hi =? lo)%Z then 100.0
            else min_max_score (inject_Z w) (inject_Z lo) (inject_Z hi)).
    split; [destruct (hi =? lo)%Z; reflexivity | apply branch_range_Z, Hb].
  - destruct (omap _ cohort); apply returns_score_const, fallback_score_range.
Qed.

Lemma score_moq_range (item : Item Q) (cohort : list (Item Q)) :
  In item cohort -> returns_score (_score_moq item cohort).
Proof.
  intros Hin. unfold _score_moq; q_ops.
  destruct (valid_moq (moq (data item))) as [w|] eqn:Ew.
  - pose proof (in_omap (fun d => valid_moq (moq (data d))) cohort item w Hin Ew) as Hx.
    destruct (min_max_pick_Z _ _ Hx) as (lo & hi & Hlo & Hhi & _ & _ & _ & _ & Hb).
    destruct (omap _ cohort) as [|y r] eqn:El; [inversion Hx|].
    rewrite Hlo, Hhi, !bind_returns, min_max_score_int_Q.
    exists (if (hi =? lo)%Z then 100.0
            else min_max_score (inject_Z w) (inject_Z lo) (inject_Z hi)).
    split; [destruct (hi =? lo)%Z; reflexivity | apply branch_range_Z, Hb].
  - destruct (omap _ cohort); apply returns_score_const, fallback_score_range.
Qed.

End ScoreFacts.

(** ** Stable sorting *)

Section SortFacts.
Context {A : Type} (sb : A -> A -> bool).

Lemma insert_sorted_perm (x : A) (l : list A) :
  Permutation (insert_sorted sb x l) (x :: l).
Proof.
  induction l as [|y r IH]; simpl; [reflexivity|].
  destruct (sb y x); [|reflexivity].
  rewrite IH. apply perm_swap.
Qed.

Lemma stable_sort_perm (l : list A) : Permutation (stable_sort sb l) l.
Proof.
  induction l as [|x r IH]; simpl; [reflexivity|].
  rewrite insert_sorted_perm. apply perm_skip, IH.
Qed.

(** A class of elements none of which goes strictly before another keeps
    its order of appearance. *)
Section Stability.
Variable P : A -> bool.
Hypothesis P_ties : forall x y, P x = true -> P y = true -> sb x y = false.

Lemma insert_sorted_filter (x : A) (l : list A) :
  List.filter P (insert_sorted sb x l) = List.filter P (x :: l).
Proof.
  induction l as [|y r IH]; simpl; [reflexivity|].
  destruct (sb y x) eqn:E; [|reflexivity].
  simpl. rewrite IH. simpl.
  destruct (P y) eqn:Py, (P x) eqn:Px; try reflexivity.
  rewrite (P_ties y x Py Px) in E. discriminate.
Qed.

Lemma stable_sort_filter (l : list A) :
  List.filter P (stable_sort sb l) = List.filter P l.
Proof.
  induction l as [|x r IH]; simpl; [reflexivity|].
  rewrite insert_sorted_filter. simpl. rewrite IH. reflexivity.
Qed.
End Stability.

(** With a strict order that is asymmetric and whose complement is
    transitive, the result is sorted: no element goes strictly before an
    earlier one. *)
Section Sortedness.
Hypothesis sb_asym : forall x y, sb x y = true -> sb y x = false.
Hypothesis nsb_trans : forall x y z, sb y x = false -> sb z y = false -> sb z x = false.

Lemma insert_sorted_sorted (x : A) (l : list A) :
  StronglySorted (fun a b => sb b a = false) l ->
  StronglySorted (fun a b => sb b a = false) (insert_sorted sb x l).
Proof.
  induction 1 as [|y r Hr IH Hy]; simpl.
  - constructor; constructor.
  - destruct (sb y x) eqn:E.
    + constructor; [exact IH|].
      apply (Permutation_Forall (Permutation_sym (insert_sorted_perm x r))).
      constructor; [apply sb_asym, E | exact Hy].
    + constructor; [constructor; assumption|].
      constructor; [exact E|].
      eapply List.Forall_impl; [|exact Hy].
      intros z Hz. simpl in Hz. eapply nsb_trans; eassumption.
Qed.

Lemma stable_sort_sorted (l : list A) :
  StronglySorted (fun a b => sb b a = false) (stable_sort sb l).
Proof.
  induction l as [|x r IH]; simpl; [constructor|].
  apply insert_sorted_sorted, IH.
Qed.
End Sortedness.

(** The same when the complement is transitive through the elements of the
    list only. *)
Section SortednessOn.
Variable ok : A -> Prop.
Hypothesis sb_asym : forall x y, sb x y = true -> sb y x = false.
Hypothesis nsb_trans :
  forall x y z, ok y -> sb y x = false -> sb z y = false -> sb z x = false.

Lemma insert_sorted_sorted_on (x : A) (l : list A) :
  Forall ok l ->
  StronglySorted (fun a b => sb b a = false) l ->
  StronglySorted (fun a b => sb b a = false) (insert_sorted sb x l).
Proof.
  intros Hok. induction 1 as [|y r Hr IH Hy]; simpl.
  - constructor; constructor.
  - inversion Hok as [|? ? Hoky Hokr]; subst.
    destruct (sb y x) eqn:E.
    + constructor; [exact (IH Hokr)|].
      apply (Permutation_Forall (Permutation_sym (insert_sorted_perm x r))).
      constructor; [apply sb_asym, E | exact Hy].
    + constructor; [constructor; assumption|].
      constructor; [exact E|].
      eapply List.Forall_impl; [|exact Hy].
      intros z Hz. simpl in Hz. eapply nsb_trans; eassumption.
Qed.

Lemma stable_sort_sorted_on (l : list A) :
  Forall ok l -> StronglySorted (fun a b => sb b a = false) (stable_sort sb l).
Proof.
  induction l as [|x r IH]; intros Hok; simpl; [constructor|].
  inversion Hok as [|? ? Hx Hr]; subst.
  apply insert_sorted_sorted_on; [|apply IH, Hr].
  apply (Permutation_Forall (Permutation_sym (stable_sort_perm r))). exact Hr.
Qed.
End SortednessOn.
End SortFacts.

(** Sorting the decorated list and dropping the keys is sorting by the key. *)
Section Decorated.
Context {A K : Type} (sb : K * A -> K * A -> bool) (key : A -> K).

#[local] Abbreviation decorate := (decorate key).
#[local] Abbreviation undecorated := (undecorated sb key).

Lemma insert_sorted_decorated (x : A) (d : list (K * A)) :
  Forall (fun p => p.1 = key p.2) d ->
  (insert_sorted sb (decorate x) d).*2 = insert_sorted undecorated x d.*2.
Proof.
  induction 1 as [|[k y] d' Hk Hd IHd]; [reflexivity|].
  simpl in Hk. subst k.
  change ((if sb (decorate y) (decorate x)
           then decorate y :: insert_sorted sb (decorate x) d'
           else decorate x :: decorate y :: d').*2 =
          (if undecorated y x
           then y :: insert_sorted undecorated x d'.*2
           else x :: y :: d'.*2)).
  unfold undecorated at 1.
  destruct (sb (decorate y) (decorate x)); [|reflexivity].
  change (y :: (insert_sorted sb (decorate x) d').*2 =
          y :: insert_sorted undecorated x d'.*2).
  rewrite IHd. reflexivity.
Qed.

Lemma decorate_keys (l : list A) : Forall (fun p => p.1 = key p.2) (map decorate l).
Proof. induction l; simpl; constructor; [reflexivity | assumption]. Qed.

Lemma stable_sort_decorated (l : list A) :
  (stable_sort sb (map decorate l)).*2 = stable_sort undecorated l.
Proof.
  induction l as [|x r IH]; simpl; [reflexivity|].
  rewrite insert_sorted_decorated, IH; [reflexivity|].
  apply (Permutation_Forall (Permutation_sym (stable_sort_perm sb _))).
  apply decorate_keys.
Qed.

Lemma zip_decorate (l : list A) : zip (map key l) l = map decorate l.
Proof. induction l as [|x r IH]; simpl; [|rewrite IH]; reflexivity. Qed.
End Decorated.

Lemma mapM_returns {A B} (f : A -> outcome B) (g : A -> B) (l : list A) :
  Forall (fun x => f x = Returns (g x)) l -> mapM f l = Returns (map g l).
Proof.
  induction 1 as [|x r Hx Hr IH]; simpl; [reflexivity|].
  rewrite Hx, IH. reflexivity.
Qed.

(** [sorted] on keys that are all present. *)
Lemma py_sorted_returns {A K} (ltb : K -> K -> bool) (key : A -> outcome K)
    (k : A -> K) (reverse : bool) (l : list A) :
  Forall (fun x => key x = Returns (k x)) l ->
  py_sorted ltb key reverse l =
  Returns (stable_sort (undecorated (key_order ltb reverse) k) l).
Proof.
  intros H. unfold py_sorted. rewrite (mapM_returns key k l H). simpl.
  rewrite zip_decorate, stable_sort_decorated. reflexivity.
Qed.

Lemma StronglySorted_weaken {A} (R R' : A -> A -> Prop) (l : list A) :
  (forall a b, R a b -> R' a b) -> StronglySorted R l -> StronglySorted R' l.
Proof.
  intros HR. induction 1 as [|x r Hr IH Hx]; constructor; [exact IH|].
  eapply List.Forall_impl; [|exact Hx]. intros b. apply HR.
Qed.

(** ** The scoring loop *)

Section ScoreAllFacts.
Context {num : Type} {arith : Arith num}.
Local Open Scope list_scope.
Import ProcurementScorer.

(** The criteria read an item through [data] only, so attaching scores to
    some items of the list does not change what the others are scored against. *)
Lemma map_data_view {B} (f : (ItemData num) -> B) (c c' : list (Item num)) :
  map data c = map data c' ->
  map (fun d => f (data d)) c = map (fun d => f (data d)) c'.
Proof.
  intros Hv. rewrite <- (map_map data f c), <- (map_map data f c'), Hv. reflexivity.
Qed.

Lemma omap_data_view {B} (g : (ItemData num) -> option B) (c c' : list (Item num)) :
  map data c = map data c' ->
  omap (fun d => g (data d)) c = omap (fun d => g (data d)) c'.
Proof.
  revert c'. induction c as [|x r IH]; intros [|x' r'] Hv; simpl in Hv;
    try discriminate; [reflexivity|].
  injection Hv as Hx Hr.
  change (match g (data x) with
          | Some y => y :: omap (fun d => g (data d)) r
          | None => omap (fun d => g (data d)) r
          end =
          match g (data x') with
          | Some y => y :: omap (fun d => g (data d)) r'
          | None => omap (fun d => g (data d)) r'
          end).
  rewrite Hx, (IH r' Hr). reflexivity.
Qed.

Lemma all_scores_view (item item' : Item num) (c c' : list (Item num)) :
  data item = data item' -> map data c = map data c' ->
  _calculate_all_scores item c = _calculate_all_scores item' c'.
Proof.
  intros Hi Hc.
  unfold _calculate_all_scores, _score_tco, _score_delivery, _score_payment,
    _score_tooling, _score_moq, _calculate_missing_data_penalty, missing_fields.
  rewrite (map_data_view total_cost_eur c c' Hc),
          (map_data_view tooling_cost_eur c c' Hc),
          (omap_data_view lead_time_weeks c c' Hc),
          (omap_data_view payment_days c c' Hc),
          (omap_data_view (fun d => valid_moq (moq d)) c c' Hc), Hi.
  reflexivity.
Qed.

Lemma score_loop_spec (cohort todo done : list (Item num)) :
  map data (done ++ todo) = map data cohort ->
  exists todo', Forall2 (scored_from cohort) todo todo' /\
                score_loop done todo = Returns (done ++ todo').
Proof.
  revert done. induction todo as [|it rest IH]; intros done Hview; cbn [score_loop].
  - exists []. split; [constructor | rewrite app_nil_r; reflexivity].
  - assert (Hne : done ++ it :: rest <> []) by (destruct done; discriminate).
    destruct (all_scores_returns_any it _ Hne) as (s & Hs & _).
    rewrite Hs, bind_returns.
    set (it' := set_scores s (_calculate_weighted_total s) it).
    destruct (IH (done ++ [it'])) as (rest' & Hrest & Hloop).
    { rewrite <- Hview, <- app_assoc. rewrite !map_app. reflexivity. }
    exists (it' :: rest'). split.
    + constructor; [|exact Hrest]. exists s. split; [|reflexivity].
      rewrite <- Hs. apply all_scores_view; [reflexivity | symmetry; exact Hview].
    + rewrite Hloop, <- app_assoc. reflexivity.
Qed.

Lemma set_scores_total (s : Scores num) (t : num) (it : Item num) :
  total_score (set_scores s t it) = Some (score_of (set_scores s t it)).
Proof. reflexivity. Qed.

Lemma scored_from_total (cohort : list (Item num)) (it it' : Item num) :
  scored_from cohort it it' -> total_score it' = Some (score_of it').
Proof. intros (s & _ & ->). apply set_scores_total. Qed.

(** [score_all] returns the scored items, stably sorted by descending
    composite score and numbered from 1. *)
Lemma score_all_spec (cohort : list (Item num)) :
  exists scored,
    Forall2 (scored_from cohort) cohort scored /\
    score_all cohort =
      Returns (stamp_enumerate set_final_ranking (stable_sort better scored)).
Proof.
  destruct cohort as [|x r] eqn:Ec.
  - exists []. split; [constructor | reflexivity].
  - rewrite <- Ec. destruct (score_loop_spec cohort cohort []) as (scored & Hsc & Hloop);
      [reflexivity|].
    exists scored. split; [exact Hsc|].
    unfold score_all. rewrite Ec, <- Ec, Hloop, bind_returns.
    rewrite (py_sorted_returns num_ltb _ score_of true scored); [reflexivity|].
    clear Hloop. induction Hsc as [|a b l l' Hab Hl IH]; constructor.
    + rewrite (scored_from_total _ _ _ Hab). reflexivity.
    + exact IH.
Qed.

End ScoreAllFacts.

(** ** Composite score *)

Section CompositeStructure.
Context {num : Type} {arith : Arith num}.
Local Open Scope list_scope.
Import ProcurementScorer.

Lemma count_true_six (a b c d e f : bool) :
  (0 <= count_true [a; b; c; d; e; f] <= 6)%Z.
Proof. destruct a, b, c, d, e, f; vm_compute; split; discriminate. Qed.

(** Six conditions at most: the cap of 100 is never reached. *)
Lemma penalty_uncapped (item : Item num) :
  _calculate_missing_data_penalty item = (count_true (missing_fields item) * 10)%Z /\
  (0 <= _calculate_missing_data_penalty item <= 60)%Z.
Proof.
  unfold _calculate_missing_data_penalty, missing_fields, min100.
  match goal with |- context [count_true [?a; ?b; ?c; ?d; ?e; ?f]] =>
    pose proof (count_true_six a b c d e f) as Hsix;
    set (n := count_true [a; b; c; d; e; f]) in * end.
  destruct (n * 10 <? 100)%Z eqn:E; [lia|]. apply Z.ltb_ge in E. lia.
Qed.

Lemma Forall_imap {B C} (P : C -> Prop) (f : nat -> B -> C) (l : list B) :
  (forall i x, In x l -> P (f i x)) -> Forall P (imap f l).
Proof.
  revert f. induction l as [|x r IH]; intros f H; simpl; constructor.
  - apply H. left. reflexivity.
  - apply IH. intros i y Hy. apply H. right. exact Hy.
Qed.

Lemma Forall2_In_r {B C} (R : B -> C -> Prop) (l : list B) (l' : list C) (y : C) :
  Forall2 R l l' -> In y l' -> exists x, In x l /\ R x y.
Proof.
  induction 1 as [|a b l l' Hab Hl IH]; intros Hin; [inversion Hin|].
  destruct Hin as [<-|Hin].
  - exists a. split; [left; reflexivity | exact Hab].
  - destruct (IH Hin) as (x & Hx & HR). exists x. split; [right|]; assumption.
Qed.

(** Every element of the ranked output is a scored member of the cohort. *)
Lemma ranked_item_origin (cohort scored : list (Item num)) (it : Item num) :
  Forall2 (scored_from cohort) cohort scored ->
  In it (stable_sort better scored) ->
  exists it0 s, In it0 cohort /\ _calculate_all_scores it0 cohort = Returns s /\
                it = set_scores s (_calculate_weighted_total s) it0.
Proof.
  intros Hsc Hin.
  apply (Permutation_in _ (stable_sort_perm better scored)) in Hin.
  destruct (Forall2_In_r _ _ _ _ Hsc Hin) as (it0 & Hin0 & s & Hs & ->).
  exists it0, s. repeat split; assumption.
Qed.

End CompositeStructure.

Section CompositeFacts.
Local Open Scope Q_scope.
Local Open Scope list_scope.
Import ProcurementScorer.

Lemma weighted_total_range (s : Scores Q) :
  scores_in_range s -> 0 <= _calculate_weighted_total s <= 100.
Proof.
  intros (Ht & Hd & Hp & Hl & Hm & [Hq1 Hq2]).
  unfold _calculate_weighted_total; q_ops. apply py_round_unit_interval.
  split; [apply max0_nonneg|]. apply max0_le; [lra|].
  assert (Hb : 0 <= base_total WEIGHTS s <= 100).
  { unfold base_total, WEIGHTS; q_ops; simpl. lra. }
  assert (Hf : 0 <= penalty_factor s <= 1).
  { unfold penalty_factor; q_ops. rewrite Zle_Qle in Hq1, Hq2.
    change (inject_Z 0) with 0 in Hq1. change (inject_Z 100) with 100 in Hq2.
    set (p := inject_Z (missing_data_penalty s)) in *.
    assert (p / 100 == p * (1 # 100)) by (field). lra. }
  nra.
Qed.

Lemma all_scores_in_range (item : Item Q) (cohort : list (Item Q)) (s : Scores Q) :
  In item cohort -> _calculate_all_scores item cohort = Returns s -> scores_in_range s.
Proof.
  intros Hin Hs.
  destruct (all_scores_returns_any item cohort (in_not_nil _ _ Hin))
    as (s' & Hs' & Ht & Hd & Hp & Hl & Hm & Hq).
  rewrite Hs in Hs'. injection Hs' as <-.
  destruct (score_tco_range item cohort Hin) as (a & Ha & Ra).
  destruct (score_delivery_range item cohort Hin) as (b & Hb & Rb).
  destruct (score_payment_range item cohort Hin) as (c & Hc & Rc).
  destruct (score_tooling_range item cohort Hin) as (d & Hd' & Rd).
  destruct (score_moq_range item cohort Hin) as (e & He & Re).
  rewrite Ht in Ha. rewrite Hd in Hb. rewrite Hp in Hc. rewrite Hl in Hd'.
  rewrite Hm in He.
  injection Ha as <-. injection Hb as <-. injection Hc as <-.
  injection Hd' as <-. injection He as <-.
  repeat split; try tauto; rewrite Hq;
    destruct (penalty_uncapped item) as [_ ?]; lia.
Qed.

(** The order [better] is a strict order on composite scores. *)
Lemma better_asym (x y : Item Q) : better x y = true -> better y x = false.
Proof.
  unfold better; q_ops. intros H. apply Qltb_lt in H. apply Qltb_ge. lra.
Qed.

Lemma not_better_trans (x y z : Item Q) :
  better y x = false -> better z y = false -> better z x = false.
Proof.
  unfold better; q_ops. intros H1 H2. apply Qltb_ge in H1, H2. apply Qltb_ge. lra.
Qed.

Lemma better_ties (t : Q) (x y : Item Q) :
  Qeq_bool (score_of x) t = true -> Qeq_bool (score_of y) t = true ->
  better x y = false.
Proof.
  unfold better; q_ops. intros H1 H2. apply Qeq_bool_iff in H1, H2. apply Qltb_ge. lra.
Qed.

End CompositeFacts.

(** * The claims *)

Section ScorerClaims.
Local Open Scope Q_scope.
Local Open Scope list_scope.
Import ProcurementScorer.

(** In exact arithmetic [round(x, 2)] is a whole number of hundredths. *)
Lemma py_round_hundredths (x : Q) : exists h : Z, py_round x 2 == inject_Z h / 100.
Proof.
  exists (round_half_even (x * inject_Z (10 ^ Z.of_nat 2))).
  q_round. rewrite Qred_correct. reflexivity.
Qed.

(** C1. The five weights 0.35, 0.25, 0.20, 0.10, 0.10 add up to exactly 1,
    as rationals and as binary64 numbers added left to right.  In every
    arithmetic, so in the binary64 arithmetic of the program, [score_all]
    returns for every cohort, having given each item the composite score
    [round(max(0, (TCO*0.35 + Delivery*0.25 + Payment*0.20 + Tooling*0.10 +
    MOQ*0.10) * (1 - penalty/100)), 2)] over the item's own five criterion
    scores and penalty.  In exact arithmetic that score lies between 0 and
    100.  As the program computes it,
    the weighted sum of the scores (95.7, 100, 0, 0, 0) is the binary64
    number below 58.495 and the composite 58.49, the scores (7, 20, 20, 100,
    20) with penalty 30 give 16.41, and the composites of the sample cohorts
    lie between 0 and 100. *)
Theorem composite_score_within_0_100 :
  (let w : Weights Q := WEIGHTS in
   w_tco w + w_delivery w + w_payment w + w_tooling w + w_moq w == 1) /\
  (let w : Weights float := WEIGHTS in
   (w_tco w + w_delivery w + w_payment w + w_tooling w + w_moq w)%float = 1%float) /\
  (forall (num : Type) (A : Arith num) (cohort : list (Item num)),
     exists ranked,
       score_all cohort = Returns ranked /\
       length ranked = length cohort /\
       Forall (fun it =>
         exists it0 s,
           In it0 cohort /\ data it = data it0 /\
           _calculate_all_scores it0 cohort = Returns s /\
           scores it = Some s /\
           total_score it =
             Some (py_round
                     (max0
                        (mul (add (add (add (add (mul (tco_score s) (literal 0.35%Q))
                                                 (mul (delivery_score s) (literal 0.25%Q)))
                                            (mul (payment_score s) (literal 0.20%Q)))
                                       (mul (tooling_score s) (literal 0.10%Q)))
                                  (mul (moq_score s) (literal 0.10%Q)))
                             (sub (of_int 1) (int_div (missing_data_penalty s) 100))))
                     2)) ranked) /\
  (forall cohort : list (Item Q),
     exists ranked,
       score_all cohort = Returns ranked /\
       Forall (fun it =>
         exists t, total_score it = Some t /\ 0 <= t <= 100) ranked) /\
  (base_total WEIGHTS Samples.alpha_scores = 58.494999999999997%float /\
   _calculate_weighted_total Samples.alpha_scores = 58.49%float /\
   _calculate_weighted_total Samples.sparse_scores = 16.41%float /\
   (map total_score <$> score_all Samples.sparse_cohort) =
     Returns [Some 96.67%float; Some 16.41%float; Some 0%float] /\
   (map total_score <$> score_all Samples.close_cohort) =
     Returns [Some 65.56%float; Some 58.5%float; Some 58.49%float]).
Proof.
  split; [reflexivity|]. split; [vm_compute; reflexivity|]. split_and!.
  - intros num A cohort. destruct (score_all_spec cohort) as (scored & Hsc & Hall).
    eexists. split; [exact Hall|]. split.
    + unfold stamp_enumerate. rewrite length_imap.
      rewrite (Permutation_length (stable_sort_perm better scored)).
      symmetry. eapply Forall2_length, Hsc.
    + apply Forall_imap. intros i it Hin.
      destruct (ranked_item_origin cohort scored it Hsc Hin)
        as (it0 & s & Hin0 & Hs & ->).
      exists it0, s. split_and!; try assumption; reflexivity.
  - intros cohort. destruct (score_all_spec cohort) as (scored & Hsc & Hall).
    eexists. split; [exact Hall|].
    apply Forall_imap. intros i it Hin.
    destruct (ranked_item_origin cohort scored it Hsc Hin)
      as (it0 & s & Hin0 & Hs & ->).
    exists (_calculate_weighted_total s). split; [reflexivity|].
    apply weighted_total_range, (all_scores_in_range it0 cohort s Hin0 Hs).
  - vm_compute. reflexivity.
  - vm_compute. reflexivity.
  - vm_compute. reflexivity.
  - vm_compute. reflexivity.
  - vm_compute. reflexivity.
Qed.

(** The same scores in exact arithmetic, where 58.495 and 16.415 are ties
    that go to the even hundredth. *)
Example composite_scores_exact :
  _calculate_weighted_total (num := Q) Samples.alpha_scores == 58.5 /\
  _calculate_weighted_total (num := Q) Samples.sparse_scores == 16.42.
Proof. split; vm_compute; reflexivity. Qed.

(** C2. In every arithmetic, for a non-empty cohort with [lo] and [hi] what
    [min] and [max] return on its reference-currency TCOs: the TCO score of
    an item is 100.0 when [hi == lo], without any division, so in
    particular when all TCOs compare equal; otherwise it is
    [round(max(0, 100 * (1 - (tco - lo) / (hi - lo))), 2)].  In exact
    arithmetic [lo] is the least and [hi] the greatest TCO, the score of the
    item with the least TCO is 100 and, in a cohort that does not tie, the
    score of the item with the greatest is 0.  In binary64, when no TCO is
    NaN, no TCO is less than [lo] or greater than [hi]; and as the program
    computes them the TCOs 1000, 1067, 1160 score 100.0, 58.13 and 0.0. *)
Theorem tco_score_min_max :
  (forall (num : Type) (A : Arith num) (item : Item num) (cohort : list (Item num)),
     cohort <> [] ->
     exists lo hi,
       py_min num_ltb (tcos cohort) = Returns lo /\
       py_max num_ltb (tcos cohort) = Returns hi /\
       In lo (tcos cohort) /\ In hi (tcos cohort) /\
       _score_tco item cohort =
         Returns (if num_eqb hi lo then literal 100.0%Q
                  else py_round
                         (max0 (mul (of_int 100)
                                    (sub (of_int 1)
                                         (div (sub (total_cost_eur (data item)) lo)
                                              (sub hi lo))))) 2) /\
       ((forall a b, In a cohort -> In b cohort ->
           num_eqb (total_cost_eur (data a)) (total_cost_eur (data b)) = true) ->
        _score_tco item cohort = Returns (literal 100.0%Q))) /\
  (forall (item : Item Q) (cohort : list (Item Q)),
     In item cohort ->
     exists lo hi score,
       py_min num_ltb (tcos cohort) = Returns lo /\
       py_max num_ltb (tcos cohort) = Returns hi /\
       Forall (fun y => lo <= y) (tcos cohort) /\
       Forall (fun y => y <= hi) (tcos cohort) /\
       _score_tco item cohort = Returns score /\
       ((forall other, In other cohort ->
           total_cost_eur (data other) == total_cost_eur (data item)) -> score == 100) /\
       (total_cost_eur (data item) == lo -> score == 100) /\
       (total_cost_eur (data item) == hi -> ~ hi == lo -> score == 0)) /\
  (forall cohort : list (Item float),
     cohort <> [] ->
     Forall (fun x => PrimFloat.eqb x x = true) (tcos cohort) ->
     exists lo hi,
       py_min num_ltb (tcos cohort) = Returns lo /\
       py_max num_ltb (tcos cohort) = Returns hi /\
       Forall (fun y => PrimFloat.ltb y lo = false) (tcos cohort) /\
       Forall (fun y => PrimFloat.ltb hi y = false) (tcos cohort)) /\
  map (fun it => _score_tco (num := float) it Samples.narrow_cohort) Samples.narrow_cohort =
    [Returns 100%float; Returns 58.13%float; Returns 0%float] /\
  map (fun it => _score_tco (num := float) it [Samples.twin 0 "First"; Samples.twin 1 "Second"])
      [Samples.twin 0 "First"; Samples.twin 1 "Second"] =
    [Returns 100%float; Returns 100%float].
Proof.
  split_and!.
  - intros num A item cohort Hne.
    destruct (score_tco_any cohort Hne) as (lo & hi & Hlo & Hhi & Ilo & Ihi & Hs).
    exists lo, hi. split_and!; try assumption.
    + rewrite (Hs item). reflexivity.
    + intros Htie. rewrite (Hs item).
      unfold tcos in Ilo, Ihi. apply in_map_iff in Ilo, Ihi.
      destruct Ilo as (a & <- & Ha). destruct Ihi as (b & <- & Hb).
      rewrite (Htie b a Hb Ha). reflexivity.
  - intros item cohort Hin.
    assert (Hx : In (total_cost_eur (data item)) (tcos cohort)).
    { unfold tcos. apply in_map_iff. exists item. split; [reflexivity | exact Hin]. }
    destruct (min_max_pick_Q _ _ Hx) as (lo & hi & Hlo & Hhi & Ilo & Ihi & H1 & H2 & Hb).
    destruct (score_tco_any cohort (in_not_nil _ _ Hin))
      as (lo' & hi' & Hlo' & Hhi' & _ & _ & Hs).
    change (@num_ltb Q Q_arith) with Qltb in Hlo', Hhi'.
    rewrite Hlo in Hlo'. rewrite Hhi in Hhi'.
    injection Hlo' as <-. injection Hhi' as <-.
    exists lo, hi,
      (if Qeq_bool hi lo then 100.0
       else min_max_score (total_cost_eur (data item)) lo hi).
    split_and!; try assumption.
    + exact (Hs item).
    + intros Htie.
      assert (He : hi == lo).
      { unfold tcos in Ilo, Ihi. apply in_map_iff in Ilo, Ihi.
        destruct Ilo as (a & <- & Ha). destruct Ihi as (b & <- & Hb').
        rewrite (Htie a Ha), (Htie b Hb'). reflexivity. }
      apply Qeq_bool_iff in He. rewrite He. reflexivity.
    + intros He. destruct (Qeq_bool hi lo) eqn:E; [reflexivity|].
      apply Qeq_bool_neq in E. apply min_max_score_at_min; [exact He|].
      apply Qnot_le_lt. intros Hc. apply E. lra.
    + intros He Hne. destruct (Qeq_bool hi lo) eqn:E.
      * apply Qeq_bool_iff in E. contradiction.
      * apply min_max_score_at_max; [exact He|].
        apply Qnot_le_lt. intros Hc. apply Hne. lra.
  - intros cohort Hne Hnan.
    assert (Hl : tcos cohort <> []) by (destruct cohort; [congruence | discriminate]).
    destruct (py_min_float _ Hnan Hl) as (lo & Hlo & _ & Hmin).
    destruct (py_max_float _ Hnan Hl) as (hi & Hhi & _ & Hmax).
    exists lo, hi. split_and!; assumption.
  - vm_compute. reflexivity.
  - vm_compute. reflexivity.
Qed.

(** The cohort of three prices, in binary64: the middle item against the
    least and the greatest TCO. *)
Lemma tco_score_min_max_witness :
  let cohort : list (Item float) := Samples.narrow_cohort in
  cohort <> [] /\
  exists lo hi,
    py_min num_ltb (tcos cohort) = Returns lo /\
    py_max num_ltb (tcos cohort) = Returns hi /\
    In lo (tcos cohort) /\ In hi (tcos cohort) /\
    _score_tco (Samples.priced 1 "Mid" 1067) cohort =
      Returns (if num_eqb hi lo then literal 100.0%Q
               else py_round
                      (max0 (mul (of_int 100)
                                 (sub (of_int 1)
                                      (div (sub (of_int 1067) lo) (sub hi lo))))) 2).
Proof.
  intros cohort.
  assert (Hne : cohort <> []) by discriminate.
  split; [exact Hne|].
  destruct (proj1 tco_score_min_max float _ (Samples.priced 1 "Mid" 1067) cohort Hne)
    as (lo & hi & H1 & H2 & H3 & H4 & H5 & _).
  exists lo, hi. split_and!; assumption.
Defined.

(** The sample cohort in exact arithmetic: cheapest 100, dearest 0; and the
    three prices, where the middle score 58.125 is a tie that goes to the
    even hundredth. *)
Example tco_scores_exact :
  map (fun it => _score_tco (num := Q) it Samples.cohort) Samples.cohort =
    [Returns 100%Q; Returns 50%Q; Returns 0%Q] /\
  map (fun it => _score_tco (num := Q) it Samples.narrow_cohort) Samples.narrow_cohort =
    [Returns 100%Q; Returns (Qred 58.12%Q); Returns 0%Q].
Proof. split; vm_compute; reflexivity. Qed.

(** C10. In every arithmetic: an item without a parsed lead time, without
    parsed payment days or without a positive numeric MOQ gets exactly the
    fallback 20.0 for that criterion; and each criterion gives exactly 100.0
    on its all-tie branch, that is, to every item when the TCOs, or the
    reference-currency tooling costs, of a non-empty cohort all compare
    equal, and to every item that has the figure when the parsed lead
    times, the parsed payment days, or the positive MOQs of the cohort are
    all equal.  In exact arithmetic each of the five criterion functions
    returns, for an item of the cohort, a score between 0 and 100; so do, as
    the program computes them, the fifteen scores of the sample cohort. *)
Theorem criterion_scores_within_0_100 :
  (forall (num : Type) (A : Arith num) (item : Item num) (cohort : list (Item num)),
     (lead_time_weeks (data item) = None ->
      _score_delivery item cohort = Returns (literal 20.0%Q)) /\
     (payment_days (data item) = None ->
      _score_payment item cohort = Returns (literal 20.0%Q)) /\
     (valid_moq (moq (data item)) = None ->
      _score_moq item cohort = Returns (literal 20.0%Q)) /\
     (cohort <> [] ->
      (forall a b, In a cohort -> In b cohort ->
         num_eqb (total_cost_eur (data a)) (total_cost_eur (data b)) = true) ->
      _score_tco item cohort = Returns (literal 100.0%Q)) /\
     (cohort <> [] ->
      (forall a b, In a cohort -> In b cohort ->
         num_eqb (tooling_cost_eur (data a)) (tooling_cost_eur (data b)) = true) ->
      _score_tooling item cohort = Returns (literal 100.0%Q)) /\
     (forall w, lead_time_weeks (data item) = Some w -> In item cohort ->
      (forall a b wa wb, In a cohort -> In b cohort ->
         lead_time_weeks (data a) = Some wa -> lead_time_weeks (data b) = Some wb ->
         num_eqb wa wb = true) ->
      _score_delivery item cohort = Returns (literal 100.0%Q)) /\
     (forall days, payment_days (data item) = Some days -> In item cohort ->
      (forall a da, In a cohort -> payment_days (data a) = Some da -> da = days) ->
      _score_payment item cohort = Returns (literal 100.0%Q)) /\
     (forall m, valid_moq (moq (data item)) = Some m -> In item cohort ->
      (forall a ma, In a cohort -> valid_moq (moq (data a)) = Some ma -> ma = m) ->
      _score_moq item cohort = Returns (literal 100.0%Q))) /\
  (forall (item : Item Q) (cohort : list (Item Q)),
     In item cohort ->
     returns_score (_score_tco item cohort) /\
     returns_score (_score_delivery item cohort) /\
     returns_score (_score_payment item cohort) /\
     returns_score (_score_tooling item cohort) /\
     returns_score (_score_moq item cohort)) /\
  Forall (fun it : Item float =>
            Forall (fun score =>
                      exists v, score = Returns v /\
                                PrimFloat.leb 0 v = true /\ PrimFloat.leb v 100 = true)
                   [_score_tco it Samples.cohort; _score_delivery it Samples.cohort;
                    _score_payment it Samples.cohort; _score_tooling it Samples.cohort;
                    _score_moq it Samples.cohort])
         Samples.cohort.
Proof.
  split_and!.
  - intros num A item cohort. split_and!.
    + apply score_delivery_fallback.
    + apply score_payment_fallback.
    + apply score_moq_fallback.
    + intros Hne Htie.
      destruct (score_tco_any cohort Hne) as (lo & hi & _ & _ & Ilo & Ihi & Hs).
      rewrite (Hs item). unfold tcos in Ilo, Ihi. apply in_map_iff in Ilo, Ihi.
      destruct Ilo as (a & <- & Ha). destruct Ihi as (b & <- & Hb).
      rewrite (Htie b a Hb Ha). reflexivity.
    + intros Hne Htie.
      destruct (score_tooling_any cohort Hne) as (lo & hi & _ & _ & Ilo & Ihi & Hs).
      rewrite (Hs item). apply in_map_iff in Ilo, Ihi.
      destruct Ilo as (a & <- & Ha). destruct Ihi as (b & <- & Hb).
      rewrite (Htie b a Hb Ha). reflexivity.
    + intros w Hw Hin Htie.
      destruct (score_delivery_any cohort (omap_not_nil _ _ _ _ Hin Hw))
        as (lo & hi & _ & _ & Ilo & Ihi & Hs).
      rewrite (Hs item w Hw).
      apply list_elem_of_In, list_elem_of_omap in Ilo, Ihi.
      destruct Ilo as (a & Ha & Ea). destruct Ihi as (b & Hb & Eb).
      apply list_elem_of_In in Ha, Hb.
      rewrite (Htie b a hi lo Hb Ha Eb Ea). reflexivity.
    + intros days Hd Hin Htie.
      destruct (score_payment_any cohort (omap_not_nil _ _ _ _ Hin Hd))
        as (lo & hi & _ & _ & Ilo & Ihi & Hs).
      rewrite (Hs item days Hd).
      apply list_elem_of_In, list_elem_of_omap in Ilo, Ihi.
      destruct Ilo as (a & Ha & Ea). destruct Ihi as (b & Hb & Eb).
      apply list_elem_of_In in Ha, Hb.
      rewrite (Htie a lo Ha Ea), (Htie b hi Hb Eb), Z.eqb_refl. reflexivity.
    + intros m Hm Hin Htie.
      destruct (score_moq_any cohort (omap_not_nil _ _ _ _ Hin Hm))
        as (lo & hi & _ & _ & Ilo & Ihi & Hs).
      rewrite (Hs item m Hm).
      apply list_elem_of_In, list_elem_of_omap in Ilo, Ihi.
      destruct Ilo as (a & Ha & Ea). destruct Ihi as (b & Hb & Eb).
      apply list_elem_of_In in Ha, Hb.
      rewrite (Htie a lo Ha Ea), (Htie b hi Hb Eb), Z.eqb_refl. reflexivity.
  - intros item cohort Hin. split_and!.
    + apply score_tco_range, Hin.
    + apply score_delivery_range, Hin.
    + apply score_payment_range, Hin.
    + apply score_tooling_range, Hin.
    + apply score_moq_range, Hin.
  - repeat constructor; eexists; (split; [vm_compute; reflexivity|]);
      split; vm_compute; reflexivity.
Qed.

(** The two suppliers with the same figures throughout, in binary64: every
    criterion is on its all-tie branch; and the supplier whose lead time was
    not extracted gets the fallback. *)
Lemma criterion_scores_within_0_100_witness :
  let twins : list (Item float) := [Samples.twin 0 "First"; Samples.twin 1 "Second"] in
  let first : Item float := Samples.twin 0 "First" in
  _score_delivery first twins = Returns 100%float /\
  _score_payment first twins = Returns 100%float /\
  _score_moq first twins = Returns 100%float /\
  _score_delivery (num := float) Samples.borg Samples.cohort = Returns 20%float.
Proof.
  intros twins first.
  destruct (proj1 criterion_scores_within_0_100 float _ first twins)
    as (_ & _ & _ & _ & _ & Hd & Hp & Hm).
  destruct (proj1 criterion_scores_within_0_100 float _ Samples.borg Samples.cohort)
    as (Hf & _).
  assert (Hin : In first twins) by (left; reflexivity).
  split_and!.
  - apply (Hd (of_int 4) eq_refl Hin).
    intros a b wa wb [<-|[<-|[]]] [<-|[<-|[]]] Ea Eb;
      injection Ea as <-; injection Eb as <-; vm_compute; reflexivity.
  - apply (Hp 30%Z eq_refl Hin).
    intros a da [<-|[<-|[]]] Ea; injection Ea as <-; reflexivity.
  - apply (Hm 100%Z eq_refl Hin).
    intros a ma [<-|[<-|[]]] Ea; injection Ea as <-; reflexivity.
  - apply Hf. reflexivity.
Defined.

End ScorerClaims.
(** ** Missing-data penalty *)

Section PenaltyClaims.
Local Open Scope list_scope.
Import ProcurementScorer MissingData.

Lemma indicator_bool (P : Prop) `{Decision P} (b : bool) :
  (b = true <-> P) -> indicator P = if b then 1%Z else 0%Z.
Proof.
  intros Hb. unfold indicator. destruct (decide P) as [HP|HP], b; try reflexivity.
  - apply Hb in HP. discriminate.
  - exfalso. apply HP, Hb. reflexivity.
Qed.

Lemma text_missing_absent (v : option string) : text_missing v = true <-> text_absent v.
Proof.
  unfold text_missing, text_absent. destruct v as [s|].
  - rewrite orb_true_iff, !bool_decide_eq_true. split.
    + intros [->| ->]; [right; left | right; right]; reflexivity.
    + intros [E|[E|E]]; [discriminate | left | right]; congruence.
  - split; [left; reflexivity | reflexivity].
Qed.

Lemma moq_missing_absent (v : MoqVal) : moq_missing v = true <-> moq_absent v.
Proof.
  unfold moq_missing, moq_absent. destruct v as [|s|n].
  - split; [left; reflexivity | reflexivity].
  - rewrite bool_decide_eq_true. split.
    + intros ->. right; left; reflexivity.
    + intros [E|[E|E]]; congruence.
  - rewrite Z.eqb_eq. split.
    + intros ->. right; right; reflexivity.
    + intros [E|[E|E]]; congruence.
Qed.

Lemma count_true_sum (a b c d e f : bool) :
  count_true [a; b; c; d; e; f] =
  ((if a then 1 else 0) + (if b then 1 else 0) + (if c then 1 else 0) +
   (if d then 1 else 0) + (if e then 1 else 0) + (if f then 1 else 0))%Z.
Proof. destruct a, b, c, d, e, f; reflexivity. Qed.

Section PenaltyStructure.
Context {num : Type} {arith : Arith num}.

Lemma tooling_missing_absent (d : ItemData num) :
  is_zero (tooling_cost_eur d) && is_zero (tooling_cost_original d) = true
  <-> tooling_absent d.
Proof. unfold tooling_absent. rewrite andb_true_iff. tauto. Qed.

Lemma missing_fields_count (item : Item num) :
  count_true (missing_fields item) = conditions_true item.
Proof.
  unfold missing_fields, conditions_true. rewrite count_true_sum.
  rewrite (indicator_bool _ _ (text_missing_absent (lead_time (data item)))),
          (indicator_bool _ _ (text_missing_absent (payment_terms (data item)))),
          (indicator_bool _ _ (text_missing_absent (delivery_terms (data item)))),
          (indicator_bool _ _ (text_missing_absent (quotation_date (data item)))),
          (indicator_bool _ _ (moq_missing_absent (moq (data item)))),
          (indicator_bool _ _ (tooling_missing_absent (data item))).
  reflexivity.
Qed.

End PenaltyStructure.

(** C3. In every arithmetic, the missing-data penalty of an item is 10
    times the number of the six conditions that hold for it, capped at 100
    (lead time text, payment terms text, delivery terms text and quotation
    date each missing, "N/A" or empty; MOQ missing, "N/A" or zero; tooling
    cost zero in both currencies).  With exactly three conditions true the
    penalty is 30 and the composite score is the unpenalized weighted total
    times [1 - 30/100], floored at 0 and rounded to 2 decimals; that factor
    is the binary64 number 0.7 in the program and 7/10 in exact arithmetic.
    As the program computes it, the scores (7, 20, 20, 100, 20) have the
    weighted total 23.45, which the factor takes below 16.415, and the
    composite score 16.41. *)
Theorem missing_data_penalty_counts_conditions :
  (forall (num : Type) (A : Arith num) (item : Item num),
     _calculate_missing_data_penalty item = Z.min 100 (10 * conditions_true item) /\
     (conditions_true item = 3%Z ->
      _calculate_missing_data_penalty item = 30%Z /\
      forall s : Scores num,
        missing_data_penalty s = _calculate_missing_data_penalty item ->
        _calculate_weighted_total s =
          py_round (max0 (mul (base_total WEIGHTS s)
                              (sub (of_int 1) (int_div 30 100)))) 2)) /\
  sub (of_int 1) (int_div 30 100) = 0.7%float /\
  (sub (of_int 1) (int_div 30 100) == 0.7)%Q /\
  (let s : Scores float := Samples.sparse_scores in
   missing_data_penalty s = 30%Z /\
   base_total WEIGHTS s = 23.45%float /\
   mul (base_total WEIGHTS s) 0.7%float = 16.414999999999999%float /\
   _calculate_weighted_total s = 16.41%float) /\
  (let item : Item float := Samples.sparse in
   conditions_true item = 3%Z /\
   ((fun ranked => scores <$> ranked !! 1%nat) <$> score_all Samples.sparse_cohort) =
     Returns (Some (Some Samples.sparse_scores))).
Proof.
  split_and!.
  - intros num A item.
    destruct (penalty_uncapped item) as [Hp Hr].
    rewrite missing_fields_count in Hp.
    split; [lia|]. intros H3. rewrite H3 in Hp. split; [exact Hp|].
    intros s Hs. rewrite Hp in Hs.
    unfold _calculate_weighted_total, penalty_factor. rewrite Hs. reflexivity.
  - vm_compute. reflexivity.
  - reflexivity.
  - vm_compute. split_and!; reflexivity.
  - vm_compute. split_and!; reflexivity.
Qed.

(** The supplier of the sample cohort whose lead time, payment terms and MOQ
    were not extracted, in binary64. *)
Lemma missing_data_penalty_counts_conditions_witness :
  let item : Item float := Samples.sparse in
  conditions_true item = 3%Z /\
  _calculate_missing_data_penalty item = 30%Z /\
  _calculate_weighted_total (num := float) Samples.sparse_scores =
    py_round (max0 (mul (base_total WEIGHTS Samples.sparse_scores)
                        (sub (of_int 1) (int_div 30 100)))) 2.
Proof.
  intros item.
  assert (H3 : conditions_true item = 3%Z) by (vm_compute; reflexivity).
  destruct (proj2 (proj1 missing_data_penalty_counts_conditions float _ item) H3)
    as [Hp Hs].
  split; [exact H3|]. split; [exact Hp|].
  apply Hs. rewrite Hp. reflexivity.
Defined.

End PenaltyClaims.
(** ** Ranking *)

Section RankingClaims.
Local Open Scope list_scope.
Import ProcurementScorer.

Lemma stamp_enumerate_lookup {num : Type} (set : nat -> Item num -> Item num)
    (l : list (Item num)) (i : nat) :
  stamp_enumerate set l !! i = set (S i) <$> l !! i.
Proof. unfold stamp_enumerate. rewrite list_lookup_imap. reflexivity. Qed.

(** C6. [score_all] ranks stably, in every arithmetic and so with the
    composite scores the program computes.  Its result is the scored items
    in an order that is a permutation of the input order; any class of items
    none of which has a greater composite score than another appears in it
    as it does in the input; the item at position [i] (from 0) carries
    [final_ranking = i + 1].  The items of one composite score are such a
    class, in binary64 as in exact arithmetic.  The order is descending in
    composite score: in exact arithmetic always, in binary64 when no
    composite score is NaN.  As the program computes them, the two suppliers
    with the same figures keep their input order, and of [Alpha] (58.49) and
    [Beta] (58.5) the second ranks higher. *)
Theorem ranking_sort_is_stable :
  (forall (num : Type) (A : Arith num) (cohort : list (Item num)),
     exists scored ranked,
       Forall2 (scored_from cohort) cohort scored /\
       Permutation ranked scored /\
       (forall tie : Item num -> bool,
          (forall x y, tie x = true -> tie y = true ->
                       num_ltb (score_of y) (score_of x) = false) ->
          List.filter tie ranked = List.filter tie scored) /\
       score_all cohort = Returns (stamp_enumerate set_final_ranking ranked) /\
       forall (i : nat) (it : Item num),
         stamp_enumerate set_final_ranking ranked !! i = Some it ->
         final_ranking it = Some (S i) /\
         exists it0, ranked !! i = Some it0 /\ it = set_final_ranking (S i) it0) /\
  (forall (t : float) (x y : Item float),
     PrimFloat.eqb (score_of x) t = true -> PrimFloat.eqb (score_of y) t = true ->
     PrimFloat.ltb (score_of y) (score_of x) = false) /\
  (forall (t : Q) (x y : Item Q),
     Qeq_bool (score_of x) t = true -> Qeq_bool (score_of y) t = true ->
     Qltb (score_of y) (score_of x) = false) /\
  (forall cohort : list (Item Q),
     exists ranked,
       score_all cohort = Returns (stamp_enumerate set_final_ranking ranked) /\
       StronglySorted (fun a b => (score_of b <= score_of a)%Q) ranked) /\
  (forall cohort : list (Item float),
     exists scored ranked,
       Forall2 (scored_from cohort) cohort scored /\
       score_all cohort = Returns (stamp_enumerate set_final_ranking ranked) /\
       (Forall (fun it => PrimFloat.eqb (score_of it) (score_of it) = true) scored ->
        StronglySorted
          (fun a b => PrimFloat.ltb (score_of a) (score_of b) = false) ranked)) /\
  (map (fun it => (supplier (data it), total_score it, final_ranking it))
     <$> score_all (num := float) Samples.tied_cohort) =
    Returns [("First", Some 100%float, Some 1%nat);
             ("Second", Some 100%float, Some 2%nat);
             ("Cyberdyne", Some 0%float, Some 3%nat)] /\
  (map (fun it => (supplier (data it), total_score it, final_ranking it))
     <$> score_all (num := float) Samples.close_cohort) =
    Returns [("Gamma", Some 65.56%float, Some 1%nat);
             ("Beta", Some 58.5%float, Some 2%nat);
             ("Alpha", Some 58.49%float, Some 3%nat)].
Proof.
  split_and!.
  - intros num A cohort.
    destruct (score_all_spec cohort) as (scored & Hsc & Hall).
    exists scored, (stable_sort better scored). split_and!.
    + exact Hsc.
    + apply stable_sort_perm.
    + intros tie Htie. apply stable_sort_filter.
      intros x y Hx Hy. apply (Htie x y Hx Hy).
    + exact Hall.
    + intros i it Hi. rewrite stamp_enumerate_lookup in Hi.
      destruct (stable_sort better scored !! i) as [it0|]; [|discriminate].
      injection Hi as <-. split; [reflexivity|]. exists it0. split; reflexivity.
  - intros t x y. apply float_tie_not_less.
  - intros t x y Hx Hy. apply (better_ties t x y Hx Hy).
  - intros cohort. destruct (score_all_spec cohort) as (scored & Hsc & Hall).
    exists (stable_sort better scored). split; [exact Hall|].
    apply (StronglySorted_weaken (fun a b => better b a = false)).
    + intros a b Hab. apply Qltb_ge in Hab. exact Hab.
    + apply stable_sort_sorted; [apply better_asym | apply not_better_trans].
  - intros cohort. destruct (score_all_spec cohort) as (scored & Hsc & Hall).
    exists scored, (stable_sort better scored). split_and!; [exact Hsc | exact Hall|].
    intros Hnan.
    apply (StronglySorted_weaken (fun a b : Item float => better b a = false));
      [intros a b Hab; exact Hab|].
    apply (stable_sort_sorted_on better
             (fun it : Item float => PrimFloat.eqb (score_of it) (score_of it) = true)).
    + intros x y. apply float_ltb_asym.
    + intros x y z Hy Hyx Hzy.
      exact (float_ltb_neg_trans (score_of z) (score_of y) (score_of x) Hy Hzy Hyx).
    + exact Hnan.
  - vm_compute. reflexivity.
  - vm_compute. reflexivity.
Qed.

(** The cohort with two suppliers of the same figures, in binary64: they
    are a class of equal composite scores and keep their order. *)
Lemma ranking_sort_is_stable_witness :
  exists scored ranked : list (Item float),
    score_all Samples.tied_cohort =
      Returns (stamp_enumerate set_final_ranking ranked) /\
    Forall2 (scored_from Samples.tied_cohort) Samples.tied_cohort scored /\
    List.filter (fun it => PrimFloat.eqb (score_of it) 100) ranked =
    List.filter (fun it => PrimFloat.eqb (score_of it) 100) scored.
Proof.
  destruct (proj1 ranking_sort_is_stable float _ Samples.tied_cohort)
    as (scored & ranked & Hsc & _ & Hties & Hall & _).
  exists scored, ranked. split_and!; [exact Hall | exact Hsc|].
  apply Hties. intros x y.
  apply (proj1 (proj2 ranking_sort_is_stable) 100%float x y).
Defined.

(** The same cohort in exact arithmetic, where [Alpha] and [Beta] are both
    at 58.5 and [Alpha], first in the input, stays first. *)
Example ranking_exact :
  (map (fun it => (supplier (data it), total_score it, final_ranking it))
     <$> score_all (num := Q) Samples.close_cohort) =
    Returns [("Gamma", Some (Qred 65.56%Q), Some 1%nat);
             ("Alpha", Some (Qred 58.5%Q), Some 2%nat);
             ("Beta", Some (Qred 58.5%Q), Some 3%nat)].
Proof. vm_compute. reflexivity. Qed.

End RankingClaims.
(** ** Currency conversion *)

Section CurrencyClaims.
Local Open Scope Q_scope.

Lemma EUR_is_listed {num : Type} `{Arith num} :
  EXCHANGE_RATES (num := num) !! "EUR" = Some (literal 1.0).
Proof.
  unfold EXCHANGE_RATES. rewrite lookup_insert_ne by discriminate.
  apply lookup_insert_eq.
Qed.

(** C8. Converting from "EUR" returns the amount unchanged, whatever the
    arithmetic and whatever the rate table holds; converting from a code that
    is not in the rate table returns the amount times 1.0, in any arithmetic,
    which over the rationals is the amount (and is 250 for 250 Swiss francs
    in binary64).  [convert_to_eur] is a total function: it has no failing
    case. *)
Theorem convert_reference_and_unknown_currency :
  (forall (num : Type) (A : Arith num) (rates : gmap string num) (amount : num),
     convert_with rates amount "EUR" = amount) /\
  (forall (num : Type) (A : Arith num) (amount : num),
     convert_to_eur amount "EUR" = amount) /\
  (forall (num : Type) (A : Arith num) (amount : num) (code : string),
     EXCHANGE_RATES (num := num) !! code = None ->
     convert_to_eur amount code = mul amount (literal 1.0)) /\
  (forall (amount : Q) (code : string),
     EXCHANGE_RATES (num := Q) !! code = None ->
     convert_to_eur amount code = amount * 1.0 /\ convert_to_eur amount code == amount) /\
  convert_to_eur 250%float "CHF" = 250%float.
Proof.
  assert (Hunknown : forall (num : Type) (A : Arith num) (amount : num) (code : string),
            EXCHANGE_RATES (num := num) !! code = None ->
            convert_to_eur amount code = mul amount (literal 1.0)).
  { intros num A amount code Hnone.
    unfold convert_to_eur, convert_with. destruct (decide (code = "EUR")) as [->|_].
    - rewrite EUR_is_listed in Hnone. discriminate.
    - rewrite Hnone. reflexivity. }
  split_and!.
  - intros num A rates amount. reflexivity.
  - intros num A amount. reflexivity.
  - exact Hunknown.
  - intros amount code Hnone. rewrite (Hunknown Q _ amount code Hnone).
    simpl. split; [reflexivity | ring].
  - vm_compute. reflexivity.
Qed.

Lemma convert_reference_and_unknown_currency_witness :
  EXCHANGE_RATES (num := Q) !! "CHF" = None /\
  convert_to_eur 250 "CHF" = 250 * 1.0 /\ convert_to_eur 250 "CHF" == 250.
Proof.
  assert (H : EXCHANGE_RATES (num := Q) !! "CHF" = None) by (vm_compute; reflexivity).
  split; [exact H|].
  exact (proj1 (proj2 (proj2 (proj2 convert_reference_and_unknown_currency))) 250 "CHF" H).
Defined.

(** C9, as stated, fails on binary64 numbers: 15 EUR taken to USD by the
    inverse rate and converted back is 15.000000000000002, which [==] tells
    apart from 15. *)
Lemma binary64_round_trip_is_inexact :
  convert_to_eur (from_eur 15%float models.USD) "USD" = 15.000000000000002%float /\
  PrimFloat.eqb (convert_to_eur (from_eur 15%float models.USD) "USD") 15%float = false /\
  ~ (forall (c : models.Currency) (amount : float),
       convert_to_eur (from_eur amount c) (models.value c) = amount).
Proof.
  split_and!; [vm_compute; reflexivity | vm_compute; reflexivity |].
  intros H. specialize (H models.USD 15%float).
  pose proof (f_equal (fun x => PrimFloat.eqb x 15%float) H) as E.
  vm_compute in E. discriminate.
Qed.

Lemma rate_nonzero (c : models.Currency) : ~ rate (num := Q) c == 0.
Proof. destruct c; vm_compute; discriminate. Qed.

(** C9, amended.  In exact arithmetic, for each of USD, EUR, GBP and JPY and
    every amount, dividing the amount by the currency's rate and converting
    the quotient back reproduces the amount. *)
Theorem exact_round_trip (c : models.Currency) (amount : Q) :
  convert_to_eur (from_eur amount c) (models.value c) == amount.
Proof.
  pose proof (rate_nonzero c) as Hr.
  unfold from_eur. destruct c; unfold convert_to_eur, convert_with; simpl.
  - change (default 1.0 (EXCHANGE_RATES !! "USD")) with (rate (num := Q) models.USD).
    field. exact Hr.
  - change (rate (num := Q) models.EUR) with 1.0. field.
  - change (default 1.0 (EXCHANGE_RATES !! "GBP")) with (rate (num := Q) models.GBP).
    field. exact Hr.
  - change (default 1.0 (EXCHANGE_RATES !! "JPY")) with (rate (num := Q) models.JPY).
    field. exact Hr.
Qed.

End CurrencyClaims.

(** ** Cost aggregation *)

Section CostClaims.
Import QuotationComparator.

Lemma years_multiplier_max {num : Type} (prices : list (Z * num)) :
  years_multiplier prices = Z.max 1 (Z.of_nat (length prices)).
Proof.
  destruct prices as [|p r]; [reflexivity|].
  change (Z.of_nat (S (length r)) = Z.max 1 (Z.of_nat (S (length r)))). lia.
Qed.

Lemma is_recurring_lower (t : string) :
  lower t = "renewal" \/ lower t = "recurring" -> is_recurring (Some t) = true.
Proof.
  intros H. unfold is_recurring. apply andb_true_iff. split.
  - apply negb_true_iff, bool_decide_eq_false. intros ->.
    destruct H as [H|H]; discriminate.
  - apply orb_true_iff. rewrite !bool_decide_eq_true. exact H.
Qed.

Lemma is_recurring_one_time (t : option string) :
  t = None \/ t = Some "one-time" -> is_recurring t = false.
Proof. intros [-> | ->]; vm_compute; reflexivity. Qed.

(** With a tooling cost that counts, the TCO is the annual total plus the
    standalone figure, in any arithmetic. *)
Lemma tco_adds_tooling_figure {num : Type} `{Arith num}
    (quote : models.ExtractedQuotation num) (cost : num) :
  models.tooling_cost quote = Some cost -> is_zero cost = false ->
  _calculate_tco quote = add (annual_total quote) (_calculate_tooling_cost quote) /\
  _calculate_tooling_cost quote =
    if is_recurring (models.tooling_cost_type quote)
    then mul cost (of_int (years_multiplier (models.annual_prices quote)))
    else cost.
Proof.
  intros Hc Hz. unfold _calculate_tco, _calculate_tooling_cost, truthy.
  rewrite Hc, Hz. simpl.
  destruct (is_recurring (models.tooling_cost_type quote)); split; reflexivity.
Qed.

Lemma tco_without_tooling {num : Type} `{Arith num}
    (quote : models.ExtractedQuotation num) :
  truthy (models.tooling_cost quote) = false ->
  _calculate_tco quote = annual_total quote /\
  _calculate_tooling_cost quote =
    if is_recurring (models.tooling_cost_type quote)
    then mul (of_int 0) (of_int (years_multiplier (models.annual_prices quote)))
    else of_int 0.
Proof.
  intros Ht. unfold _calculate_tco, _calculate_tooling_cost.
  destruct (models.tooling_cost quote) as [c|]; [rewrite Ht|]; split; reflexivity.
Qed.

(** Over the rationals the two cases read as one equation. *)
Lemma tco_is_total_plus_figure (quote : models.ExtractedQuotation Q) :
  (_calculate_tco quote == annual_total quote + _calculate_tooling_cost quote)%Q.
Proof.
  destruct (truthy (models.tooling_cost quote)) eqn:Ht.
  - destruct (models.tooling_cost quote) as [c|] eqn:Ec; [|discriminate].
    apply negb_true_iff in Ht.
    rewrite (proj1 (tco_adds_tooling_figure quote c Ec Ht)). reflexivity.
  - destruct (tco_without_tooling quote Ht) as [-> ->].
    destruct (is_recurring _); simpl; ring.
Qed.

Lemma tooling_figure_value (quote : models.ExtractedQuotation Q) :
  (_calculate_tooling_cost quote ==
   default 0 (models.tooling_cost quote) *
   (if is_recurring (models.tooling_cost_type quote)
    then inject_Z (years_multiplier (models.annual_prices quote)) else 1))%Q.
Proof.
  destruct (truthy (models.tooling_cost quote)) eqn:Ht.
  - destruct (models.tooling_cost quote) as [c|] eqn:Ec; [|discriminate].
    apply negb_true_iff in Ht.
    rewrite (proj2 (tco_adds_tooling_figure quote c Ec Ht)).
    destruct (is_recurring _); simpl; ring.
  - rewrite (proj2 (tco_without_tooling quote Ht)).
    destruct (models.tooling_cost quote) as [c|]; simpl in *.
    + apply negb_false_iff, Qeq_bool_iff in Ht. rewrite Ht.
      destruct (is_recurring _); simpl; ring.
    + destruct (is_recurring _); simpl; ring.
Qed.

(** C5, as stated, fails in the arithmetic of the program: for three years
    at 12.5 x 1000 and a recurring tooling cost of 1000.1, the TCO minus
    the per-year sum is 3000.3000000000029 while the standalone tooling
    figure is 3000.3000000000002. *)
Lemma tco_minus_sum_is_not_the_figure :
  let quote : models.ExtractedQuotation float := Samples.odd_fee_quote in
  let per_year :=
    py_sum (map (fun '(y, price) =>
                   mul price (of_int (default 0%Z (models.annual_quantities quote !! y))))
                (models.annual_prices quote)) in
  per_year = 37500%float /\
  _calculate_tooling_cost quote = 3000.3000000000002%float /\
  _calculate_tco quote = 40500.3%float /\
  sub (_calculate_tco quote) per_year = 3000.3000000000029%float /\
  PrimFloat.eqb (sub (_calculate_tco quote) per_year) (_calculate_tooling_cost quote) = false.
Proof. vm_compute. split_and!; reflexivity. Qed.

(** C5, amended.  The renewal rule is the same in [_calculate_tco] and in
    [_calculate_tooling_cost].  In every arithmetic, so in the binary64
    arithmetic of the program, for a quotation with a non-zero tooling cost
    the TCO is the sum of the per-year price times quantity plus the
    standalone tooling figure, and that figure is the tooling cost itself
    unless the type is recurring, when it is the tooling cost times the
    number of years in [annual_prices] (1 for an empty map); without a
    tooling cost the TCO is the per-year sum alone.  The type is recurring
    when it is "renewal" or "recurring" in any letter case, and it is not
    when it is absent or "one-time".  In exact arithmetic the TCO minus the
    per-year sum is therefore the standalone figure, for every quotation;
    in binary64 the difference can be off by a rounding error.  A recurring
    tooling cost of 1000 over three priced years contributes 3000 to both,
    over the rationals and over binary64. *)
Theorem tooling_rule_shared_by_tco_and_tooling_figure :
  (forall (num : Type) (A : Arith num) (quote : models.ExtractedQuotation num),
     let years := years_multiplier (models.annual_prices quote) in
     let recurring := is_recurring (models.tooling_cost_type quote) in
     let per_year :=
       py_sum (map (fun '(y, price) =>
                      mul price
                          (of_int (default 0%Z (models.annual_quantities quote !! y))))
                   (models.annual_prices quote)) in
     years = Z.max 1 (Z.of_nat (length (models.annual_prices quote))) /\
     (forall cost, models.tooling_cost quote = Some cost -> is_zero cost = false ->
        _calculate_tco quote = add per_year (_calculate_tooling_cost quote) /\
        _calculate_tooling_cost quote =
          if recurring then mul cost (of_int years) else cost) /\
     (truthy (models.tooling_cost quote) = false ->
        _calculate_tco quote = per_year) /\
     (models.tooling_cost_type quote = None \/
      models.tooling_cost_type quote = Some "one-time" -> recurring = false) /\
     (forall t, models.tooling_cost_type quote = Some t ->
                lower t = "renewal" \/ lower t = "recurring" -> recurring = true)) /\
  (forall quote : models.ExtractedQuotation Q,
     let per_year :=
       py_sum (map (fun '(y, price) =>
                      price * inject_Z (default 0%Z (models.annual_quantities quote !! y)))
                   (models.annual_prices quote)) in
     _calculate_tco quote - per_year == _calculate_tooling_cost quote /\
     _calculate_tooling_cost quote ==
       default 0 (models.tooling_cost quote) *
       (if is_recurring (models.tooling_cost_type quote)
        then inject_Z (years_multiplier (models.annual_prices quote)) else 1))%Q /\
  (let quote : models.ExtractedQuotation Q := Samples.recurring_quote in
   length (models.annual_prices quote) = 3%nat /\
   _calculate_tooling_cost quote == 3000 /\
   _calculate_tco quote == 36500 + 3000)%Q /\
  (let quote : models.ExtractedQuotation float := Samples.recurring_quote in
   _calculate_tooling_cost quote = 3000 /\
   _calculate_tco quote = 36500 + 3000)%float.
Proof.
  split_and!.
  - intros num A quote years recurring per_year. subst years recurring. split_and!.
    + apply years_multiplier_max.
    + intros cost Hc Hz. apply tco_adds_tooling_figure; assumption.
    + intros Ht. apply tco_without_tooling, Ht.
    + apply is_recurring_one_time.
    + intros t Ht Hlow. rewrite Ht. apply is_recurring_lower, Hlow.
  - intros quote per_year. split; [|apply tooling_figure_value].
    change per_year with (annual_total quote).
    rewrite tco_is_total_plus_figure. ring.
  - vm_compute. split_and!; reflexivity.
  - vm_compute. split; reflexivity.
Qed.

(** The sample quotation, of type "Recurring", in binary64: 1000 over three
    years. *)
Lemma tooling_rule_shared_by_tco_and_tooling_figure_witness :
  let quote : models.ExtractedQuotation float := Samples.recurring_quote in
  models.tooling_cost quote = Some 1000%float /\ is_zero 1000%float = false /\
  _calculate_tco quote = add 36500%float (_calculate_tooling_cost quote) /\
  _calculate_tooling_cost quote = mul 1000%float (of_int 3).
Proof.
  intros quote. split; [vm_compute; reflexivity|]. split; [vm_compute; reflexivity|].
  destruct (proj1 (proj2 (proj1 tooling_rule_shared_by_tco_and_tooling_figure
                            float _ quote)) 1000%float) as [Htco Hfig];
    [vm_compute; reflexivity | vm_compute; reflexivity|].
  split; [rewrite Htco; vm_compute; reflexivity | rewrite Hfig; vm_compute; reflexivity].
Defined.

(** ** The pipeline on an empty cohort *)

(** C7. On an empty list of quotations [compare] returns the empty result
    (no comparison table, no summary, no recommendation, no timestamp) and
    raises nothing, whatever the collaborators are; a non-empty list never
    gives the empty result. *)
Theorem compare_empty_cohort {num : Type} `{Arith num}
    (strftime_ymd : models.datetime -> string)
    (llm_recommendation : list (Item num) -> outcome (models.Recommendation num))
    (now_isoformat : string) :
  let empty : Comparison num := empty_comparison in
  compare strftime_ymd llm_recommendation now_isoformat [] = Returns empty /\
  comparison_table empty = None /\
  summary empty = None /\
  recommendation empty = None /\
  generated_at empty = None /\
  forall q qs result,
    compare strftime_ymd llm_recommendation now_isoformat (q :: qs) = Returns result ->
    is_Some (comparison_table result) /\ is_Some (summary result) /\
    is_Some (recommendation result) /\ generated_at result = Some now_isoformat.
Proof.
  intros empty. split_and!; try reflexivity.
  intros q qs result. unfold compare.
  destruct (mapM _ (q :: qs)) as [built|]; simpl; [|discriminate].
  destruct (ProcurementScorer.score_all _) as [scored|]; simpl; [|discriminate].
  destruct (py_sorted _ _ _ _) as [by_cost|]; simpl; [|discriminate].
  match goal with |- context [mbind _ ?m] => destruct m as [r|] end; simpl; [|discriminate].
  destruct (_generate_summary _) as [sm|]; simpl; [|discriminate].
  intros Hres. injection Hres as <-. simpl. split_and!; eauto.
Qed.

(** The pipeline on two quotations, with stand-in collaborators: the cheaper
    supplier ranks first on score and on cost. *)
Example compare_two_quotations :
  (fun result =>
     (fun table =>
        map (fun it => (supplier (data it), total_score it,
                        final_ranking it, cost_ranking it, ranking it)) table)
     <$> comparison_table result)
  <$> compare Samples.stub_strftime Samples.stub_recommendation "2024-02-01T09:00:00"
        [Samples.recurring_quote; Samples.plain_quote] =
  Returns (Some [("Borg", Some (Qred 57.6%Q), Some 1%nat, Some 1%nat, Some 1%nat);
                 ("Acme", Some 27%Q, Some 2%nat, Some 2%nat, Some 2%nat)]).
Proof. vm_compute. reflexivity. Qed.

End CostClaims.

(** ** Lead-time parsing *)

Section LeadTimeClaims.
Import QuotationComparator LeadTimeRule.

Lemma append_cons (c : ascii) (r s : string) : String c r ++ s = String c (r ++ s).
Proof. reflexivity. Qed.

Lemma append_empty_l (s : string) : "" ++ s = s.
Proof. reflexivity. Qed.

Lemma append_empty_r (s : string) : s ++ "" = s.
Proof.
  induction s as [|c r IH]; [reflexivity|]. rewrite append_cons, IH. reflexivity.
Qed.

Lemma snoc_char_append (tok : string) (c : ascii) (s : string) :
  snoc_char tok c ++ s = tok ++ String c s.
Proof.
  unfold snoc_char. induction tok as [|d r IH]; [reflexivity|].
  rewrite !append_cons, IH. reflexivity.
Qed.

(** The scan inside the fractional part of a match. *)
Lemma scan_fraction (s tok : string) :
  head (findall_numbers_from (Some (true, tok)) s) = Some (tok ++ take_while is_digit s).
Proof.
  revert tok. induction s as [|c r IH]; intros tok; simpl.
  - rewrite append_empty_r. reflexivity.
  - destruct (is_digit c).
    + rewrite IH, snoc_char_append. reflexivity.
    + simpl. rewrite append_empty_r. reflexivity.
Qed.

(** The scan inside the integer part of a match. *)
Lemma scan_integer (s tok : string) :
  head (findall_numbers_from (Some (false, tok)) s) =
  Some (tok ++ take_while is_digit s ++ fraction_after (drop_while is_digit s)).
Proof.
  revert tok. induction s as [|c r IH]; intros tok; simpl.
  - rewrite append_empty_r. reflexivity.
  - destruct (is_digit c) eqn:Ed.
    + rewrite IH, snoc_char_append. reflexivity.
    + simpl. destruct (Ascii.eqb c ".") eqn:Ec.
      * rewrite scan_fraction, snoc_char_append. reflexivity.
      * simpl. rewrite append_empty_r. reflexivity.
Qed.

(** The first match of the pattern is the first numeric token. *)
Lemma findall_numbers_head (s : string) :
  head (findall_numbers s) = first_numeric_token s.
Proof.
  unfold findall_numbers, first_numeric_token.
  induction s as [|c r IH]; simpl; [reflexivity|].
  destruct (is_digit c) eqn:Ed; simpl.
  - rewrite scan_integer, Ed. reflexivity.
  - exact IH.
Qed.

Lemma all_digits_take_while (s : string) : all_digits (take_while is_digit s) = true.
Proof.
  unfold all_digits. induction s as [|c r IH]; simpl; [reflexivity|].
  destruct (is_digit c) eqn:Ed; simpl; [rewrite Ed, IH|]; reflexivity.
Qed.

Lemma dot_is_no_digit (c : ascii) : Ascii.eqb c "." = true -> is_digit c = false.
Proof. intros H. apply Ascii.eqb_eq in H. subst. reflexivity. Qed.

(** Digits followed by nothing, or by a fractional part, split where the
    digits end. *)
Lemma take_while_token (s rest : string) :
  take_while is_digit (take_while is_digit s ++ fraction_after rest) =
  take_while is_digit s.
Proof.
  induction s as [|c r IH]; simpl.
  - destruct rest as [|d after]; simpl; [reflexivity|].
    destruct (Ascii.eqb d ".") eqn:E; simpl; [|reflexivity].
    rewrite (dot_is_no_digit d E). reflexivity.
  - destruct (is_digit c) eqn:Ed; simpl.
    + rewrite Ed, IH. reflexivity.
    + destruct rest as [|d after]; simpl; [reflexivity|].
      destruct (Ascii.eqb d ".") eqn:E; simpl; [|reflexivity].
      rewrite (dot_is_no_digit d E). reflexivity.
Qed.

Lemma drop_while_token (s rest : string) :
  drop_while is_digit (take_while is_digit s ++ fraction_after rest) =
  fraction_after rest.
Proof.
  induction s as [|c r IH]; simpl.
  - destruct rest as [|d after]; simpl; [reflexivity|].
    destruct (Ascii.eqb d ".") eqn:E; simpl; [|reflexivity].
    rewrite (dot_is_no_digit d E). reflexivity.
  - destruct (is_digit c) eqn:Ed; simpl.
    + rewrite Ed, IH. reflexivity.
    + destruct rest as [|d after]; simpl; [reflexivity|].
      destruct (Ascii.eqb d ".") eqn:E; simpl; [|reflexivity].
      rewrite (dot_is_no_digit d E). reflexivity.
Qed.

Lemma fraction_after_shape (rest : string) (d : ascii) (frac : string) :
  fraction_after rest = String d frac ->
  Ascii.eqb d "." && all_digits frac = true.
Proof.
  unfold fraction_after. destruct rest as [|d' after]; [discriminate|].
  destruct (Ascii.eqb d' ".") eqn:E; [|discriminate].
  intros H. injection H as <- <-. rewrite E. apply all_digits_take_while.
Qed.

Lemma absent_text_absent (v : option string) :
  absent_text v = true <-> MissingData.text_absent v.
Proof.
  unfold absent_text, MissingData.text_absent. destruct v as [s|].
  - rewrite orb_true_iff, !bool_decide_eq_true. split.
    + intros [->| ->]; [right; right | right; left]; reflexivity.
    + intros [H|[H|H]]; [discriminate | right | left]; congruence.
  - split; [left; reflexivity | reflexivity].
Qed.

Section LeadTimeStructure.
Context {num : Type} {arith : Arith num}.

Lemma py_float_of_shape (fd : string) :
  take_while is_digit fd <> "" ->
  py_float (num := num)
    (take_while is_digit fd ++ fraction_after (drop_while is_digit fd)) =
  Returns (of_decimal
             (decimal_value (take_while is_digit fd ++
                             fraction_after (drop_while is_digit fd)))).
Proof.
  intros Hne. unfold py_float, decimal_text_value, decimal_value.
  rewrite take_while_token, drop_while_token.
  destruct (take_while is_digit fd) as [|c ip]; [congruence|].
  destruct (fraction_after (drop_while is_digit fd)) as [|d frac] eqn:Ef; [reflexivity|].
  rewrite (fraction_after_shape _ _ _ Ef). reflexivity.
Qed.

(** [float] never fails on a numeric token. *)
Lemma py_float_of_token (s tok : string) :
  first_numeric_token s = Some tok ->
  py_float (num := num) tok = Returns (of_decimal (decimal_value tok)).
Proof.
  unfold first_numeric_token.
  set (fd := drop_while (fun c => negb (is_digit c)) s).
  assert (Hfd : fd = "" \/ take_while is_digit fd <> "").
  { subst fd. induction s as [|c r IH]; [left; reflexivity|].
    simpl. destruct (is_digit c) eqn:Ed; simpl; [|exact IH].
    right. rewrite Ed. discriminate. }
  destruct Hfd as [E | Hne].
  - rewrite E. discriminate.
  - destruct fd as [|c r] eqn:Efd; [discriminate|].
    intros Htok. injection Htok as <-. exact (py_float_of_shape (String c r) Hne).
Qed.

Lemma to_weeks_in_weeks (text : string) (n : num) : to_weeks text n = in_weeks text n.
Proof.
  unfold to_weeks, in_weeks, mentions. cbn [existsb]. rewrite !orb_false_r. reflexivity.
Qed.

(** The parser computes the rule, and never raises. *)
Lemma parse_lead_time_refines (lead_time : option string) :
  _parse_lead_time (num := num) lead_time = Returns (weeks_of lead_time).
Proof.
  unfold _parse_lead_time, weeks_of.
  destruct (decide (MissingData.text_absent lead_time)) as [Ha|Ha].
  - apply absent_text_absent in Ha. destruct lead_time as [text|]; [|reflexivity].
    rewrite Ha. reflexivity.
  - destruct lead_time as [text|]; [|exfalso; apply Ha; left; reflexivity].
    destruct (absent_text (Some text)) eqn:E;
      [exfalso; apply Ha, absent_text_absent, E|].
    pose proof (findall_numbers_head (lower text)) as Hh. cbn [mbind option_bind].
    destruct (first_numeric_token (lower text)) as [tok|] eqn:Et;
      destruct (findall_numbers (lower text)) as [|first rest]; try discriminate.
    + injection Hh as ->. rewrite (py_float_of_token _ _ Et), bind_returns.
      rewrite to_weeks_in_weeks. reflexivity.
    + reflexivity.
Qed.

End LeadTimeStructure.

(** C4, as stated, fails on "2 months": the parser returns 8.7, the product
    2 * 4.33 = 8.66 rounded to one decimal place, not 8.66; in binary64 as in
    exact arithmetic. *)
Lemma two_months_is_not_8_66 :
  _parse_lead_time (num := float) (Some "2 months") = Returns (Some 8.7%float) /\
  PrimFloat.eqb 8.7 8.66 = false /\
  exists weeks : Q,
    _parse_lead_time (Some "2 months") = Returns (Some weeks) /\
    (weeks == 8.7)%Q /\ ~ (weeks == 8.66)%Q.
Proof.
  split; [vm_compute; reflexivity|]. split; [vm_compute; reflexivity|].
  exists 8.7%Q. split_and!; [vm_compute; reflexivity | reflexivity | discriminate].
Qed.

(** C4, amended.  In every arithmetic, so in the binary64 arithmetic of the
    program, the lead-time parser returns for every input (it never raises)
    what the rule gives: null on absent, "N/A" or empty input and on a text
    without a numeric token; otherwise the number of the first numeric token
    of the lower-cased text, divided by 7 when a day keyword ("day", "tag")
    occurs, else multiplied by 4.33 for a month keyword ("month", "monat"),
    else by 52 for a year keyword ("year", "jahr"), else left as weeks, and
    rounded to one decimal place.  As the program computes it, "8 weeks"
    gives 8.0, "14 days" 2.0, "2 months" 8.7, "1 year" 52.0, "4.35 weeks"
    4.3 (the binary64 number 4.35 lies below the tie), a token beyond the
    binary64 range gives infinity, and "N/A" and "" give null. *)
Theorem parse_lead_time_rule :
  (forall (num : Type) (A : Arith num) (lead_time : option string),
     _parse_lead_time (num := num) lead_time = Returns (weeks_of lead_time)) /\
  (forall (num : Type) (A : Arith num) (text : string),
     first_numeric_token (lower text) = None ->
     _parse_lead_time (num := num) (Some text) = Returns None) /\
  _parse_lead_time (num := float) (Some "8 weeks") = Returns (Some 8%float) /\
  _parse_lead_time (num := float) (Some "14 days") = Returns (Some 2%float) /\
  _parse_lead_time (num := float) (Some "2 months") = Returns (Some 8.7%float) /\
  _parse_lead_time (num := float) (Some "1 year") = Returns (Some 52%float) /\
  _parse_lead_time (num := float) (Some "4.35 weeks") = Returns (Some 4.3%float) /\
  _parse_lead_time (num := float) (Some (nines 400 ++ " weeks")) =
    Returns (Some infinity) /\
  _parse_lead_time (num := float) (Some "N/A") = Returns None /\
  _parse_lead_time (num := float) (Some "") = Returns None /\
  _parse_lead_time (num := float) None = Returns None.
Proof.
  split; [intros num A; apply parse_lead_time_refines|]. split.
  - intros num A text Hnone. rewrite parse_lead_time_refines. unfold weeks_of.
    destruct (decide _); [reflexivity|]. cbn [mbind option_bind]. rewrite Hnone.
    reflexivity.
  - split_and!; vm_compute; reflexivity.
Qed.

Lemma parse_lead_time_rule_witness :
  first_numeric_token (lower "Upon request") = None /\
  _parse_lead_time (num := float) (Some "Upon request") = Returns None.
Proof.
  assert (H : first_numeric_token (lower "Upon request") = None) by reflexivity.
  split; [exact H | exact (proj1 (proj2 parse_lead_time_rule) float _ "Upon request" H)].
Defined.

(** The same inputs in exact arithmetic, where "4.35 weeks" is a tie. *)
Example parse_lead_time_exact :
  _parse_lead_time (num := Q) (Some "2 months") = Returns (Some (Qred 8.7%Q)) /\
  _parse_lead_time (num := Q) (Some "4.35 weeks") = Returns (Some (Qred 4.4%Q)).
Proof. split; vm_compute; reflexivity. Qed.

End LeadTimeClaims.
(** * Further properties *)

(** ** Rounding and normalisation keep the order *)

Section OrderFacts.
Local Open Scope Q_scope.
Import ProcurementScorer.

Lemma round_half_even_mono (x y : Q) :
  x <= y -> (round_half_even x <= round_half_even y)%Z.
Proof.
  intros Hxy. unfold round_half_even.
  pose proof (Qfloor_resp_le _ _ Hxy) as Hf.
  pose proof (Qfloor_le x) as Hx1. pose proof (Qlt_floor x) as Hx2.
  pose proof (Qfloor_le y) as Hy1. pose proof (Qlt_floor y) as Hy2.
  rewrite inject_Z_plus in Hx2, Hy2.
  destruct (Z.eq_dec (Qfloor x) (Qfloor y)) as [E|NE].
  - rewrite <- E in *.
    destruct (Qcompare_spec (x - inject_Z (Qfloor x)) (1 # 2)) as [Cx|Cx|Cx],
             (Qcompare_spec (y - inject_Z (Qfloor x)) (1 # 2)) as [Cy|Cy|Cy];
      try destruct (Z.even (Qfloor x)); try lia; exfalso; lra.
  - assert (Hlt : (Qfloor x + 1 <= Qfloor y)%Z) by lia.
    destruct (x - inject_Z (Qfloor x) ?= 1 # 2), (y - inject_Z (Qfloor y) ?= 1 # 2);
      try destruct (Z.even (Qfloor x)); try destruct (Z.even (Qfloor y)); lia.
Qed.

Lemma py_round_mono (x y : Q) (n : nat) : x <= y -> py_round x n <= py_round y n.
Proof.
  intros Hxy. q_round. rewrite !Qred_correct.
  pose proof (scale_pos n) as Hs.
  set (s := inject_Z (10 ^ Z.of_nat n)) in *.
  assert (Hm : (round_half_even (x * s) <= round_half_even (y * s))%Z).
  { apply round_half_even_mono. nra. }
  rewrite Zle_Qle in Hm.
  unfold Qdiv. apply Qmult_le_compat_r; [exact Hm|].
  apply Qinv_le_0_compat. lra.
Qed.

Lemma py_round_nonneg (x : Q) (n : nat) : 0 <= x -> 0 <= py_round x n.
Proof.
  intros Hx. pose proof (py_round_mono 0 x n Hx) as H.
  assert (E : py_round 0 n == 0) by (apply (py_round_integer 0); reflexivity).
  lra.
Qed.

Lemma max0_mono (x y : Q) : x <= y -> max0 x <= max0 y.
Proof.
  intros Hxy. unfold max0; q_ops.
  destruct (Qltb 0 x) eqn:Ex, (Qltb 0 y) eqn:Ey; try lra.
  - apply Qltb_lt in Ex. apply Qltb_ge in Ey. lra.
  - apply Qltb_lt in Ey. lra.
Qed.

(** A greater figure never gets a greater score. *)
Lemma min_max_score_antitone (x y lo hi : Q) :
  lo < hi -> x <= y -> min_max_score y lo hi <= min_max_score x lo hi.
Proof.
  intros Hlh Hxy. unfold min_max_score; q_ops.
  apply py_round_mono, max0_mono.
  assert (Hd : (x - lo) / (hi - lo) <= (y - lo) / (hi - lo)).
  { unfold Qdiv. apply Qmult_le_compat_r; [lra|].
    apply Qinv_le_0_compat. lra. }
  lra.
Qed.

(** The score a figure [v] gets in a cohort whose figures span [lo .. hi]. *)
Lemma normalised_profile (l : list Q) (lo hi x : Q) :
  In lo l -> In hi l -> Forall (Qle lo) l -> Forall (fun y => y <= hi) l -> In x l ->
  let s := fun v => if Qeq_bool hi lo then 100.0 else min_max_score v lo hi in
  (Forall (fun v => x <= v) l -> s x == 100) /\
  (Forall (fun v => v <= x) l -> ~ Forall (fun v => v == x) l -> s x == 0) /\
  (forall y, In y l -> x <= y -> s y <= s x).
Proof.
  intros Hlo Hhi Hmin Hmax Hx s. subst s. cbv beta.
  rewrite List.Forall_forall in Hmin, Hmax.
  pose proof (Hmin x Hx) as Hlx. pose proof (Hmax x Hx) as Hxh.
  destruct (Qeq_bool hi lo) eqn:E.
  - apply Qeq_bool_iff in E. split_and!.
    + intros _. reflexivity.
    + intros _ Hn. exfalso. apply Hn. apply List.Forall_forall. intros v Hv.
      pose proof (Hmin v Hv). pose proof (Hmax v Hv). lra.
    + intros y _ _. lra.
  - apply Qeq_bool_neq in E.
    assert (Hlt : lo < hi).
    { apply Qnot_le_lt. intros Hc. apply E. pose proof (Hmin hi Hhi). lra. }
    split_and!.
    + intros Hleast. rewrite List.Forall_forall in Hleast.
      apply min_max_score_at_min; [|exact Hlt].
      pose proof (Hleast lo Hlo). lra.
    + intros Hmost _. rewrite List.Forall_forall in Hmost.
      apply min_max_score_at_max; [|exact Hlt].
      pose proof (Hmost hi Hhi). lra.
    + intros y _ Hxy. apply min_max_score_antitone; assumption.
Qed.

Lemma Qeq_bool_inject_Z (a b : Z) : Qeq_bool (inject_Z a) (inject_Z b) = (a =? b)%Z.
Proof.
  destruct (a =? b)%Z eqn:E.
  - apply Z.eqb_eq in E. subst. apply Qeq_bool_iff. reflexivity.
  - apply Z.eqb_neq in E. apply not_true_iff_false. intros H.
    apply Qeq_bool_iff in H. apply E. apply inject_Z_injective. exact H.
Qed.

Lemma normalised_profile_Z (l : list Z) (lo hi x : Z) :
  In lo l -> In hi l -> Forall (Z.le lo) l -> Forall (fun y => (y <= hi)%Z) l -> In x l ->
  let s := fun v => if (hi =? lo)%Z then 100.0
                    else min_max_score (inject_Z v) (inject_Z lo) (inject_Z hi) in
  (Forall (fun v => (x <= v)%Z) l -> s x == 100) /\
  (Forall (fun v => (v <= x)%Z) l -> ~ Forall (fun v => v = x) l -> s x == 0) /\
  (forall y, In y l -> (x <= y)%Z -> s y <= s x).
Proof.
  intros Hlo Hhi Hmin Hmax Hx s. subst s. cbv beta.
  rewrite <- Qeq_bool_inject_Z.
  assert (Hmap : forall (P : Z -> Prop) (P' : Q -> Prop),
             (forall v, P v -> P' (inject_Z v)) ->
             Forall P l -> Forall P' (map inject_Z l)).
  { intros P P' HP HF. apply Forall_map. revert HF. apply List.Forall_impl. exact HP. }
  destruct (normalised_profile (map inject_Z l) (inject_Z lo) (inject_Z hi) (inject_Z x))
    as (H1 & H2 & H3); try (apply in_map; assumption).
  - revert Hmin. apply Hmap. intros v Hv. rewrite <- Zle_Qle. exact Hv.
  - revert Hmax. apply Hmap. intros v Hv. rewrite <- Zle_Qle. exact Hv.
  - split_and!.
    + intros H. apply H1. revert H. apply Hmap. intros v Hv. rewrite <- Zle_Qle. exact Hv.
    + intros Ha Hn. apply H2.
      * revert Ha. apply Hmap. intros v Hv. rewrite <- Zle_Qle. exact Hv.
      * intros Hall. apply Hn. apply List.Forall_forall. intros v Hv.
        rewrite List.Forall_forall in Hall.
        apply inject_Z_injective, Hall, in_map, Hv.
    + intros y Hy Hxy. apply H3; [apply in_map, Hy | rewrite <- Zle_Qle; exact Hxy].
Qed.

End OrderFacts.

(** ** Each criterion ranks the cohort by its figure *)

Section CriteriaOrder.
Local Open Scope Q_scope.
Local Open Scope list_scope.
Import ProcurementScorer.

(** The score of every item of a non-empty cohort, from the least and the
    greatest figure of the cohort. *)
Lemma score_tco_all (cohort : list (Item Q)) :
  cohort <> [] ->
  exists lo hi,
    In lo (tcos cohort) /\ In hi (tcos cohort) /\
    Forall (Qle lo) (tcos cohort) /\ Forall (fun y => y <= hi) (tcos cohort) /\
    forall b, _score_tco b cohort =
              Returns (if Qeq_bool hi lo then 100.0
                       else min_max_score (total_cost_eur (data b)) lo hi).
Proof.
  intros Hne.
  destruct cohort as [|c r]; [contradiction|].
  assert (Hx : In (total_cost_eur (data c)) (tcos (c :: r))) by (left; reflexivity).
  destruct (min_max_pick_Q _ _ Hx) as (lo & hi & Hlo & Hhi & H1 & H2 & H3 & H4 & _).
  exists lo, hi. split_and!; try assumption.
  intros b. unfold _score_tco; q_ops. fold (tcos (c :: r)). rewrite Hlo, Hhi. simpl.
  destruct (Qeq_bool hi lo); reflexivity.
Qed.

Lemma score_tooling_all (cohort : list (Item Q)) :
  cohort <> [] ->
  let costs := map (fun d => tooling_cost_eur (data d)) cohort in
  exists lo hi,
    In lo costs /\ In hi costs /\
    Forall (Qle lo) costs /\ Forall (fun y => y <= hi) costs /\
    forall b, _score_tooling b cohort =
              Returns (if Qeq_bool hi lo then 100.0
                       else min_max_score (tooling_cost_eur (data b)) lo hi).
Proof.
  intros Hne costs.
  destruct cohort as [|c r]; [contradiction|].
  assert (Hx : In (tooling_cost_eur (data c)) costs) by (left; reflexivity).
  destruct (min_max_pick_Q _ _ Hx) as (lo & hi & Hlo & Hhi & H1 & H2 & H3 & H4 & _).
  exists lo, hi. split_and!; try assumption.
  intros b. unfold _score_tooling; q_ops. fold costs. rewrite Hlo, Hhi. simpl.
  destruct (Qeq_bool hi lo); reflexivity.
Qed.

Lemma score_delivery_all (cohort : list (Item Q)) :
  let quoted := omap (fun d => lead_time_weeks (data d)) cohort in
  quoted <> [] ->
  exists lo hi,
    In lo quoted /\ In hi quoted /\
    Forall (Qle lo) quoted /\ Forall (fun y => y <= hi) quoted /\
    forall b w, lead_time_weeks (data b) = Some w ->
      _score_delivery b cohort =
      Returns (if Qeq_bool hi lo then 100.0 else min_max_score w lo hi).
Proof.
  intros quoted Hne.
  destruct quoted as [|v r] eqn:Eq; [contradiction|].
  assert (Hx : In v (v :: r)) by (left; reflexivity).
  destruct (min_max_pick_Q _ _ Hx) as (lo & hi & Hlo & Hhi & H1 & H2 & H3 & H4 & _).
  exists lo, hi. split_and!; try assumption.
  intros b w Hb. unfold _score_delivery; q_ops. fold quoted. rewrite Eq, Hb, Hlo, Hhi. simpl.
  destruct (Qeq_bool hi lo); reflexivity.
Qed.

Lemma score_payment_all (cohort : list (Item Q)) :
  let quoted := omap (fun d => payment_days (data d)) cohort in
  quoted <> [] ->
  exists lo hi,
    In lo quoted /\ In hi quoted /\
    Forall (Z.le lo) quoted /\ Forall (fun y => (y <= hi)%Z) quoted /\
    forall b days, payment_days (data b) = Some days ->
      _score_payment b cohort =
      Returns (if (hi =? lo)%Z then 100.0
               else min_max_score (inject_Z days) (inject_Z lo) (inject_Z hi)).
Proof.
  intros quoted Hne.
  destruct quoted as [|v r] eqn:Eq; [contradiction|].
  assert (Hx : In v (v :: r)) by (left; reflexivity).
  destruct (min_max_pick_Z _ _ Hx) as (lo & hi & Hlo & Hhi & H1 & H2 & H3 & H4 & _).
  exists lo, hi. split_and!; try assumption.
  intros b w Hb. unfold _score_payment; q_ops. fold quoted. rewrite Eq, Hb, Hlo, Hhi.
  cbv beta iota. rewrite !bind_returns.
  destruct (hi =? lo)%Z; [reflexivity|]. rewrite min_max_score_int_Q. reflexivity.
Qed.

Lemma score_moq_all (cohort : list (Item Q)) :
  let quoted := omap (fun d => valid_moq (moq (data d))) cohort in
  quoted <> [] ->
  exists lo hi,
    In lo quoted /\ In hi quoted /\
    Forall (Z.le lo) quoted /\ Forall (fun y => (y <= hi)%Z) quoted /\
    forall b m, valid_moq (moq (data b)) = Some m ->
      _score_moq b cohort =
      Returns (if (hi =? lo)%Z then 100.0
               else min_max_score (inject_Z m) (inject_Z lo) (inject_Z hi)).
Proof.
  intros quoted Hne.
  destruct quoted as [|v r] eqn:Eq; [contradiction|].
  assert (Hx : In v (v :: r)) by (left; reflexivity).
  destruct (min_max_pick_Z _ _ Hx) as (lo & hi & Hlo & Hhi & H1 & H2 & H3 & H4 & _).
  exists lo, hi. split_and!; try assumption.
  intros b w Hb. unfold _score_moq; q_ops. fold quoted. rewrite Eq, Hb, Hlo, Hhi.
  cbv beta iota. rewrite !bind_returns.
  destruct (hi =? lo)%Z; [reflexivity|]. rewrite min_max_score_int_Q. reflexivity.
Qed.

(** X1. Within a cohort the TCO score never increases with the cost: of two
    items of the cohort, the one whose reference-currency TCO is not greater
    gets a score that is not smaller, and equal costs get the same score. *)
Theorem tco_score_decreases_with_cost (cohort : list (Item Q)) (a b : Item Q) :
  In a cohort -> In b cohort ->
  total_cost_eur (data a) <= total_cost_eur (data b) ->
  exists sa sb,
    _score_tco a cohort = Returns sa /\ _score_tco b cohort = Returns sb /\
    sb <= sa /\
    (total_cost_eur (data a) == total_cost_eur (data b) -> sa = sb).
Proof.
  intros Ha Hb Hab.
  destruct (score_tco_all cohort (in_not_nil _ _ Ha))
    as (lo & hi & Hlo & Hhi & Hmin & Hmax & Hs).
  assert (Ia : In (total_cost_eur (data a)) (tcos cohort)).
  { apply in_map_iff. exists a. split; [reflexivity | exact Ha]. }
  assert (Ib : In (total_cost_eur (data b)) (tcos cohort)).
  { apply in_map_iff. exists b. split; [reflexivity | exact Hb]. }
  destruct (normalised_profile _ lo hi _ Hlo Hhi Hmin Hmax Ia) as (_ & _ & Hmono).
  eexists _, _. split; [apply Hs|]. split; [apply Hs|]. split.
  - apply (Hmono _ Ib Hab).
  - intros E. destruct (Qeq_bool hi lo); [reflexivity|].
    unfold min_max_score; q_ops. apply py_round_comp, max0_comp. rewrite E. reflexivity.
Qed.

Lemma tco_score_decreases_with_cost_witness :
  exists sa sb,
    _score_tco Samples.acme Samples.cohort = Returns sa /\
    _score_tco Samples.cyberdyne Samples.cohort = Returns sb /\
    sb <= sa /\
    (total_cost_eur (data Samples.acme) == total_cost_eur (data Samples.cyberdyne) ->
     sa = sb).
Proof.
  apply (tco_score_decreases_with_cost Samples.cohort Samples.acme Samples.cyberdyne).
  - left; reflexivity.
  - right; right; left; reflexivity.
  - vm_compute. discriminate.
Defined.

(** X2. The tooling score of an item of a cohort: 100 when no item has a
    smaller reference-currency tooling cost, 0 when none has a greater one
    and the costs do not all tie, and never greater than the score of an item
    whose tooling cost is not greater. *)
Theorem tooling_score_profile (cohort : list (Item Q)) (a : Item Q) :
  In a cohort ->
  let costs := map (fun d => tooling_cost_eur (data d)) cohort in
  let cost := tooling_cost_eur (data a) in
  exists s,
    _score_tooling a cohort = Returns s /\
    (Forall (fun v => cost <= v) costs -> s == 100) /\
    (Forall (fun v => v <= cost) costs -> ~ Forall (fun v => v == cost) costs -> s == 0) /\
    (forall b, In b cohort -> cost <= tooling_cost_eur (data b) ->
       exists sb, _score_tooling b cohort = Returns sb /\ sb <= s).
Proof.
  intros Ha costs cost.
  destruct (score_tooling_all cohort (in_not_nil _ _ Ha))
    as (lo & hi & Hlo & Hhi & Hmin & Hmax & Hs).
  assert (Ia : In cost costs) by (apply in_map_iff; exists a; split; [reflexivity | exact Ha]).
  destruct (normalised_profile _ lo hi _ Hlo Hhi Hmin Hmax Ia) as (H1 & H2 & H3).
  eexists. split; [apply Hs|]. split_and!; [exact H1 | exact H2 |].
  intros b Hb Hab. eexists. split; [apply Hs|].
  apply H3; [|exact Hab]. apply in_map_iff. exists b. split; [reflexivity | exact Hb].
Qed.

Lemma tooling_score_profile_witness :
  exists s,
    _score_tooling Samples.borg Samples.cohort = Returns s /\
    (Forall (fun v => 50 <= v) [100; 50; 200] -> s == 100).
Proof.
  destruct (tooling_score_profile Samples.cohort Samples.borg) as (s & Hs & H1 & _).
  - right; left; reflexivity.
  - exists s. split; [exact Hs | exact H1].
Defined.

(** X3. The delivery score of an item of a cohort with a parsed lead time,
    among the parsed lead times of the cohort: 100 for a shortest one (so
    also for the only one), 0 for a longest one unless they all tie, and
    never greater than the score of an item whose lead time is not longer. *)
Theorem delivery_score_profile (cohort : list (Item Q)) (a : Item Q) (weeks : Q) :
  In a cohort -> lead_time_weeks (data a) = Some weeks ->
  let quoted := omap (fun d => lead_time_weeks (data d)) cohort in
  exists s,
    _score_delivery a cohort = Returns s /\
    (Forall (fun v => weeks <= v) quoted -> s == 100) /\
    (Forall (fun v => v <= weeks) quoted -> ~ Forall (fun v => v == weeks) quoted ->
     s == 0) /\
    (forall b weeks_b, In b cohort -> lead_time_weeks (data b) = Some weeks_b ->
       weeks <= weeks_b ->
       exists sb, _score_delivery b cohort = Returns sb /\ sb <= s).
Proof.
  intros Ha Hw quoted.
  assert (Ia : In weeks quoted) by (apply (in_omap _ _ a); assumption).
  destruct (score_delivery_all cohort (in_not_nil _ _ Ia))
    as (lo & hi & Hlo & Hhi & Hmin & Hmax & Hs).
  destruct (normalised_profile _ lo hi _ Hlo Hhi Hmin Hmax Ia) as (H1 & H2 & H3).
  eexists. split; [apply (Hs a), Hw|]. split_and!; [exact H1 | exact H2 |].
  intros b wb Hb Hwb Hab. eexists. split; [apply (Hs b), Hwb|].
  apply H3; [|exact Hab]. apply (in_omap _ _ b); assumption.
Qed.

Lemma delivery_score_profile_witness :
  exists s,
    _score_delivery Samples.acme Samples.cohort = Returns s /\
    (Forall (fun v => 4 <= v) [4; 6] -> s == 100).
Proof.
  destruct (delivery_score_profile Samples.cohort Samples.acme 4) as (s & Hs & H1 & _).
  - left; reflexivity.
  - reflexivity.
  - exists s. split; [exact Hs | exact H1].
Defined.

(** X4. The payment score of an item of a cohort with parsed payment days,
    among the parsed payment days of the cohort: 100 for the fewest days, 0
    for the most days unless they all tie, and never greater than the score
    of an item with no more days. *)
Theorem payment_score_profile (cohort : list (Item Q)) (a : Item Q) (days : Z) :
  In a cohort -> payment_days (data a) = Some days ->
  let quoted := omap (fun d => payment_days (data d)) cohort in
  exists s,
    _score_payment a cohort = Returns s /\
    (Forall (fun v => (days <= v)%Z) quoted -> s == 100) /\
    (Forall (fun v => (v <= days)%Z) quoted -> ~ Forall (fun v => v = days) quoted ->
     s == 0) /\
    (forall b days_b, In b cohort -> payment_days (data b) = Some days_b ->
       (days <= days_b)%Z ->
       exists sb, _score_payment b cohort = Returns sb /\ sb <= s).
Proof.
  intros Ha Hw quoted.
  assert (Ia : In days quoted) by (apply (in_omap _ _ a); assumption).
  destruct (score_payment_all cohort (in_not_nil _ _ Ia))
    as (lo & hi & Hlo & Hhi & Hmin & Hmax & Hs).
  destruct (normalised_profile_Z _ lo hi _ Hlo Hhi Hmin Hmax Ia) as (H1 & H2 & H3).
  eexists. split; [apply (Hs a), Hw|]. split_and!; [exact H1 | exact H2 |].
  intros b wb Hb Hwb Hab. eexists. split; [apply (Hs b), Hwb|].
  apply H3; [|exact Hab]. apply (in_omap _ _ b); assumption.
Qed.

Lemma payment_score_profile_witness :
  exists s,
    _score_payment Samples.cyberdyne Samples.cohort = Returns s /\
    (Forall (fun v => (v <= 60)%Z) [30%Z; 60%Z] ->
     ~ Forall (fun v => v = 60%Z) [30%Z; 60%Z] -> s == 0).
Proof.
  destruct (payment_score_profile Samples.cohort Samples.cyberdyne 60)
    as (s & Hs & _ & H2 & _).
  - right; right; left; reflexivity.
  - reflexivity.
  - exists s. split; [exact Hs | exact H2].
Defined.

(** X5. The MOQ score of an item of a cohort whose MOQ is a positive number,
    among the positive MOQs of the cohort: 100 for the smallest, 0 for the
    greatest unless they all tie, and never greater than the score of an
    item with a MOQ that is not greater.  A MOQ that is a text, zero or
    negative counts as missing: fallback 20.0. *)
Theorem moq_score_profile (cohort : list (Item Q)) (a : Item Q) (m : Z) :
  In a cohort -> moq (data a) = MoqInt m -> (0 < m)%Z ->
  let quoted := omap (fun d => valid_moq (moq (data d))) cohort in
  (exists s,
     _score_moq a cohort = Returns s /\
     (Forall (fun v => (m <= v)%Z) quoted -> s == 100) /\
     (Forall (fun v => (v <= m)%Z) quoted -> ~ Forall (fun v => v = m) quoted -> s == 0) /\
     (forall b m_b, In b cohort -> moq (data b) = MoqInt m_b -> (m <= m_b)%Z ->
        exists sb, _score_moq b cohort = Returns sb /\ sb <= s)) /\
  Forall (fun v => (0 < v)%Z) quoted /\
  (forall b, (moq (data b) = MoqNone \/ (exists t, moq (data b) = MoqText t) \/
              (exists n, moq (data b) = MoqInt n /\ (n <= 0)%Z)) ->
             _score_moq b cohort = Returns 20.0).
Proof.
  intros Ha Hm Hpos quoted.
  assert (Hv : forall (b : Item Q) n, moq (data b) = MoqInt n -> (0 < n)%Z ->
                           valid_moq (moq (data b)) = Some n).
  { intros b n -> Hn. unfold valid_moq. apply Z.ltb_lt in Hn. rewrite Hn. reflexivity. }
  assert (Ia : In m quoted) by (apply (in_omap _ _ a); auto).
  destruct (score_moq_all cohort (in_not_nil _ _ Ia))
    as (lo & hi & Hlo & Hhi & Hmin & Hmax & Hs).
  destruct (normalised_profile_Z _ lo hi _ Hlo Hhi Hmin Hmax Ia) as (H1 & H2 & H3).
  split_and!.
  - eexists. split; [exact (Hs a m (Hv a m Hm Hpos))|].
    split_and!; [exact H1 | exact H2 |].
    intros b wb Hb Hwb Hab.
    assert (Hvb : valid_moq (moq (data b)) = Some wb) by (apply Hv; [exact Hwb | lia]).
    eexists. split; [apply (Hs b), Hvb|].
    apply H3; [|exact Hab]. apply (in_omap _ _ b); assumption.
  - apply List.Forall_forall. intros v Hin.
    apply list_elem_of_In, list_elem_of_omap in Hin. destruct Hin as (b & _ & Hb).
    unfold valid_moq in Hb. destruct (moq (data b)) as [| |n]; try discriminate.
    destruct (0 <? n)%Z eqn:E; [|discriminate]. injection Hb as <-.
    apply Z.ltb_lt, E.
  - intros b Hb. apply (score_moq_fallback (arith := Q_arith)).
    destruct Hb as [-> | [(t & ->) | (n & -> & Hn)]]; try reflexivity.
    unfold valid_moq. apply Z.ltb_ge in Hn. rewrite Hn. reflexivity.
Qed.

Lemma moq_score_profile_witness :
  exists s,
    _score_moq Samples.acme Samples.cohort = Returns s /\
    (Forall (fun v => (100 <= v)%Z) [100%Z; 500%Z] -> s == 100).
Proof.
  destruct (moq_score_profile Samples.cohort Samples.acme 100)
    as ((s & Hs & H1 & _) & _).
  - left; reflexivity.
  - reflexivity.
  - lia.
  - exists s. split; [exact Hs | exact H1].
Defined.

(** X6. An item without a parsed lead time is outside the delivery
    criterion: it scores the fallback 20.0, and the delivery score of every
    item is what it would be in the cohort without it.  The same holds for
    payment days and the payment score, and for a MOQ that is not a positive
    number and the MOQ score. *)
Theorem item_without_figure_is_outside_the_range (front back : list (Item Q)) (x a : Item Q) :
  (lead_time_weeks (data x) = None ->
   _score_delivery x (front ++ x :: back) = Returns 20.0 /\
   _score_delivery a (front ++ x :: back) = _score_delivery a (front ++ back)) /\
  (payment_days (data x) = None ->
   _score_payment x (front ++ x :: back) = Returns 20.0 /\
   _score_payment a (front ++ x :: back) = _score_payment a (front ++ back)) /\
  (valid_moq (moq (data x)) = None ->
   _score_moq x (front ++ x :: back) = Returns 20.0 /\
   _score_moq a (front ++ x :: back) = _score_moq a (front ++ back)).
Proof.
  assert (Homap : forall {C} (f : (Item Q) -> option C), f x = None ->
            omap f (front ++ x :: back) = omap f (front ++ back)).
  { intros C f Hx. rewrite !omap_app. simpl. rewrite Hx. reflexivity. }
  split_and!; intros Hx.
  - split; [apply (score_delivery_fallback (arith := Q_arith)), Hx|].
    unfold _score_delivery; q_ops. rewrite (Homap _ (fun d => lead_time_weeks (data d)) Hx).
    reflexivity.
  - split; [apply (score_payment_fallback (arith := Q_arith)), Hx|].
    unfold _score_payment; q_ops. rewrite (Homap _ (fun d => payment_days (data d)) Hx).
    reflexivity.
  - split; [apply (score_moq_fallback (arith := Q_arith)), Hx|].
    unfold _score_moq; q_ops. rewrite (Homap _ (fun d => valid_moq (moq (data d))) Hx).
    reflexivity.
Qed.

Lemma item_without_figure_is_outside_the_range_witness :
  _score_delivery Samples.borg Samples.cohort = Returns 20.0 /\
  _score_delivery Samples.acme Samples.cohort =
  _score_delivery Samples.acme [Samples.acme; Samples.cyberdyne].
Proof.
  exact (proj1 (item_without_figure_is_outside_the_range
                  [Samples.acme] [Samples.cyberdyne] Samples.borg Samples.acme)
               eq_refl).
Defined.

End CriteriaOrder.

(** ** Field parsing: payment terms, Incoterms, lead time *)

Section ParsingFacts.
Import QuotationComparator.
Local Open Scope list_scope.

Lemma digit_value_nonneg (c : ascii) : is_digit c = true -> (0 <= digit_value c)%Z.
Proof.
  unfold is_digit, digit_value. intros H. apply andb_true_iff in H.
  destruct H as [H _]. apply Nat.leb_le in H. lia.
Qed.

Lemma digits_value_nonneg (s : string) (acc : Z) :
  all_digits s = true -> (0 <= acc)%Z -> (0 <= digits_value acc s)%Z.
Proof.
  unfold all_digits. revert acc. induction s as [|c r IH]; intros acc H Hacc; simpl in *.
  - exact Hacc.
  - apply andb_true_iff in H. destruct H as [Hc Hr].
    apply IH; [exact Hr|]. pose proof (digit_value_nonneg c Hc). lia.
Qed.

(** [int] on a non-empty run of digits: the number, unless the run is too
    long. *)
Lemma py_int_digits (s : string) :
  take_while is_digit s <> EmptyString ->
  py_int (take_while is_digit s) =
  if (String.length (take_while is_digit s) <=? INT_MAX_STR_DIGITS)%nat
  then Returns (digits_value 0 (take_while is_digit s)) else Raises ValueError.
Proof.
  intros Hne. unfold py_int. rewrite all_digits_take_while.
  destruct (take_while is_digit s); [congruence | reflexivity].
Qed.

Lemma re_search_some {A} (match_at : string -> option A) (s : string) (m : A) :
  re_search match_at s = Some m -> exists s', match_at s' = Some m.
Proof.
  induction s as [|c r IH]; simpl.
  - destruct (match_at EmptyString) eqn:E; [|discriminate].
    intros H. injection H as <-. eauto.
  - destruct (match_at (String c r)) eqn:E.
    + intros H. injection H as <-. eauto.
    + exact IH.
Qed.

(** What either pattern captures is a non-empty run of digits. *)
Lemma match_days_at_digits (s g : string) :
  match_days_at s = Some g -> g = take_while is_digit s /\ g <> EmptyString.
Proof.
  unfold match_days_at. destruct (take_while is_digit s) as [|c r]; [discriminate|].
  destruct (_ || _); [|discriminate]. intros H. injection H as <-. split; congruence.
Qed.

Lemma match_net_at_digits (s g : string) :
  match_net_at s = Some g ->
  exists r, s = String "n" (String "e" (String "t" r)) /\
            g = take_while is_digit (drop_while is_space r) /\ g <> EmptyString.
Proof.
  unfold match_net_at.
  destruct s as [|c1 [|c2 [|c3 r]]]; try discriminate;
    try (destruct c1 as [[] [] [] [] [] [] [] []]; discriminate);
    try (destruct c1 as [[] [] [] [] [] [] [] []]; try discriminate;
         destruct c2 as [[] [] [] [] [] [] [] []]; discriminate).
  destruct c1 as [[] [] [] [] [] [] [] []]; try discriminate.
  destruct c2 as [[] [] [] [] [] [] [] []]; try discriminate.
  destruct c3 as [[] [] [] [] [] [] [] []]; try discriminate.
  destruct (take_while is_digit (drop_while is_space r)) as [|d t] eqn:E; [discriminate|].
  intros H. injection H as <-. exists r. split_and!; congruence.
Qed.

Lemma payment_match_digits (text g : string) :
  payment_match text = Some g ->
  (g <> EmptyString /\ all_digits g = true) /\
  py_int g = (if (String.length g <=? INT_MAX_STR_DIGITS)%nat
              then Returns (digits_value 0 g) else Raises ValueError) /\
  (0 <= digits_value 0 g)%Z.
Proof.
  unfold payment_match. intros H.
  assert (Hg : exists r, g = take_while is_digit r /\ g <> EmptyString).
  { destruct (re_search match_days_at (lower text)) as [g'|] eqn:E.
    - injection H as <-. apply re_search_some in E. destruct E as (s' & E').
      apply match_days_at_digits in E'. destruct E' as [E1 E2]. eauto.
    - apply re_search_some in H. destruct H as (s' & E').
      apply match_net_at_digits in E'. destruct E' as (r & _ & E1 & E2). eauto. }
  destruct Hg as (r & -> & Hne). split_and!.
  - exact Hne.
  - apply all_digits_take_while.
  - apply py_int_digits, Hne.
  - apply digits_value_nonneg; [apply all_digits_take_while | lia].
Qed.

(** Without a digit neither pattern matches. *)
Lemma has_digit_cons (c : ascii) (r : string) :
  has_digit (String c r) = is_digit c || has_digit r.
Proof. reflexivity. Qed.

Lemma is_digit_lower (c : ascii) : is_digit (lower_ascii c) = is_digit c.
Proof. destruct c as [[] [] [] [] [] [] [] []]; reflexivity. Qed.

Lemma has_digit_lower (s : string) : has_digit (lower s) = has_digit s.
Proof.
  induction s as [|c r IH]; [reflexivity|].
  change (lower (String c r)) with (String (lower_ascii c) (lower r)).
  rewrite !has_digit_cons, is_digit_lower, IH. reflexivity.
Qed.

Lemma take_while_no_digit (s : string) :
  has_digit s = false -> take_while is_digit s = EmptyString.
Proof.
  destruct s as [|c r]; [reflexivity|]. rewrite has_digit_cons. intros H.
  apply orb_false_iff in H. destruct H as [Hc _]. simpl. rewrite Hc. reflexivity.
Qed.

Lemma drop_while_no_digit (q : ascii -> bool) (s : string) :
  has_digit s = false -> has_digit (drop_while q s) = false.
Proof.
  induction s as [|c r IH]; [reflexivity|]. intros H. simpl.
  destruct (q c); [|exact H].
  rewrite has_digit_cons in H. apply orb_false_iff in H. apply IH, H.
Qed.

Lemma re_search_no_digit {A} (match_at : string -> option A) (s : string) :
  (forall s', has_digit s' = false -> match_at s' = None) ->
  has_digit s = false -> re_search match_at s = None.
Proof.
  intros Hm. induction s as [|c r IH]; intros H; simpl.
  - rewrite (Hm _ H). reflexivity.
  - rewrite (Hm _ H). rewrite has_digit_cons in H. apply orb_false_iff in H.
    apply IH, H.
Qed.

Lemma payment_match_no_digit (text : string) :
  has_digit text = false -> payment_match text = None.
Proof.
  intros H. rewrite <- has_digit_lower in H. unfold payment_match.
  rewrite (re_search_no_digit match_days_at), (re_search_no_digit match_net_at);
    try assumption; try reflexivity.
  - intros s' Hs'. destruct (match_net_at s') as [g|] eqn:E; [|reflexivity].
    apply match_net_at_digits in E. destruct E as (r & -> & -> & Hne).
    exfalso. apply Hne. apply take_while_no_digit, drop_while_no_digit.
    rewrite !has_digit_cons in Hs'. exact Hs'.
  - intros s' Hs'. unfold match_days_at. rewrite (take_while_no_digit _ Hs'). reflexivity.
Qed.

Lemma parse_payment_terms_run (payment_terms : option string) :
  _parse_payment_terms payment_terms = Returns (payment_days_of payment_terms).
Proof.
  unfold _parse_payment_terms, payment_days_of.
  destruct payment_terms as [text|]; [|reflexivity].
  destruct (absent_text (Some text)); [reflexivity|].
  fold (payment_match text). cbn [mbind option_bind].
  destruct (payment_match text) as [g|] eqn:E; [|reflexivity].
  cbn [mbind option_bind]. rewrite (proj1 (proj2 (payment_match_digits _ _ E))).
  destruct (String.length g <=? INT_MAX_STR_DIGITS)%nat; reflexivity.
Qed.

(** X7. [_parse_payment_terms] never raises.  What either pattern captures
    is a non-empty run of digits; [int] refuses it only when it has more
    than 4300 digits, and the [except] clause turns that [ValueError] into
    [None].  So the result is the number captured by the days pattern where
    it matches, else by the net pattern, when the captured run has at most
    4300 digits, and [None] otherwise; it is [None] on absent, empty or
    "N/A" input and on a text without a digit, and it is never negative. *)
Theorem parse_payment_terms_never_raises (payment_terms : option string) :
  exists r,
    _parse_payment_terms payment_terms = Returns r /\
    (absent_text payment_terms = true -> r = None) /\
    (forall text, payment_terms = Some text -> absent_text payment_terms = false ->
       match payment_match text with
       | None => r = None
       | Some g =>
           g <> EmptyString /\ all_digits g = true /\
           r = if (String.length g <=? INT_MAX_STR_DIGITS)%nat
               then Some (digits_value 0 g) else None
       end) /\
    (forall text, payment_terms = Some text -> has_digit text = false -> r = None) /\
    (forall n, r = Some n -> (0 <= n)%Z).
Proof.
  exists (payment_days_of payment_terms).
  split; [apply parse_payment_terms_run|]. unfold payment_days_of. split_and!.
  - intros ->. reflexivity.
  - intros t -> ->. cbn [mbind option_bind].
    destruct (payment_match t) as [g|] eqn:E; [|reflexivity].
    cbn [mbind option_bind].
    destruct (payment_match_digits _ _ E) as ((Hne & Hd) & _). split_and!; auto.
  - intros t -> Hd. destruct (absent_text (Some t)); [reflexivity|].
    cbn [mbind option_bind]. rewrite (payment_match_no_digit _ Hd). reflexivity.
  - intros n. destruct (absent_text payment_terms); [discriminate|].
    destruct payment_terms as [text|]; [|discriminate]. cbn [mbind option_bind].
    destruct (payment_match text) as [g|] eqn:E; [|discriminate].
    cbn [mbind option_bind].
    destruct (String.length g <=? INT_MAX_STR_DIGITS)%nat; [|discriminate].
    intros Hn. injection Hn as <-. apply (payment_match_digits _ _ E).
Qed.

(** The days pattern is tried first wherever it stands in the text; German
    wording is read too. *)
Example parse_payment_terms_examples :
  map _parse_payment_terms
      [Some "Net 30"; Some "45 days"; Some "Net 30, 2% 10 days"; Some "30 Tage netto";
       Some "due on receipt"; Some "N/A"; Some ""; None] =
  map Returns [Some 30%Z; Some 45%Z; Some 10%Z; Some 30%Z; None; None; None; None].
Proof. vm_compute. reflexivity. Qed.

(** A run of 4300 digits is read, one of 4301 is not; a no-break space
    between the number and the unit is whitespace. *)
Example parse_payment_terms_limits :
  _parse_payment_terms (Some (nines 4300 ++ " days")%string) =
    Returns (Some (10 ^ 4300 - 1)%Z) /\
  _parse_payment_terms (Some (nines 4301 ++ " days")%string) = Returns None /\
  _parse_payment_terms (Some ("30" ++ String (ascii_of_nat 160) "days")%string) =
    Returns (Some 30%Z).
Proof. split_and!; vm_compute; reflexivity. Qed.

End ParsingFacts.


(** ** Incoterms *)

Section IncotermsFacts.
Import QuotationComparator.
Local Open Scope list_scope.

(** [next(x for x in l if p(x))]: the first element that satisfies [p]. *)
Lemma first_match_spec {A} (p : A -> bool) (l : list A) :
  match head (filter (fun x => p x) l) with
  | None => Forall (fun x => p x = false) l
  | Some x => exists before after,
                l = before ++ x :: after /\ p x = true /\
                Forall (fun y => p y = false) before
  end.
Proof.
  induction l as [|a r IH]; [constructor|].
  rewrite filter_cons. destruct (decide (p a)) as [Ha|Ha].
  - simpl. exists [], r. split_and!; [reflexivity | apply Is_true_true, Ha | constructor].
  - apply Is_true_false in Ha.
    destruct (head (filter (fun x => p x) r)) as [x|].
    + destruct IH as (before & after & -> & Hx & Hb).
      exists (a :: before), after. split_and!; [reflexivity | exact Hx |].
      constructor; assumption.
    + constructor; assumption.
Qed.

(** X8. [_extract_incoterms] returns "N/A" for absent, empty or "N/A"
    delivery terms; otherwise the first term of the fixed list (EXW, FCA,
    FAS, FOB, CFR, CIF, CPT, CIP, DAP, DPU, DDP) that occurs in the
    upper-cased text, whatever its position in the text, and "N/A" when none
    occurs.  Texts that differ only in letter case give the same result. *)
Theorem extract_incoterms_first_listed :
  (forall delivery_terms,
     absent_text delivery_terms = true -> _extract_incoterms delivery_terms = "N/A") /\
  (forall text,
     absent_text (Some text) = false ->
     let found := fun term => contains term (upper text) in
     (Forall (fun term => found term = false) INCOTERMS /\
      _extract_incoterms (Some text) = "N/A") \/
     (exists before term after,
        INCOTERMS = before ++ term :: after /\ found term = true /\
        Forall (fun earlier => found earlier = false) before /\
        _extract_incoterms (Some text) = term)) /\
  (forall text text',
     upper text = upper text' ->
     _extract_incoterms (Some text) = _extract_incoterms (Some text')).
Proof.
  assert (Hblank : forall t, absent_text (Some t) = true ->
                   head (filter (fun term => contains term (upper t)) INCOTERMS) = None).
  { intros t Ha. unfold absent_text in Ha. apply orb_true_iff in Ha.
    destruct Ha as [Ha|Ha]; apply bool_decide_eq_true in Ha; subst t;
      vm_compute; reflexivity. }
  split_and!.
  - intros [t|] Ha; [|reflexivity]. unfold _extract_incoterms. rewrite Ha. reflexivity.
  - intros text Ha found. unfold _extract_incoterms. rewrite Ha.
    pose proof (first_match_spec found INCOTERMS) as Hspec. subst found.
    destruct (head (filter _ INCOTERMS)) as [term|].
    + right. destruct Hspec as (before & after & E & Hx & Hb).
      exists before, term, after. split_and!; try assumption. reflexivity.
    + left. split; [exact Hspec | reflexivity].
  - intros t t' E. unfold _extract_incoterms.
    destruct (absent_text (Some t)) eqn:Ha, (absent_text (Some t')) eqn:Ha';
      try reflexivity.
    + rewrite <- E, (Hblank t Ha). reflexivity.
    + rewrite E, (Hblank t' Ha'). reflexivity.
    + rewrite E. reflexivity.
Qed.

(** The order of the list decides, not the order in the text; a term is
    also found inside a longer word. *)
Example extract_incoterms_examples :
  map _extract_incoterms
      [Some "FOB Shanghai"; Some "cif Hamburg, alternatively fob"; Some "Delivered duty paid";
       Some "ex works (EXW)"; Some "Daphne Ltd. warehouse"; Some "n/a"; Some ""; None] =
  ["FOB"; "FOB"; "N/A"; "EXW"; "DAP"; "N/A"; "N/A"; "N/A"].
Proof. vm_compute. reflexivity. Qed.

End IncotermsFacts.

(** ** Lead time *)

Section LeadTimeFacts.
Import QuotationComparator.
Local Open Scope Q_scope.

Lemma py_float_nonneg (tok : string) (v : Q) : py_float tok = Returns v -> 0 <= v.
Proof.
  unfold py_float, decimal_text_value; q_ops.
  pose proof (digits_value_nonneg (take_while is_digit tok) 0
                (all_digits_take_while tok) (Z.le_refl 0)) as Hi.
  destruct (take_while is_digit tok) as [|c ip]; [discriminate|].
  rewrite Zle_Qle in Hi. change (inject_Z 0) with 0 in Hi.
  destruct (drop_while is_digit tok) as [|d frac].
  - intros Hv. injection Hv as <-. exact Hi.
  - destruct (Ascii.eqb d "." && all_digits frac) eqn:E; [|discriminate].
    apply andb_true_iff in E. destruct E as [_ Hf].
    pose proof (digits_value_nonneg frac 0 Hf (Z.le_refl 0)) as Hfrac.
    rewrite Zle_Qle in Hfrac. change (inject_Z 0) with 0 in Hfrac.
    intros Hv. injection Hv as <-.
    pose proof (scale_pos (String.length frac)) as Hs.
    assert (0 <= inject_Z (digits_value 0 frac) /
                 inject_Z (10 ^ Z.of_nat (String.length frac))).
    { apply Qle_shift_div_l; [exact Hs|]. lra. }
    change (digits_value (10 * 0 + digit_value c) ip)
      with (digits_value 0 (String c ip)).
    lra.
Qed.

Lemma to_weeks_nonneg (text : string) (v : Q) : 0 <= v -> 0 <= to_weeks text v.
Proof.
  intros Hv. unfold to_weeks; q_ops.
  destruct (_ || _); [apply Qle_shift_div_l; [reflexivity | lra]|].
  destruct (_ || _); [nra|].
  destruct (_ || _); [nra | exact Hv].
Qed.

(** X9. A lead time returned by [_parse_lead_time] is never negative: a
    sign in front of the number is not read, so "-14 days" is two weeks. *)
Theorem parse_lead_time_nonnegative (lead_time : option string) (weeks : Q) :
  _parse_lead_time lead_time = Returns (Some weeks) -> 0 <= weeks.
Proof.
  unfold _parse_lead_time. destruct lead_time as [text|]; [|discriminate].
  destruct (absent_text (Some text)); [discriminate|].
  destruct (findall_numbers (lower text)) as [|first rest]; [discriminate|].
  destruct (py_float first) as [v|e] eqn:Ev.
  2: { simpl. destruct (is_ValueError_or_TypeError e); discriminate. }
  rewrite bind_returns. cbn [try_except mret outcome_ret]. intros Hw. injection Hw as <-.
  apply py_round_nonneg, to_weeks_nonneg, (py_float_nonneg _ _ Ev).
Qed.

Lemma parse_lead_time_nonnegative_witness :
  _parse_lead_time (Some "-14 days") = Returns (Some 2) /\ 0 <= 2.
Proof.
  split; [vm_compute; reflexivity|].
  apply (parse_lead_time_nonnegative (Some "-14 days") 2).
  vm_compute. reflexivity.
Defined.

(** The program's own values on signed input. *)
Example parse_lead_time_signed :
  _parse_lead_time (num := float) (Some "-14 days") = Returns (Some 2%float) /\
  _parse_lead_time (num := float) (Some "-0.5 weeks") = Returns (Some 0.5%float).
Proof. split; vm_compute; reflexivity. Qed.

End LeadTimeFacts.
(** ** Cost aggregation: price breakdowns and quantities *)

Section BreakdownFacts.
Import QuotationComparator.
Local Open Scope list_scope.
Context {num : Type} `{Arith num}.

Lemma StronglySorted_map {B C} (R : C -> C -> Prop) (f : B -> C) (l : list B) :
  StronglySorted (fun a b => R (f a) (f b)) l -> StronglySorted R (map f l).
Proof.
  induction 1 as [|a l Hs IH Ha]; simpl; constructor; [exact IH|].
  apply Forall_map. exact Ha.
Qed.

Lemma sorted_by_year_sorted (prices : list (Z * num)) :
  StronglySorted Z.le (sorted_by_year prices).*1.
Proof.
  apply StronglySorted_map. unfold sorted_by_year.
  eapply StronglySorted_weaken; [|apply stable_sort_sorted].
  - intros a b Hab. cbv beta in Hab. apply Z.ltb_ge in Hab. exact Hab.
  - intros x y Hxy. apply Z.ltb_lt in Hxy. apply Z.ltb_ge. lia.
  - intros x y z Hyx Hzy. apply Z.ltb_ge in Hyx, Hzy. apply Z.ltb_ge. lia.
Qed.

Lemma sorted_by_year_perm (prices : list (Z * num)) :
  Permutation (sorted_by_year prices) prices.
Proof. apply stable_sort_perm. Qed.

(** X10. The price breakdowns list the priced years in ascending order: the
    years of the rows are a rearrangement of the years of [annual_prices],
    whatever the order these were entered in.  A row holds the price of
    its year, the quantity of that year or 0 when the year has no quantity,
    and their product.  The reference-currency breakdown has the same years
    and quantities, with the converted unit price and its product. *)
Theorem price_breakdown_rows (quote : models.ExtractedQuotation num) :
  let rows := _get_price_breakdown_original quote in
  let rows_eur := _get_price_breakdown_eur quote in
  let code := models.value (models.currency quote) in
  StronglySorted Z.le rows.*1 /\
  Permutation rows.*1 (models.annual_prices quote).*1 /\
  Forall (fun r =>
            In (r.1, unit_price r.2) (models.annual_prices quote) /\
            quantity r.2 = default 0%Z (models.annual_quantities quote !! r.1) /\
            total r.2 = mul (unit_price r.2) (of_int (quantity r.2))) rows /\
  Forall2 (fun r e =>
             e.1 = r.1 /\ quantity e.2 = quantity r.2 /\
             unit_price e.2 = convert_to_eur (unit_price r.2) code /\
             total e.2 = mul (unit_price e.2) (of_int (quantity e.2))) rows rows_eur.
Proof.
  intros rows rows_eur code. subst rows rows_eur code.
  unfold _get_price_breakdown_original, _get_price_breakdown_eur.
  pose proof (sorted_by_year_sorted (models.annual_prices quote)) as Hs.
  pose proof (sorted_by_year_perm (models.annual_prices quote)) as Hp.
  set (l := sorted_by_year (models.annual_prices quote)) in *.
  assert (Hfst : forall (g : Z -> num -> BreakdownRow num),
             (map (fun '(y, price) => (y, g y price)) l).*1 = l.*1).
  { intros g. clear Hs Hp. induction l as [|[y p] r IH]; [reflexivity|].
    cbn [map]. rewrite !fmap_cons, IH. reflexivity. }
  split_and!.
  - rewrite (Hfst (fun y price => _)). exact Hs.
  - rewrite (Hfst (fun y price => _)). apply Permutation_map, Hp.
  - apply Forall_map. apply List.Forall_forall. intros [y p] Hin. simpl.
    split_and!; try reflexivity.
    apply (Permutation_in _ Hp), Hin.
  - clear Hs Hp Hfst. induction l as [|[y p] r IH]; simpl; [constructor|].
    constructor; [|exact IH]. simpl. split_and!; reflexivity.
Qed.

(** X11. The TCO and the breakdowns read [annual_quantities] at the priced
    years only, with 0 for a missing year: two quotations with the same
    prices and tooling whose quantities agree on the priced years (a missing
    quantity agreeing with 0) have the same TCO and the same breakdowns, in
    any arithmetic. *)
Theorem quantities_count_at_priced_years (quote quote' : models.ExtractedQuotation num) :
  models.annual_prices quote = models.annual_prices quote' ->
  models.tooling_cost quote = models.tooling_cost quote' ->
  models.tooling_cost_type quote = models.tooling_cost_type quote' ->
  models.currency quote = models.currency quote' ->
  (forall y, In y (models.annual_prices quote).*1 ->
     default 0%Z (models.annual_quantities quote !! y) =
     default 0%Z (models.annual_quantities quote' !! y)) ->
  _calculate_tco quote = _calculate_tco quote' /\
  _get_price_breakdown_original quote = _get_price_breakdown_original quote' /\
  _get_price_breakdown_eur quote = _get_price_breakdown_eur quote'.
Proof.
  intros Hp Hc Ht Hcur Hq.
  assert (Hin : forall y p, In (y, p) (models.annual_prices quote) ->
                            In y (models.annual_prices quote).*1).
  { intros y p Hyp. apply in_map_iff. exists (y, p). split; [reflexivity | exact Hyp]. }
  assert (Htotal : annual_total quote = annual_total quote').
  { unfold annual_total. rewrite <- Hp. f_equal. apply map_ext_in.
    intros [y p] Hyp. rewrite (Hq y (Hin y p Hyp)). reflexivity. }
  split_and!.
  - unfold _calculate_tco. rewrite Htotal, <- Hc, <- Ht, <- Hp. reflexivity.
  - unfold _get_price_breakdown_original. rewrite <- Hp. apply map_ext_in.
    intros [y p] Hyp. apply (Permutation_in _ (sorted_by_year_perm _)) in Hyp.
    rewrite (Hq y (Hin y p Hyp)). reflexivity.
  - unfold _get_price_breakdown_eur. rewrite <- Hp, <- Hcur. apply map_ext_in.
    intros [y p] Hyp. apply (Permutation_in _ (sorted_by_year_perm _)) in Hyp.
    rewrite (Hq y (Hin y p Hyp)). reflexivity.
Qed.

End BreakdownFacts.

Lemma quantities_count_at_priced_years_witness :
  let quote : models.ExtractedQuotation float := Samples.recurring_quote in
  let quote' : models.ExtractedQuotation float := recurring_quote_stray in
  models.annual_quantities quote <> models.annual_quantities quote' /\
  QuotationComparator._calculate_tco quote = QuotationComparator._calculate_tco quote' /\
  QuotationComparator._get_price_breakdown_original quote =
  QuotationComparator._get_price_breakdown_original quote' /\
  QuotationComparator._get_price_breakdown_eur quote =
  QuotationComparator._get_price_breakdown_eur quote'.
Proof.
  intros quote quote'. split.
  - intros E. assert (E' : models.annual_quantities quote !! 2030%Z =
                           models.annual_quantities quote' !! 2030%Z) by (rewrite E; reflexivity).
    vm_compute in E'. discriminate.
  - apply (quantities_count_at_priced_years quote quote'); try reflexivity.
    intros y Hy. simpl in Hy.
    destruct Hy as [<- | [<- | [<- | []]]]; vm_compute; reflexivity.
Defined.

(** The breakdown of the sample quotation, in binary64: years ascending, the
    year without a quantity at 0. *)
Example price_breakdown_of_sample :
  map (fun r => (r.1, quantity r.2, total r.2))
      (QuotationComparator._get_price_breakdown_original
         (Samples.recurring_quote : models.ExtractedQuotation float)) =
  [(2024%Z, 1000%Z, 12500%float); (2025%Z, 2000%Z, 24000%float); (2026%Z, 0%Z, 0%float)].
Proof. vm_compute. reflexivity. Qed.
(** ** Comparison items built from quotations *)

Section ItemFacts.
Import QuotationComparator ProcurementScorer.
Local Open Scope Q_scope.
Local Open Scope list_scope.

Lemma or_na_nonempty (text : option string) : or_na text <> EmptyString.
Proof.
  unfold or_na. destruct text as [s|]; [|discriminate].
  destruct (bool_decide (s = EmptyString)) eqn:E; [discriminate|].
  apply bool_decide_eq_false in E. exact E.
Qed.

Lemma or_na_placeholder (text : option string) :
  or_na text = "N/A"%string <-> absent_text text = true.
Proof.
  unfold or_na, absent_text. destruct text as [s|]; [|tauto].
  destruct (bool_decide (s = EmptyString)) eqn:E; [simpl; tauto|].
  simpl. rewrite bool_decide_eq_true. reflexivity.
Qed.

Lemma text_missing_or_na (text : option string) :
  text_missing (Some (or_na text)) = absent_text text.
Proof.
  destruct (absent_text text) eqn:Ha.
  - apply or_na_placeholder in Ha. rewrite Ha. reflexivity.
  - unfold text_missing. apply orb_false_iff. split; apply bool_decide_eq_false.
    + intros E. apply or_na_placeholder in E. congruence.
    + apply or_na_nonempty.
Qed.

Lemma convert_to_eur_zero (x : Q) (code : string) : x == 0 -> convert_to_eur x code == 0.
Proof.
  intros Hx. unfold convert_to_eur, convert_with.
  destruct (decide (code = "EUR"%string)); [exact Hx|].
  simpl. rewrite Hx. ring.
Qed.

(** The standalone tooling figure is zero exactly when the quotation has no
    tooling cost or a tooling cost of zero. *)
Lemma tooling_figure_zero (quote : models.ExtractedQuotation Q) :
  Qeq_bool (_calculate_tooling_cost quote) 0 = negb (truthy (models.tooling_cost quote)).
Proof.
  pose proof (tooling_figure_value quote) as Hv.
  pose proof (years_multiplier_max (models.annual_prices quote)) as Hy.
  set (m := if is_recurring (models.tooling_cost_type quote)
            then inject_Z (years_multiplier (models.annual_prices quote)) else 1) in *.
  assert (Hm : 1 <= m).
  { subst m. destruct (is_recurring _); [|lra].
    change 1 with (inject_Z 1). rewrite <- Zle_Qle. lia. }
  destruct (models.tooling_cost quote) as [c|]; simpl in *.
  - destruct (Qeq_bool c 0) eqn:Ec; simpl.
    + apply Qeq_bool_iff in Ec. apply Qeq_bool_iff. rewrite Hv, Ec. ring.
    + apply Qeq_bool_neq in Ec. apply not_true_iff_false. intros E.
      apply Qeq_bool_iff in E. rewrite Hv in E. apply Ec.
      destruct (Qmult_integral _ _ E) as [E'|E']; [exact E' | lra].
  - apply Qeq_bool_iff. rewrite Hv. ring.
Qed.

Lemma tooling_condition (quote : models.ExtractedQuotation Q) (code : string) :
  Qeq_bool (convert_to_eur (_calculate_tooling_cost quote) code) 0 &&
  Qeq_bool (_calculate_tooling_cost quote) 0 =
  negb (truthy (models.tooling_cost quote)).
Proof.
  rewrite <- tooling_figure_zero.
  destruct (Qeq_bool (_calculate_tooling_cost quote) 0) eqn:E.
  - rewrite andb_true_r. apply Qeq_bool_iff, convert_to_eur_zero, Qeq_bool_iff, E.
  - apply andb_false_r.
Qed.

(** What [_build_comparison_item] returns, field by field, in any
    arithmetic. *)
Lemma build_comparison_item_fields {num : Type} `{Arith num}
    (strftime_ymd : models.datetime -> string)
    (quote : models.ExtractedQuotation num) :
  let code := models.value (models.currency quote) in
  exists d,
    _build_comparison_item strftime_ymd quote = Returns d /\
    supplier d = models.supplier_name quote /\
    total_cost_original d = _calculate_tco quote /\
    total_cost_eur d = convert_to_eur (_calculate_tco quote) code /\
    tooling_cost_original d = _calculate_tooling_cost quote /\
    tooling_cost_eur d = convert_to_eur (_calculate_tooling_cost quote) code /\
    unit_cost_avg_original d = _calculate_avg_unit_cost quote /\
    unit_cost_avg_eur d = _calculate_avg_unit_cost_eur quote /\
    price_breakdown_original d = _get_price_breakdown_original quote /\
    price_breakdown_eur d = _get_price_breakdown_eur quote /\
    lead_time d = Some (or_na (models.lead_time quote)) /\
    payment_terms d = Some (or_na (models.payment_terms quote)) /\
    delivery_terms d = Some (or_na (models.delivery_terms quote)) /\
    lead_time_weeks d = LeadTimeRule.weeks_of (models.lead_time quote) /\
    payment_days d = payment_days_of (models.payment_terms quote) /\
    incoterms d = _extract_incoterms (models.delivery_terms quote) /\
    moq d = match models.moq quote with
            | Some n => if (n =? 0)%Z then MoqText "N/A" else MoqInt n
            | None => MoqText "N/A"
            end /\
    quotation_date d = Some (match models.quotation_date quote with
                             | Some date => strftime_ymd date
                             | None => "N/A"%string
                             end).
Proof.
  intros code. eexists. split.
  - unfold _build_comparison_item.
    rewrite parse_lead_time_refines, parse_payment_terms_run. reflexivity.
  - cbn [supplier total_cost_original total_cost_eur tooling_cost_original
         tooling_cost_eur unit_cost_avg_original unit_cost_avg_eur
         price_breakdown_original price_breakdown_eur lead_time payment_terms
         delivery_terms lead_time_weeks payment_days incoterms moq quotation_date].
    split_and!; try reflexivity.
    destruct (models.quotation_date quote); reflexivity.
Qed.

(** X12. In every arithmetic, the item [_build_comparison_item] returns has
    lead-time, payment-terms and delivery-terms texts that are never empty:
    a missing or empty text is replaced by "N/A"; its MOQ is "N/A" when the
    quotation has none or has 0, and the quoted non-zero number otherwise;
    its parsed lead time and payment days are what the two parsers return;
    its reference-currency total and tooling cost are the conversions of the
    original ones; and for a quotation in EUR every reference-currency
    figure is the original figure itself. *)
Theorem built_item_fields {num : Type} `{Arith num}
    (strftime_ymd : models.datetime -> string)
    (quote : models.ExtractedQuotation num) (d : ItemData num) :
  _build_comparison_item strftime_ymd quote = Returns d ->
  let code := models.value (models.currency quote) in
  (exists s, lead_time d = Some s /\ s <> EmptyString /\
             (s = "N/A"%string <-> absent_text (models.lead_time quote) = true)) /\
  (exists s, payment_terms d = Some s /\ s <> EmptyString /\
             (s = "N/A"%string <-> absent_text (models.payment_terms quote) = true)) /\
  (exists s, delivery_terms d = Some s /\ s <> EmptyString /\
             (s = "N/A"%string <-> absent_text (models.delivery_terms quote) = true)) /\
  ((moq d = MoqText "N/A" /\
    (models.moq quote = None \/ models.moq quote = Some 0%Z)) \/
   (exists n, moq d = MoqInt n /\ n <> 0%Z /\ models.moq quote = Some n)) /\
  _parse_lead_time (models.lead_time quote) = Returns (lead_time_weeks d) /\
  _parse_payment_terms (models.payment_terms quote) = Returns (payment_days d) /\
  total_cost_eur d = convert_to_eur (total_cost_original d) code /\
  tooling_cost_eur d = convert_to_eur (tooling_cost_original d) code /\
  (models.currency quote = models.EUR ->
   total_cost_eur d = total_cost_original d /\
   tooling_cost_eur d = tooling_cost_original d /\
   unit_cost_avg_eur d = unit_cost_avg_original d /\
   price_breakdown_eur d = price_breakdown_original d).
Proof.
  intros Hbuild code.
  destruct (build_comparison_item_fields strftime_ymd quote)
    as (d' & Hd & _ & Htco & Htco_eur & Htool & Htool_eur & Havg & Havg_eur & Hbo & Hbe
        & Hlead & Hpay & Hdel & Hweeks & Hdays & _ & Hmoq & _).
  rewrite Hbuild in Hd. injection Hd as <-. split_and!.
  - eexists. split; [exact Hlead|]. split; [apply or_na_nonempty | apply or_na_placeholder].
  - eexists. split; [exact Hpay|]. split; [apply or_na_nonempty | apply or_na_placeholder].
  - eexists. split; [exact Hdel|]. split; [apply or_na_nonempty | apply or_na_placeholder].
  - rewrite Hmoq. destruct (models.moq quote) as [n|]; [|left; split; auto].
    destruct (n =? 0)%Z eqn:E.
    + apply Z.eqb_eq in E. subst n. left. split; auto.
    + apply Z.eqb_neq in E. right. exists n. split_and!; auto.
  - rewrite Hweeks. apply parse_lead_time_refines.
  - rewrite Hdays. apply parse_payment_terms_run.
  - rewrite Htco_eur, Htco. reflexivity.
  - rewrite Htool_eur, Htool. reflexivity.
  - intros E. subst code. rewrite E in *.
    rewrite Htco_eur, Htco, Htool_eur, Htool, Havg_eur, Havg, Hbe, Hbo.
    split_and!; try reflexivity.
    + unfold _calculate_avg_unit_cost_eur, _calculate_avg_unit_cost. rewrite E.
      destruct (models.annual_prices quote) as [|p r]; [reflexivity|].
      do 2 f_equal. transitivity (map id (p :: r).*2); [|apply map_id].
      apply map_ext. intros a. reflexivity.
    + unfold _get_price_breakdown_eur, _get_price_breakdown_original. rewrite E.
      apply map_ext. intros [y p]. reflexivity.
Qed.

Lemma built_item_fields_witness :
  match _build_comparison_item (num := float) Samples.stub_strftime
          Samples.recurring_quote with
  | Returns d =>
      (exists s, lead_time d = Some s /\ s <> EmptyString /\
                 (s = "N/A"%string <->
                  absent_text (models.lead_time (Samples.recurring_quote (num := float))) = true)) /\
      total_cost_eur d = convert_to_eur (total_cost_original d) "USD"
  | Raises _ => False
  end.
Proof.
  destruct (_build_comparison_item _ _) as [d|e] eqn:Hd.
  - pose proof (built_item_fields Samples.stub_strftime Samples.recurring_quote d Hd)
      as (Hlead & _ & _ & _ & _ & _ & Heur & _).
    split; [exact Hlead | exact Heur].
  - vm_compute in Hd. discriminate Hd.
Defined.

(** X13. The missing-data penalty of an item built from a quotation is 10
    for each of six fields the extraction left out: lead time, payment terms
    and delivery terms absent, empty or "N/A"; no quotation date; no MOQ or a
    MOQ of 0; no tooling cost or a tooling cost of 0.  The date condition
    relies on the date format never giving an empty text or "N/A". *)
Theorem built_item_penalty_counts_left_out_fields
    (strftime_ymd : models.datetime -> string)
    (quote : models.ExtractedQuotation Q) (d : ItemData Q) (id : nat) :
  (forall date, strftime_ymd date <> EmptyString /\ strftime_ymd date <> "N/A"%string) ->
  _build_comparison_item strftime_ymd quote = Returns d ->
  _calculate_missing_data_penalty (new_item id d) = (10 * count_true (left_out quote))%Z.
Proof.
  intros Hfmt Hbuild.
  destruct (build_comparison_item_fields strftime_ymd quote)
    as (d' & Hd & _ & _ & _ & Htool & Htool_eur & _ & _ & _ & _
        & Hlead & Hpay & Hdel & _ & _ & _ & Hmoq & Hdate).
  rewrite Hbuild in Hd. injection Hd as <-.
  rewrite (proj1 (penalty_uncapped (new_item id d))).
  rewrite Z.mul_comm. f_equal. unfold missing_fields, left_out; q_ops.
  change (data (new_item id d)) with d.
  rewrite Hlead, Hpay, Hdel, Hdate, Hmoq, Htool, Htool_eur.
  rewrite !text_missing_or_na, tooling_condition.
  assert (E1 : text_missing
                 (Some match models.quotation_date quote with
                       | Some date => strftime_ymd date
                       | None => "N/A"%string
                       end) =
               bool_decide (models.quotation_date quote = None)).
  { destruct (models.quotation_date quote) as [date|]; [|reflexivity].
    destruct (Hfmt date) as [H1 H2]. unfold text_missing.
    rewrite (bool_decide_eq_false_2 _ H1), (bool_decide_eq_false_2 _ H2). reflexivity. }
  assert (E2 : moq_missing
                 match models.moq quote with
                 | Some n => if (n =? 0)%Z then MoqText "N/A" else MoqInt n
                 | None => MoqText "N/A"
                 end =
               match models.moq quote with
               | Some n => (n =? 0)%Z
               | None => true
               end).
  { destruct (models.moq quote) as [n|]; [|reflexivity].
    destruct (n =? 0)%Z eqn:E; [reflexivity | exact E]. }
  rewrite E1, E2. reflexivity.
Qed.

Lemma built_item_penalty_counts_left_out_fields_witness :
  exists d,
    _build_comparison_item Samples.stub_strftime Samples.plain_quote = Returns d /\
    left_out Samples.plain_quote = [false; false; false; false; true; true] /\
    _calculate_missing_data_penalty (new_item 0 d) = 20%Z.
Proof.
  destruct (build_comparison_item_fields Samples.stub_strftime Samples.plain_quote)
    as (d & Hd & _).
  exists d. split; [exact Hd|]. split; [reflexivity|].
  apply (built_item_penalty_counts_left_out_fields
           Samples.stub_strftime Samples.plain_quote d 0).
  - intros date. split; discriminate.
  - exact Hd.
Defined.

End ItemFacts.
(** ** The comparison pipeline *)

Section PipelineFacts.
Import QuotationComparator ProcurementScorer.
Local Open Scope Q_scope.
Local Open Scope list_scope.

Lemma mapM_total {A B} (f : A -> outcome B) (l : list A) :
  (forall x, exists y, f x = Returns y) ->
  exists ys, mapM f l = Returns ys /\ Forall2 (fun x y => f x = Returns y) l ys.
Proof.
  intros Hf. induction l as [|x r (ys & Hys & HF)].
  - exists []. split; [reflexivity | constructor].
  - destruct (Hf x) as (y & Hy). exists (y :: ys). split.
    + simpl. rewrite Hy, Hys. reflexivity.
    + constructor; assumption.
Qed.

Lemma mapM_length {A B} (f : A -> outcome B) (l : list A) (ys : list B) :
  mapM f l = Returns ys -> length ys = length l.
Proof.
  revert ys. induction l as [|x r IH]; intros ys; simpl.
  - intros E. injection E as <-. reflexivity.
  - destruct (f x) as [y|e]; [|discriminate]. rewrite bind_returns.
    destruct (mapM f r) as [zs|e]; [|discriminate]. rewrite bind_returns.
    intros E. injection E as <-. simpl. f_equal. apply IH. reflexivity.
Qed.

(** The summary of a non-empty table. *)
Lemma generate_summary_some (first : Item Q) (rest : list (Item Q)) :
  let items := first :: rest in
  exists sm,
    _generate_summary items = Returns (Some sm) /\
    total_suppliers sm = length items /\
    In (lowest_cost sm) (tcos items) /\ In (highest_cost sm) (tcos items) /\
    Forall (fun c => lowest_cost sm <= c <= highest_cost sm) (tcos items) /\
    cost_range sm = highest_cost sm - lowest_cost sm /\
    0 <= cost_range sm /\
    best_supplier sm = Some (supplier (data first)) /\
    best_score sm = score_of first.
Proof.
  intros items.
  assert (Hx : In (total_cost_eur (data first)) (tcos items)) by (left; reflexivity).
  destruct (min_max_pick_Q _ _ Hx) as (lo & hi & Hlo & Hhi & H1 & H2 & H3 & H4 & H5).
  eexists. split.
  - unfold _generate_summary; q_ops. subst items. cbv zeta. fold (tcos (first :: rest)).
    rewrite Hlo, Hhi. reflexivity.
  - cbn [total_suppliers lowest_cost highest_cost cost_range best_supplier best_score].
    split_and!; try reflexivity; try assumption.
    + rewrite List.Forall_forall in H3, H4. apply List.Forall_forall.
      intros c Hc. split; [apply H3 | apply H4]; exact Hc.
    + lra.
Qed.

(** X14. [_generate_summary] returns the empty dict for an empty list.  For
    a non-empty list the lowest and the highest cost are reference-currency
    TCOs of rows of the list and bound every row's TCO, the cost range is
    their difference and is not negative, the number of suppliers is the
    length of the list, and the best supplier and score are those of the
    first row, whatever its cost. *)
Theorem generate_summary_bounds (first : Item Q) (rest : list (Item Q)) :
  let items := first :: rest in
  _generate_summary [] = Returns None /\
  exists sm,
    _generate_summary items = Returns (Some sm) /\
    total_suppliers sm = length items /\
    In (lowest_cost sm) (tcos items) /\ In (highest_cost sm) (tcos items) /\
    Forall (fun c => lowest_cost sm <= c <= highest_cost sm) (tcos items) /\
    cost_range sm = highest_cost sm - lowest_cost sm /\
    0 <= cost_range sm /\
    best_supplier sm = Some (supplier (data first)) /\
    best_score sm = score_of first.
Proof. intros items. split; [reflexivity | apply generate_summary_some]. Qed.

(** *** Rows of the table *)

Lemma stamped_fields (by_cost : list (Item Q)) (n : nat) (it : Item Q) :
  let row := stamp_ranking (stamp_cost_ranking by_cost (set_final_ranking n it)) in
  final_ranking row = Some n /\ ranking row = Some n /\
  data row = data it /\ obj_id row = obj_id it /\
  scores row = scores it /\ total_score row = total_score it /\
  cost_ranking row = match cost_rank_of by_cost (obj_id it) with
                     | Some k => Some k
                     | None => cost_ranking it
                     end.
Proof.
  unfold stamp_ranking, stamp_cost_ranking.
  change (obj_id (set_final_ranking n it)) with (obj_id it).
  destruct (cost_rank_of by_cost (obj_id it)); simpl; split_and!; reflexivity.
Qed.

Lemma ranked_table_lookup (cd scored : list (Item Q)) (i : nat) :
  ranked_table cd scored !! i =
  (fun it => stamp_ranking (stamp_cost_ranking (stable_sort cheaper cd)
                              (set_final_ranking (S i) it)))
    <$> stable_sort better scored !! i.
Proof.
  unfold ranked_table.
  change (map stamp_ranking ?l) with (stamp_ranking <$> l).
  rewrite list_lookup_fmap.
  change (map ?f ?l) with (f <$> l).
  rewrite list_lookup_fmap, stamp_enumerate_lookup.
  destruct (stable_sort better scored !! i); reflexivity.
Qed.

Lemma map_imap_view {B C D} (f : C -> D) (g : nat -> B -> C) (h : B -> D) (l : list B) :
  (forall i x, f (g i x) = h x) -> map f (imap g l) = map h l.
Proof.
  revert g. induction l as [|x r IH]; intros g Hg; [reflexivity|].
  simpl. rewrite Hg. f_equal. apply IH. intros i y. apply Hg.
Qed.

(** Every view of a row that the stamps leave alone is that of the scored
    item in the same place. *)
Lemma ranked_table_view {D} (f : Item Q -> D) (cd scored : list (Item Q)) :
  (forall bc n it, f (stamp_ranking (stamp_cost_ranking bc (set_final_ranking n it))) = f it) ->
  map f (ranked_table cd scored) = map f (stable_sort better scored).
Proof.
  intros Hf. unfold ranked_table, stamp_enumerate.
  rewrite !map_map. apply map_imap_view. intros i x. apply Hf.
Qed.

Lemma scored_from_view {D} (f : Item Q -> D) (cohort l l' : list (Item Q)) :
  (forall s t it, f (set_scores s t it) = f it) ->
  Forall2 (scored_from cohort) l l' -> map f l' = map f l.
Proof.
  intros Hf. induction 1 as [|a b l l' (s & _ & ->) _ IH]; [reflexivity|].
  simpl. rewrite Hf, IH. reflexivity.
Qed.

Lemma imap_new_item_data (built : list (ItemData Q)) : map data (imap new_item built) = built.
Proof.
  rewrite (map_imap_view data new_item id); [apply map_id|]. reflexivity.
Qed.

Lemma imap_new_item_ids (built : list (ItemData Q)) :
  map obj_id (imap new_item built) = seq 0 (length built).
Proof.
  assert (G : forall k, map obj_id (imap (fun i => new_item (k + i)) built) =
                        seq k (length built)).
  { induction built as [|d r IH]; intros k; [reflexivity|].
    simpl. rewrite Nat.add_0_r. f_equal.
    rewrite <- (IH (S k)). f_equal. apply imap_ext. intros i x _. simpl.
    f_equal. lia. }
  apply (G 0%nat).
Qed.

(** *** What [compare] computes *)

Lemma cheaper_is_key_order (a b : Item Q) :
  undecorated (key_order Qltb false) (fun x => total_cost_eur (data x)) a b = cheaper a b.
Proof. reflexivity. Qed.

Lemma ranked_table_length (cd scored : list (Item Q)) :
  length (ranked_table cd scored) = length scored.
Proof.
  unfold ranked_table, stamp_enumerate.
  rewrite !length_map, length_imap.
  apply Permutation_length, stable_sort_perm.
Qed.

Lemma compare_unfold (strftime_ymd : models.datetime -> string)
    (q : models.ExtractedQuotation Q) (qs : list (models.ExtractedQuotation Q)) :
  exists built scored,
    Forall2 (fun quote d => _build_comparison_item strftime_ymd quote = Returns d)
            (q :: qs) built /\
    Forall2 (scored_from (imap new_item built)) (imap new_item built) scored /\
    forall llm now,
      compare strftime_ymd llm now (q :: qs) =
      (r ← generate_recommendation llm (ranked_table (imap new_item built) scored);
       s ← _generate_summary (ranked_table (imap new_item built) scored);
       mret {| comparison_table := Some (ranked_table (imap new_item built) scored);
               summary := Some s;
               recommendation := Some (Some r);
               generated_at := Some now |}).
Proof.
  destruct (mapM_total (_build_comparison_item strftime_ymd) (q :: qs))
    as (built & Hbuilt & HF).
  { intros quote. destruct (build_comparison_item_fields strftime_ymd quote) as (d & Hd & _).
    exists d. exact Hd. }
  destruct (score_all_spec (imap new_item built)) as (scored & Hsc & Hall).
  exists built, scored. split; [exact HF|]. split; [exact Hsc|].
  intros llm now. unfold compare; q_ops. rewrite Hbuilt, bind_returns. cbv zeta.
  rewrite Hall, bind_returns.
  rewrite (py_sorted_returns Qltb _ (fun x => total_cost_eur (data x)) false);
    [|apply List.Forall_forall; intros x _; reflexivity].
  rewrite bind_returns.
  change (map stamp_ranking (map (stamp_cost_ranking _) _))
    with (ranked_table (imap new_item built) scored).
  assert (Hlen : length (ranked_table (imap new_item built) scored) = S (length qs)).
  { rewrite ranked_table_length, <- (Forall2_length _ _ _ Hsc), length_imap.
    rewrite <- (Forall2_length _ _ _ HF). reflexivity. }
  destruct (ranked_table (imap new_item built) scored) as [|top rest] eqn:Et;
    [discriminate|].
  destruct (generate_recommendation llm (top :: rest)) as [r|e]; reflexivity.
Qed.

(** X15. In every arithmetic: on a non-empty list of quotations whose
    comparison items are all built, [compare] fails only when the
    recommendation model fails, and then with the exception the model
    raised.  The ranked table, one row per quotation, is fixed before the
    model is called and does not depend on it.  When the model answers, the
    supplier and the score it names are returned as they are, without a
    check against the table; an empty supplier name or a zero score is
    replaced by the supplier and the composite score of the top row, which
    are also the best supplier and best score of the summary. *)
Theorem compare_fails_only_with_the_model {num : Type} {arith : Arith num}
    (strftime_ymd : models.datetime -> string)
    (q : models.ExtractedQuotation num) (qs : list (models.ExtractedQuotation num))
    (built : list (ItemData num)) :
  let quotations := q :: qs in
  mapM (_build_comparison_item strftime_ymd) quotations = Returns built ->
  exists table top rest,
    table = top :: rest /\ length table = length quotations /\
    forall (llm : list (Item num) -> outcome (models.Recommendation num)) (now : string),
      (forall e, llm table = Raises e ->
                 compare strftime_ymd llm now quotations = Raises e) /\
      (forall reply, llm table = Returns reply ->
         exists c r sm,
           compare strftime_ymd llm now quotations = Returns c /\
           comparison_table c = Some table /\ generated_at c = Some now /\
           recommendation c = Some (Some r) /\ summary c = Some (Some sm) /\
           recommended_supplier r =
             Some (if bool_decide (models.recommended_supplier reply = EmptyString)
                   then supplier (data top)
                   else models.recommended_supplier reply) /\
           rec_total_score r =
             (if is_zero (models.total_score reply) then score_of top
              else models.total_score reply) /\
           reasoning r = models.reasoning reply /\
           best_supplier sm = Some (supplier (data top)) /\
           best_score sm = score_of top /\
           total_suppliers sm = length quotations).
Proof.
  intros quotations Hbuilt.
  destruct (score_all_spec (imap new_item built)) as (scored & Hsc & Hall).
  set (by_cost := stable_sort
                    (undecorated (key_order num_ltb false)
                                 (fun x : Item num => total_cost_eur (data x)))
                    (imap new_item built)).
  set (table := map stamp_ranking
                    (map (stamp_cost_ranking by_cost)
                         (stamp_enumerate set_final_ranking (stable_sort better scored)))).
  assert (Hlen : length table = length quotations).
  { subst table. unfold stamp_enumerate.
    rewrite !length_map, length_imap.
    rewrite (Permutation_length (stable_sort_perm better scored)).
    rewrite <- (Forall2_length _ _ _ Hsc), length_imap.
    apply (mapM_length _ _ _ Hbuilt). }
  assert (Hrun : forall llm now,
            compare strftime_ymd llm now quotations =
            (r ← generate_recommendation llm table;
             s ← _generate_summary table;
             mret {| comparison_table := Some table;
                     summary := Some s;
                     recommendation := Some (Some r);
                     generated_at := Some now |})).
  { intros llm now. subst quotations. unfold compare.
    rewrite Hbuilt, bind_returns. cbv zeta.
    rewrite Hall, bind_returns.
    rewrite (py_sorted_returns num_ltb _ (fun x => total_cost_eur (data x)) false);
      [|apply List.Forall_forall; intros x _; reflexivity].
    rewrite bind_returns. fold by_cost. fold table.
    destruct table as [|top rest]; [discriminate|].
    destruct (generate_recommendation llm (top :: rest)) as [r|e]; reflexivity. }
  destruct table as [|top rest] eqn:Et; [discriminate|].
  exists (top :: rest), top, rest. split; [reflexivity|]. split; [exact Hlen|].
  intros llm now. rewrite Hrun. split.
  - intros e He. unfold generate_recommendation. rewrite He. reflexivity.
  - intros reply Hreply.
    assert (Hne : map (fun d : Item num => total_cost_eur (data d)) (top :: rest) <> [])
      by discriminate.
    destruct (py_min_In num_ltb _ Hne) as (lo & Hlo & _).
    destruct (py_max_In num_ltb _ Hne) as (hi & Hhi & _).
    eexists _, _, _. split.
    + unfold generate_recommendation, _generate_summary.
      rewrite Hreply, bind_returns, bind_returns, Hlo, Hhi, !bind_returns.
      reflexivity.
    + cbn [comparison_table generated_at recommendation summary recommended_supplier
           rec_total_score reasoning best_supplier best_score total_suppliers].
      split_and!; try reflexivity. exact Hlen.
Qed.

(** Two sample quotations in binary64, with a model that fails. *)
Lemma compare_fails_only_with_the_model_witness :
  let quotations : list (models.ExtractedQuotation float) :=
    [Samples.recurring_quote; Samples.plain_quote] in
  match mapM (_build_comparison_item Samples.stub_strftime) quotations with
  | Returns built =>
      length built = 2%nat /\
      compare Samples.stub_strftime (fun _ => Raises (ExternalError "rate limit"))
              "2024-02-01T09:00:00" quotations = Raises (ExternalError "rate limit")
  | Raises _ => False
  end.
Proof.
  intros quotations.
  destruct (mapM (_build_comparison_item Samples.stub_strftime) quotations)
    as [built|e] eqn:Hb; [|vm_compute in Hb; discriminate].
  split; [apply (mapM_length _ _ _ Hb)|].
  destruct (compare_fails_only_with_the_model Samples.stub_strftime
              Samples.recurring_quote [Samples.plain_quote] built Hb)
    as (table & top & rest & _ & _ & Hllm).
  apply (proj1 (Hllm (fun _ => Raises (ExternalError "rate limit"))
                     "2024-02-01T09:00:00"%string) (ExternalError "rate limit")).
  reflexivity.
Defined.

(** A model that fails makes the comparison fail with its exception. *)
Example compare_with_failing_model :
  compare Samples.stub_strftime (fun _ => Raises (ExternalError "rate limit"))
          "2024-02-01T09:00:00" [Samples.recurring_quote; Samples.plain_quote] =
  Raises (ExternalError "rate limit").
Proof. vm_compute. reflexivity. Qed.

(** *** The rows of a returned table *)

Lemma compare_returns_table (strftime_ymd : models.datetime -> string)
    (llm : list (Item Q) -> outcome (models.Recommendation Q)) (now : string)
    (quotations : list (models.ExtractedQuotation Q)) (c : Comparison Q) (table : list (Item Q)) :
  compare strftime_ymd llm now quotations = Returns c ->
  comparison_table c = Some table ->
  exists built scored,
    Forall2 (fun quote d => _build_comparison_item strftime_ymd quote = Returns d)
            quotations built /\
    Forall2 (scored_from (imap new_item built)) (imap new_item built) scored /\
    table = ranked_table (imap new_item built) scored.
Proof.
  destruct quotations as [|q qs].
  - intros H. injection H as <-. discriminate.
  - destruct (compare_unfold strftime_ymd q qs) as (built & scored & HF & Hsc & Hrun).
    rewrite Hrun. intros H Ht. exists built, scored. split_and!; try assumption.
    destruct (generate_recommendation _ _) as [r|]; [|discriminate].
    rewrite bind_returns in H.
    destruct (_generate_summary _) as [s|]; [|discriminate].
    rewrite bind_returns in H. injection H as <-.
    injection Ht as <-. reflexivity.
Qed.

Lemma StronglySorted_unmap {B C} (R : C -> C -> Prop) (f : B -> C) (l : list B) :
  StronglySorted R (map f l) -> StronglySorted (fun a b => R (f a) (f b)) l.
Proof.
  induction l as [|a l IH]; simpl; intros H; [constructor|].
  inversion H as [|x l' Hs Hf]; subst. constructor; [apply IH, Hs|].
  apply (proj1 (List.Forall_map f (R (f a)) l)), Hf.
Qed.

Lemma StronglySorted_lookup {B} (R : B -> B -> Prop) (l : list B) (i j : nat) (x y : B) :
  StronglySorted R l -> l !! i = Some x -> l !! j = Some y -> (i < j)%nat -> R x y.
Proof.
  intros Hs. revert i j. induction Hs as [|a l Hs IH Ha]; intros i j Hi Hj Hij.
  - rewrite lookup_nil in Hi. discriminate.
  - destruct j as [|j]; [lia|]. destruct i as [|i]; simpl in *.
    + injection Hi as <-. rewrite List.Forall_forall in Ha. apply Ha.
      apply list_elem_of_In, (list_elem_of_lookup_2 _ j), Hj.
    + apply (IH i j); [assumption | assumption | lia].
Qed.

Lemma some_default (t : Q) : Some t = Some (default 0 (Some t)).
Proof. reflexivity. Qed.

Lemma table_row_origin (built : list (ItemData Q)) (scored : list (Item Q)) (i : nat) (row : Item Q) :
  Forall2 (scored_from (imap new_item built)) (imap new_item built) scored ->
  ranked_table (imap new_item built) scored !! i = Some row ->
  exists j d s,
    built !! j = Some d /\
    final_ranking row = Some (S i) /\ ranking row = Some (S i) /\
    data row = d /\ obj_id row = j /\
    scores row = Some s /\ total_score row = Some (_calculate_weighted_total s) /\
    cost_ranking row = cost_rank_of (stable_sort cheaper (imap new_item built)) j.
Proof.
  intros Hsc Hi. rewrite ranked_table_lookup in Hi.
  destruct (stable_sort better scored !! i) as [it|] eqn:Eit; [|discriminate].
  injection Hi as <-.
  assert (Hin : In it (stable_sort better scored)).
  { apply list_elem_of_In, (list_elem_of_lookup_2 _ i), Eit. }
  destruct (ranked_item_origin _ _ _ Hsc Hin) as (it0 & s & Hin0 & _ & ->).
  apply list_elem_of_In, elem_of_lookup_imap in Hin0.
  destruct Hin0 as (j & d & -> & Hj).
  exists j, d, s. split; [exact Hj|].
  destruct (stamped_fields (stable_sort cheaper (imap new_item built)) (S i)
              (set_scores s (_calculate_weighted_total s) (new_item j d)))
    as (H1 & H2 & H3 & H4 & H5 & H6 & H7).
  split_and!; try assumption.
  rewrite H7. change (obj_id (set_scores _ _ (new_item j d))) with j.
  destruct (cost_rank_of _ j); reflexivity.
Qed.

(** X16. The table [compare] returns has one row per quotation, and its
    rows carry the items built from the quotations, each once.  The row at
    position [i] (from 0) has [final_ranking] and [ranking] equal to
    [i + 1], so the fallbacks of [ranking] (the cost rank, 999) are never
    used; it has its scores and its composite score attached; and the rows
    are in descending order of composite score. *)
Theorem compare_table_is_ranked (strftime_ymd : models.datetime -> string)
    (llm : list (Item Q) -> outcome (models.Recommendation Q)) (now : string)
    (quotations : list (models.ExtractedQuotation Q)) (c : Comparison Q) (table : list (Item Q)) :
  compare strftime_ymd llm now quotations = Returns c ->
  comparison_table c = Some table ->
  length table = length quotations /\
  (exists built,
     Forall2 (fun quote d => _build_comparison_item strftime_ymd quote = Returns d)
             quotations built /\
     Permutation (map data table) built) /\
  (forall i row, table !! i = Some row ->
     final_ranking row = Some (S i) /\ ranking row = Some (S i) /\
     is_Some (scores row) /\ total_score row = Some (score_of row)) /\
  StronglySorted (fun a b => score_of b <= score_of a) table.
Proof.
  intros Hc Ht.
  destruct (compare_returns_table _ _ _ _ _ _ Hc Ht) as (built & scored & HF & Hsc & ->).
  split_and!.
  - rewrite ranked_table_length, <- (Forall2_length _ _ _ Hsc), length_imap.
    symmetry. apply (Forall2_length _ _ _ HF).
  - exists built. split; [exact HF|].
    rewrite (ranked_table_view data);
      [|intros bc n it; apply (stamped_fields bc n it)].
    rewrite (Permutation_map data (stable_sort_perm better scored)).
    rewrite (scored_from_view data _ _ _ (fun _ _ _ => eq_refl) Hsc).
    rewrite imap_new_item_data. reflexivity.
  - intros i row Hi.
    destruct (table_row_origin _ _ _ _ Hsc Hi)
      as (j & d & s & _ & H1 & H2 & _ & _ & H5 & H6 & _).
    split_and!; try assumption.
    + rewrite H5. eexists. reflexivity.
    + unfold score_of; q_ops. rewrite H6. apply some_default.
  - apply StronglySorted_unmap with (R := fun x y => y <= x) (f := score_of).
    rewrite (ranked_table_view score_of).
    + apply StronglySorted_map.
      apply (StronglySorted_weaken (fun a b => better b a = false)).
      * intros a b H. apply Qltb_ge in H. exact H.
      * apply stable_sort_sorted; [apply better_asym | apply not_better_trans].
    + intros bc n it. unfold score_of; q_ops.
      rewrite (proj1 (proj2 (proj2 (proj2 (proj2 (proj2 (stamped_fields bc n it))))))).
      reflexivity.
Qed.

Lemma compare_table_is_ranked_witness :
  exists c table,
    compare Samples.stub_strftime Samples.stub_recommendation "2024-02-01T09:00:00"
            [Samples.recurring_quote; Samples.plain_quote] = Returns c /\
    comparison_table c = Some table /\
    length table = 2%nat /\
    StronglySorted (fun a b => score_of b <= score_of a) table.
Proof.
  destruct (compare Samples.stub_strftime Samples.stub_recommendation "2024-02-01T09:00:00"
              [Samples.recurring_quote; Samples.plain_quote]) as [c|e] eqn:Hc;
    [|vm_compute in Hc; discriminate].
  destruct (comparison_table c) as [table|] eqn:Ht.
  2: { exfalso. assert (E : Returns (comparison_table c) = Returns None) by (rewrite Ht; reflexivity).
       change (Returns (comparison_table c))
         with ((fun x => comparison_table x) <$> Returns c) in E.
       rewrite <- Hc in E. vm_compute in E. discriminate. }
  exists c, table. split; [reflexivity|]. split; [exact Ht|].
  destruct (compare_table_is_ranked _ _ _ _ c table Hc Ht) as (H1 & _ & _ & H4).
  split; [exact H1 | exact H4].
Defined.

(** *** Cost ranks *)

Lemma cheaper_asym (x y : Item Q) : cheaper x y = true -> cheaper y x = false.
Proof. unfold cheaper; q_ops. intros H. apply Qltb_lt in H. apply Qltb_ge. lra. Qed.

Lemma not_cheaper_trans (x y z : Item Q) :
  cheaper y x = false -> cheaper z y = false -> cheaper z x = false.
Proof. unfold cheaper; q_ops. intros H1 H2. apply Qltb_ge in H1, H2. apply Qltb_ge. lra. Qed.

Lemma cost_rank_of_Some (l : list (Item Q)) (id n : nat) :
  cost_rank_of l id = Some n ->
  exists k c, n = S k /\ l !! k = Some c /\ obj_id c = id.
Proof.
  unfold cost_rank_of. destruct (list_find _ l) as [[k c]|] eqn:E; [|discriminate].
  intros H. injection H as <-. apply list_find_Some in E. destruct E as (Hk & Hc & _).
  exists k, c. split_and!; [reflexivity | exact Hk | exact Hc].
Qed.

Lemma cost_rank_of_lookup (l : list (Item Q)) (k : nat) (c : Item Q) :
  NoDup (map obj_id l) -> l !! k = Some c -> cost_rank_of l (obj_id c) = Some (S k).
Proof.
  intros Hnd Hk. unfold cost_rank_of.
  assert (E : list_find (fun it => obj_id it = obj_id c) l = Some (k, c)).
  { apply list_find_Some. split_and!; [exact Hk | reflexivity|].
    intros j y Hj Hlt Hy.
    assert (j = k); [|lia].
    apply (NoDup_lookup (map obj_id l) j k (obj_id c) Hnd).
    - change (map obj_id l) with (obj_id <$> l). rewrite list_lookup_fmap, Hj, <- Hy.
      reflexivity.
    - change (map obj_id l) with (obj_id <$> l). rewrite list_lookup_fmap, Hk.
      reflexivity. }
  rewrite E. reflexivity.
Qed.

Lemma cost_rank_of_all (l : list (Item Q)) :
  NoDup (map obj_id l) ->
  map (cost_rank_of l) (map obj_id l) = map Some (seq 1 (length l)).
Proof.
  intros Hnd. apply list_eq. intros k.
  change (map (cost_rank_of l) (map obj_id l)) with (cost_rank_of l <$> (obj_id <$> l)).
  change (map Some (seq 1 (length l))) with (Some <$> seq 1 (length l)).
  rewrite !list_lookup_fmap.
  destruct (l !! k) as [c|] eqn:Ek; simpl.
  - rewrite (cost_rank_of_lookup l k c Hnd Ek).
    rewrite lookup_seq_lt; [reflexivity|]. apply (lookup_lt_Some l k c Ek).
  - rewrite lookup_seq_ge; [reflexivity|]. apply lookup_ge_None, Ek.
Qed.

(** The items sorted by cost: the built items, each once, by ascending
    reference-currency TCO. *)
Lemma by_cost_facts (built : list (ItemData Q)) :
  let by_cost := stable_sort cheaper (imap new_item built) in
  Permutation (map obj_id by_cost) (seq 0 (length built)) /\
  NoDup (map obj_id by_cost) /\
  length by_cost = length built /\
  StronglySorted (fun a b => total_cost_eur (data a) <= total_cost_eur (data b)) by_cost /\
  (forall c, In c by_cost -> built !! obj_id c = Some (data c)).
Proof.
  intros by_cost.
  pose proof (stable_sort_perm cheaper (imap new_item built)) as Hp. fold by_cost in Hp.
  assert (Hids : Permutation (map obj_id by_cost) (seq 0 (length built))).
  { rewrite <- imap_new_item_ids. apply Permutation_map, Hp. }
  split_and!.
  - exact Hids.
  - apply NoDup_ListNoDup. apply (Permutation_NoDup (Permutation_sym Hids)).
    apply NoDup_ListNoDup, NoDup_seq.
  - rewrite (Permutation_length Hp). apply length_imap.
  - apply (StronglySorted_weaken (fun a b => cheaper b a = false)).
    + intros a b H. apply Qltb_ge in H. exact H.
    + apply stable_sort_sorted; [apply cheaper_asym | apply not_cheaper_trans].
  - intros c Hc. apply (Permutation_in _ Hp) in Hc.
    apply list_elem_of_In, elem_of_lookup_imap in Hc.
    destruct Hc as (j & d & -> & Hj). exact Hj.
Qed.

(** X17. In the table [compare] returns the cost ranks are the numbers 1 to
    n, each given once, and they follow the reference-currency TCO: a row
    with a smaller cost rank never has a greater TCO.  The cost rank is
    given by the cost alone, whatever the score rank of the row. *)
Theorem compare_cost_ranking (strftime_ymd : models.datetime -> string)
    (llm : list (Item Q) -> outcome (models.Recommendation Q)) (now : string)
    (quotations : list (models.ExtractedQuotation Q)) (c : Comparison Q) (table : list (Item Q)) :
  compare strftime_ymd llm now quotations = Returns c ->
  comparison_table c = Some table ->
  Permutation (map cost_ranking table) (map Some (seq 1 (length quotations))) /\
  (forall a b rank_a rank_b,
     In a table -> In b table ->
     cost_ranking a = Some rank_a -> cost_ranking b = Some rank_b ->
     (rank_a < rank_b)%nat ->
     total_cost_eur (data a) <= total_cost_eur (data b)).
Proof.
  intros Hc Ht.
  destruct (compare_returns_table _ _ _ _ _ _ Hc Ht) as (built & scored & HF & Hsc & ->).
  destruct (by_cost_facts built) as (Hids & Hnd & Hlen & Hsorted & Hdata).
  set (by_cost := stable_sort cheaper (imap new_item built)) in *.
  set (table := ranked_table (imap new_item built) scored).
  assert (Hrow : forall row, In row table ->
            cost_ranking row = cost_rank_of by_cost (obj_id row) /\
            built !! obj_id row = Some (data row)).
  { intros row Hin. apply list_elem_of_In, list_elem_of_lookup_1 in Hin.
    destruct Hin as (i & Hi).
    destruct (table_row_origin _ _ _ _ Hsc Hi)
      as (j & d & s & Hj & _ & _ & Hd & Hid & _ & _ & Hcr).
    rewrite Hid, Hd. split; assumption. }
  split.
  - assert (E : map cost_ranking table = map (cost_rank_of by_cost) (map obj_id table)).
    { rewrite map_map. apply map_ext_in. intros row Hin. apply (Hrow row Hin). }
    rewrite E.
    assert (Hobj : Permutation (map obj_id table) (map obj_id by_cost)).
    { subst table. rewrite (ranked_table_view obj_id);
        [|intros bc n it; apply (stamped_fields bc n it)].
      rewrite (Permutation_map obj_id (stable_sort_perm better scored)).
      rewrite (scored_from_view obj_id _ _ _ (fun _ _ _ => eq_refl) Hsc).
      rewrite imap_new_item_ids. symmetry. exact Hids. }
    rewrite (Permutation_map (cost_rank_of by_cost) Hobj).
    rewrite (cost_rank_of_all by_cost Hnd), Hlen, (Forall2_length _ _ _ HF).
    reflexivity.
  - intros a b ka kb Ha Hb Hka Hkb Hlt.
    destruct (Hrow a Ha) as (Ea & Da). destruct (Hrow b Hb) as (Eb & Db).
    rewrite Ea in Hka. rewrite Eb in Hkb.
    apply cost_rank_of_Some in Hka, Hkb.
    destruct Hka as (pa & ca & -> & Hpa & Ida). destruct Hkb as (pb & cb & -> & Hpb & Idb).
    assert (Hca : data ca = data a).
    { assert (Hin : In ca by_cost) by (apply list_elem_of_In, (list_elem_of_lookup_2 _ pa), Hpa).
      pose proof (Hdata ca Hin) as H1. rewrite Ida, Da in H1. congruence. }
    assert (Hcb : data cb = data b).
    { assert (Hin : In cb by_cost) by (apply list_elem_of_In, (list_elem_of_lookup_2 _ pb), Hpb).
      pose proof (Hdata cb Hin) as H1. rewrite Idb, Db in H1. congruence. }
    rewrite <- Hca, <- Hcb.
    apply (StronglySorted_lookup _ by_cost pa pb ca cb Hsorted Hpa Hpb). lia.
Qed.

Lemma compare_cost_ranking_witness :
  exists c table,
    compare Samples.stub_strftime Samples.stub_recommendation "2024-02-01T09:00:00"
            [Samples.recurring_quote; Samples.plain_quote] = Returns c /\
    comparison_table c = Some table /\
    Permutation (map cost_ranking table) [Some 1%nat; Some 2%nat].
Proof.
  destruct (compare Samples.stub_strftime Samples.stub_recommendation "2024-02-01T09:00:00"
              [Samples.recurring_quote; Samples.plain_quote]) as [c|e] eqn:Hc;
    [|vm_compute in Hc; discriminate].
  destruct (comparison_table c) as [table|] eqn:Ht.
  2: { exfalso. assert (E : Returns (comparison_table c) = Returns None) by (rewrite Ht; reflexivity).
       change (Returns (comparison_table c))
         with ((fun x => comparison_table x) <$> Returns c) in E.
       rewrite <- Hc in E. vm_compute in E. discriminate. }
  exists c, table. split; [reflexivity|]. split; [exact Ht|].
  exact (proj1 (compare_cost_ranking _ _ _ _ c table Hc Ht)).
Defined.

End PipelineFacts.
(** ** Construction of the extractor *)

Section ExtractorFacts.
Import LLMExtractor.
Local Open Scope list_scope.

Lemma lower_ascii_idem (c : ascii) : lower_ascii (lower_ascii c) = lower_ascii c.
Proof. destruct c as [[] [] [] [] [] [] [] []]; reflexivity. Qed.

Lemma lower_idem (s : string) : lower (lower s) = lower s.
Proof.
  induction s as [|c r IH]; [reflexivity|].
  change (lower (String c r)) with (String (lower_ascii c) (lower r)).
  change (lower (String (lower_ascii c) (lower r)))
    with (String (lower_ascii (lower_ascii c)) (lower (lower r))).
  rewrite lower_ascii_idem, IH. reflexivity.
Qed.

Lemma key_or_env_spec (api_key : option string) (environ : gmap string string)
    (name msg : string) :
  let found := if truthy api_key then api_key else environ !! name in
  (truthy found = true /\
   exists key, found = Some key /\ key_or_env api_key environ name msg = inr key) \/
  (truthy found = false /\ key_or_env api_key environ name msg = inl (ValueError_msg msg)).
Proof.
  intros found. unfold key_or_env. fold found.
  destruct found as [key|]; [|right; split; reflexivity]. simpl.
  destruct (bool_decide (key = EmptyString)) eqn:E.
  - right. split; reflexivity.
  - left. split; [reflexivity|]. exists key. split; reflexivity.
Qed.

(** The provider names the constructor accepts. *)
Lemma provider_names :
  (map (fun p => p.1.1) PROVIDERS =
   ["ollama"; "groq"; "openai"; "anthropic"; "deepseek"; "together"; "huggingface";
    "openrouter"])%string.
Proof. reflexivity. Qed.

(** The tests on a provider name that is known. *)
Ltac decide_names :=
  repeat match goal with
         | |- context [bool_decide (?a = ?b)] =>
             first [ rewrite (bool_decide_eq_true_2 (a = b) eq_refl)
                   | rewrite (bool_decide_eq_false_2 (a = b)) by discriminate ]
         end.

Ltac created_in_branch provider name :=
  let E := fresh "E" in
  destruct (bool_decide (lower provider = name)) eqn:E;
  [ apply bool_decide_eq_true in E; rewrite E;
    try match goal with
        | |- context [if ?b then _ else inl (ImportError_msg _)] => destruct b
        end;
    try match goal with
        | |- context [key_or_env ?a ?b ?c ?d] => destruct (key_or_env a b c d)
        end;
    intros Hx; try discriminate Hx; injection Hx as <-;
    (split; [simpl; tauto | reflexivity])
  | clear E ].

(** X18. The constructor accepts a provider name in any letter case and
    stores it in lower case.  A name that is none of ollama, groq, openai,
    anthropic, deepseek, together, huggingface and openrouter raises
    [ValueError] with a message that quotes the name as it was passed,
    whatever the key, the model and the environment; every constructed
    extractor has one of the eight names. *)
Theorem init_provider_names (environ : gmap string string) (anthropic_installed : bool)
    (provider : string) (model api_key : option string) :
  let names := map (fun p => p.1.1) PROVIDERS in
  (~ In (lower provider) names ->
   __init__ environ anthropic_installed provider model api_key =
   inl (ValueError_msg
          ("Unsupported provider: " ++ provider ++
           ". Supported: ollama, groq, openai, anthropic, deepseek, together, huggingface, openrouter"))) /\
  (forall x,
     __init__ environ anthropic_installed provider model api_key = inr x ->
     In (lower provider) names /\ LLMExtractor.provider x = lower provider) /\
  (In (lower provider) names ->
   __init__ environ anthropic_installed provider model api_key =
   __init__ environ anthropic_installed (lower provider) model api_key).
Proof.
  intros names. subst names. rewrite provider_names. split_and!.
  - intros Hnot. unfold __init__.
    rewrite !bool_decide_eq_false_2; [reflexivity|..];
      intros E; apply Hnot; rewrite E; simpl; tauto.
  - intros x. unfold __init__.
    created_in_branch provider "ollama"%string.
    created_in_branch provider "groq"%string.
    created_in_branch provider "openai"%string.
    created_in_branch provider "anthropic"%string.
    created_in_branch provider "deepseek"%string.
    created_in_branch provider "together"%string.
    created_in_branch provider "huggingface"%string.
    created_in_branch provider "openrouter"%string.
    discriminate.
  - intros Hin. unfold __init__. rewrite lower_idem.
    simpl in Hin.
    repeat (destruct Hin as [<-|Hin]; [reflexivity|]).
    contradiction.
Qed.

Lemma init_provider_names_witness :
  __init__ ∅ true "Mistral" None (Some "key") =
  inl (ValueError_msg
         "Unsupported provider: Mistral. Supported: ollama, groq, openai, anthropic, deepseek, together, huggingface, openrouter").
Proof.
  apply (proj1 (init_provider_names ∅ true "Mistral" None (Some "key"))).
  simpl. intros H. repeat (destruct H as [H|H]; [discriminate H|]). exact H.
Defined.

(** X19. Which key the constructor uses.  For the local provider ollama no
    key is needed: the extractor is always constructed, with the key text
    "ollama" and the base URL of [OLLAMA_BASE_URL] or the local default, and
    a key that was passed is ignored.  For each other provider the key is
    the [api_key] argument when it is given and not empty, else the
    provider's environment variable; the extractor is constructed with that
    key when it is not empty, and [ValueError] is raised when neither gives
    a non-empty key.  For anthropic the missing package comes first: without
    it [ImportError] is raised whatever the key; for the other providers the
    package does not matter. *)
Theorem init_key_resolution (environ : gmap string string)
    (provider : string) (model api_key : option string) :
  (lower provider = "ollama"%string ->
   forall anthropic_installed, exists x,
     __init__ environ anthropic_installed provider model api_key = inr x /\
     client x = OpenAI "ollama"
                  (Some (default "http://localhost:11434/v1"%string
                                 (environ !! "OLLAMA_BASE_URL"%string)))) /\
  (forall name var dflt,
     In (name, Some var, dflt) PROVIDERS -> lower provider = name ->
     let found := if truthy api_key then api_key else environ !! var in
     (truthy found = true ->
      exists x key,
        found = Some key /\
        __init__ environ true provider model api_key = inr x /\
        client_key (client x) = key) /\
     (truthy found = false ->
      exists msg, __init__ environ true provider model api_key = inl (ValueError_msg msg)) /\
     (name = "anthropic"%string ->
      exists msg, __init__ environ false provider model api_key = inl (ImportError_msg msg)) /\
     (name <> "anthropic"%string ->
      __init__ environ false provider model api_key =
      __init__ environ true provider model api_key)).
Proof.
  split.
  - intros Hp ai. unfold __init__. rewrite Hp. decide_names.
    eexists. split; reflexivity.
  - intros name var dflt Hin Hp found. subst found.
    simpl in Hin.
    destruct Hin as [Hin|[Hin|[Hin|[Hin|[Hin|[Hin|[Hin|[Hin|[]]]]]]]]];
      injection Hin as Hn Hv Hd; try discriminate Hv;
      subst name var dflt; unfold __init__; rewrite Hp; decide_names;
      match goal with
      | |- context [key_or_env ?a ?b ?c ?d] =>
          destruct (key_or_env_spec a b c d) as [(Ht & key & Hk & ->) | (Ht & ->)]
      end;
      (split_and!;
       [ intros Ht'; first [ eexists _, key; split_and!; [exact Hk | reflexivity | reflexivity]
                           | congruence ]
       | intros Ht'; first [ eexists; reflexivity | congruence ]
       | intros Hn; first [ eexists; reflexivity | discriminate Hn ]
       | intros Hn; first [ reflexivity | contradiction ] ]).
Qed.

Lemma init_key_resolution_witness :
  let environ : gmap string string := {[ "GROQ_API_KEY"%string := "from-env"%string ]} in
  (exists x, __init__ environ true "Groq" None (Some "passed") = inr x /\
             client_key (client x) = "passed"%string) /\
  (exists x, __init__ environ true "Groq" None (Some "") = inr x /\
             client_key (client x) = "from-env"%string).
Proof.
  intros environ. split.
  - destruct (proj2 (init_key_resolution environ "Groq" None (Some "passed"))
                "groq"%string "GROQ_API_KEY"%string None) as (H & _).
    + right. left. reflexivity.
    + reflexivity.
    + destruct (H eq_refl) as (x & key & Hk & Hx & Hc).
      exists x. split; [exact Hx|]. rewrite Hc. injection Hk as <-. reflexivity.
  - destruct (proj2 (init_key_resolution environ "Groq" None (Some ""))
                "groq"%string "GROQ_API_KEY"%string None) as (H & _).
    + right. left. reflexivity.
    + reflexivity.
    + destruct (H eq_refl) as (x & key & Hk & Hx & Hc).
      exists x. split; [exact Hx|]. rewrite Hc.
      vm_compute in Hk. injection Hk as <-. reflexivity.
Defined.

(** X20. The model of a constructed extractor.  For groq and openai it is
    the model that was passed, as it is.  For each other provider a model
    that is missing, empty or the name "llama-3.3-70b-versatile" is replaced
    by the provider's own default, so that this name cannot be chosen there,
    and every other model name is kept. *)
Theorem init_model_defaulting (environ : gmap string string) (anthropic_installed : bool)
    (provider : string) (model api_key : option string) (x : LLMExtractor.t)
    (name : string) (var dflt : option string) :
  __init__ environ anthropic_installed provider model api_key = inr x ->
  In (name, var, dflt) PROVIDERS -> lower provider = name ->
  (dflt = None -> LLMExtractor.model x = model) /\
  (forall d, dflt = Some d ->
     model = None \/ model = Some EmptyString \/ model = Some DEFAULT_MODEL ->
     LLMExtractor.model x = Some d) /\
  (forall d m, dflt = Some d -> model = Some m -> m <> EmptyString -> m <> DEFAULT_MODEL ->
     LLMExtractor.model x = Some m).
Proof.
  intros Hx Hin Hp.
  assert (Hor : forall d,
            (model = None \/ model = Some EmptyString \/ model = Some DEFAULT_MODEL ->
             model_or model d = Some d) /\
            (forall m, model = Some m -> m <> EmptyString -> m <> DEFAULT_MODEL ->
                       model_or model d = Some m)).
  { intros d. unfold model_or. split.
    - intros [-> | [-> | ->]]; reflexivity.
    - intros m -> H1 H2. simpl.
      rewrite (bool_decide_eq_false_2 _ H1). simpl.
      rewrite bool_decide_eq_false_2; [reflexivity|]. congruence. }
  revert Hx. simpl in Hin.
  destruct Hin as [Hin|[Hin|[Hin|[Hin|[Hin|[Hin|[Hin|[Hin|[]]]]]]]]];
    injection Hin as Hn Hv Hd; subst name var dflt;
    unfold __init__; rewrite Hp; decide_names;
    try match goal with
        | |- context [if ?b then _ else inl (ImportError_msg _)] => destruct b
        end;
    try match goal with
        | |- context [key_or_env ?a ?b ?c ?d] => destruct (key_or_env a b c d)
        end;
    intros Hx; try discriminate Hx; injection Hx as <-;
    cbn [LLMExtractor.model];
    (split_and!;
     [ first [ intros _; reflexivity | intros Hd; discriminate Hd ]
     | intros d Hd Hm; first [ discriminate Hd | injection Hd as <-; apply (proj1 (Hor _)), Hm ]
     | intros d m Hd Hm H1 H2;
       first [ discriminate Hd | injection Hd as <-; apply (proj2 (Hor _)); assumption ] ]).
Qed.

Lemma init_model_defaulting_witness :
  exists x,
    __init__ ∅ true "DeepSeek" (Some DEFAULT_MODEL) (Some "key") = inr x /\
    LLMExtractor.model x = Some "deepseek-chat"%string.
Proof.
  eexists. split; [reflexivity|].
  refine (proj1 (proj2 (init_model_defaulting ∅ true "DeepSeek" (Some DEFAULT_MODEL)
                          (Some "key") _ "deepseek"%string (Some "DEEPSEEK_API_KEY"%string)
                          (Some "deepseek-chat"%string) eq_refl _ eq_refl))
                "deepseek-chat"%string eq_refl _).
  - do 4 right. left. reflexivity.
  - right. right. reflexivity.
Defined.

End ExtractorFacts.
(** ** Gathering the quotations *)

Section ScriptFacts.
Import compare_quotations.
Local Open Scope list_scope.
Context {num Documents JsonItem : Type}.
Variable load : string -> outcome Documents.
Variable extract : Documents -> outcome (models.ExtractedQuotation num).
Variable str : PyExn -> string.
Variable validate : JsonItem -> outcome (models.ExtractedQuotation num).

Lemma extraction_loop_acc (pdf_files : list string)
    (quotations : list (models.ExtractedQuotation num))
    (extraction_errors : list (string * string)) :
  extraction_loop load extract str pdf_files quotations extraction_errors =
  (quotations ++
     omap (fun f => match process load extract f with
                    | Returns q => Some q
                    | Raises _ => None
                    end) pdf_files,
   extraction_errors ++
     omap (fun f => match process load extract f with
                    | Returns _ => None
                    | Raises e => Some (f, str e)
                    end) pdf_files).
Proof.
  revert quotations extraction_errors.
  induction pdf_files as [|f rest IH]; intros quotations extraction_errors.
  - simpl. rewrite !app_nil_r. reflexivity.
  - cbn [extraction_loop omap list_omap].
    change (load f ≫= (fun documents => extract documents))
      with (process load extract f).
    destruct (process load extract f) as [q|e]; rewrite IH, <- !app_assoc; reflexivity.
Qed.

(** X21. The extraction loop accounts for every PDF file: a file whose
    loading and extraction return gives one quotation, a file for which
    either raises gives one error entry with the file name and the text of
    the exception, and the loop goes on to the next file either way.  Both
    lists keep the order of the files, and together they are as many as the
    files. *)
Theorem extraction_loop_accounts_for_every_file (pdf_files : list string) :
  let run := extraction_loop load extract str pdf_files [] [] in
  run.1 = omap (fun f => match process load extract f with
                         | Returns q => Some q
                         | Raises _ => None
                         end) pdf_files /\
  run.2 = omap (fun f => match process load extract f with
                         | Returns _ => None
                         | Raises e => Some (f, str e)
                         end) pdf_files /\
  (length run.1 + length run.2 = length pdf_files)%nat.
Proof.
  intros run. subst run. rewrite extraction_loop_acc. simpl.
  split; [reflexivity|]. split; [reflexivity|].
  induction pdf_files as [|f rest IH]; [reflexivity|].
  cbn [omap list_omap]. destruct (process load extract f); simpl; lia.
Qed.

Lemma load_loop_spec (existing_names : gset string) (data : list JsonItem)
    (quotations : list (models.ExtractedQuotation num)) :
  load_loop validate existing_names data quotations =
  quotations ++ filter (fun q => models.supplier_name q ∉ existing_names)
                       (validated_prefix validate data).
Proof.
  revert quotations. induction data as [|item rest IH]; intros quotations.
  - simpl. rewrite app_nil_r. reflexivity.
  - cbn [load_loop validated_prefix].
    destruct (validate item) as [quote|e]; [|rewrite app_nil_r; reflexivity].
    rewrite filter_cons.
    destruct (decide (models.supplier_name quote ∉ existing_names)) as [Hn|Hn].
    + rewrite (bool_decide_eq_false_2 _ Hn), IH, <- app_assoc. reflexivity.
    + rewrite bool_decide_eq_true_2; [apply IH|].
      destruct (decide (models.supplier_name quote ∈ existing_names)); tauto.
Qed.

(** X22. Loading the saved quotations never removes or reorders what was
    extracted from the PDFs and never adds a supplier name that was
    extracted.  With four or more extracted quotations, without the file, or
    when reading the file raises, nothing is added.  Otherwise the records
    are read in order up to the first that fails to validate, and those
    whose supplier name was not extracted are appended: all of them, also
    when they repeat a name among themselves or make more than four. *)
Theorem load_missing_adds_only_new_suppliers
    (saved : option (outcome (list JsonItem)))
    (quotations : list (models.ExtractedQuotation num)) :
  let extracted := map models.supplier_name quotations in
  exists loaded,
    load_missing validate saved quotations = quotations ++ loaded /\
    Forall (fun q => models.supplier_name q ∉ extracted) loaded /\
    ((4 <= length quotations)%nat -> loaded = []) /\
    (saved = None -> loaded = []) /\
    (forall e, saved = Some (Raises e) -> loaded = []) /\
    (forall data, saved = Some (Returns data) -> (length quotations < 4)%nat ->
       loaded = filter (fun q => models.supplier_name q ∉ extracted)
                       (validated_prefix validate data)).
Proof.
  intros extracted.
  set (new := fun q : models.ExtractedQuotation num =>
                models.supplier_name q ∉ extracted).
  assert (Hnew : forall l : list (models.ExtractedQuotation num),
            filter (fun q => models.supplier_name q ∉
                               (list_to_set extracted : gset string)) l =
            filter new l).
  { intros l. apply list_filter_iff. intros q. subst new. cbv beta.
    rewrite elem_of_list_to_set. reflexivity. }
  assert (Hnone : exists loaded,
            quotations = quotations ++ loaded /\ Forall new loaded /\ loaded = []).
  { exists []. rewrite app_nil_r. split_and!; [reflexivity | constructor | reflexivity]. }
  unfold load_missing.
  destruct (length quotations <? 4)%nat eqn:Elt.
  - apply Nat.ltb_lt in Elt.
    destruct saved as [[data|e]|].
    + exists (filter new (validated_prefix validate data)).
      rewrite load_loop_spec. fold extracted. rewrite Hnew.
      split_and!; try reflexivity; try discriminate; try lia.
      * apply List.Forall_forall. intros q Hq.
        apply list_elem_of_In, list_elem_of_filter in Hq. apply Hq.
      * intros data' Hd _. injection Hd as <-. reflexivity.
    + destruct Hnone as (loaded & H1 & H2 & ->).
      exists []. split_and!; try assumption; try reflexivity; try discriminate.
    + destruct Hnone as (loaded & H1 & H2 & ->).
      exists []. split_and!; try assumption; try reflexivity; try discriminate.
  - apply Nat.ltb_ge in Elt.
    destruct Hnone as (loaded & H1 & H2 & ->).
    exists []. split_and!; try assumption; try reflexivity; try discriminate.
    intros data _ Hlt. lia.
Qed.

End ScriptFacts.

(** Four files, of which the second cannot be read and the third cannot be
    extracted; the saved file then brings back suppliers that are missing,
    twice when it lists them twice, and stops at the record that does not
    validate. *)
Example gather_with_failures :
  (fun r => (map models.supplier_name r.1, r.2))
    (compare_quotations.gather
       ScriptSamples.stub_load ScriptSamples.stub_extract ScriptSamples.stub_str
       ScriptSamples.stub_validate
       ["a.pdf"; "b.pdf"; "c.pdf"; "d.pdf"]
       (Some (Returns ["d.pdf"; "b.pdf"; "a.pdf"; "b.pdf"; ""; "c.pdf"]))) =
  (["a.pdf"; "d.pdf"; "b.pdf"; "b.pdf"],
   [("b.pdf", "unreadable"); ("c.pdf", "rate limit")]).
Proof. vm_compute. reflexivity. Qed.
(** ** Conversion to the reference currency *)

Section TotalFacts.
Import QuotationComparator.
Local Open Scope Q_scope.
Local Open Scope list_scope.

(** Converting is multiplying by a positive rate, for every currency code. *)
Lemma convert_to_eur_rate (code : string) :
  exists r : Q, 0 < r /\ forall x : Q, convert_to_eur x code == x * r.
Proof.
  unfold convert_to_eur, convert_with.
  destruct (decide (code = "EUR"%string)) as [->|Heur].
  { exists 1. split; [reflexivity|]. intros x. ring. }
  unfold EXCHANGE_RATES.
  destruct (decide (code = "USD"%string)) as [->|Husd].
  { rewrite lookup_insert_eq. exists 0.92. split; [reflexivity|]. intros x. reflexivity. }
  rewrite lookup_insert_ne by congruence.
  rewrite lookup_insert_ne by congruence.
  destruct (decide (code = "GBP"%string)) as [->|Hgbp].
  { rewrite lookup_insert_eq. exists 1.17. split; [reflexivity|]. intros x. reflexivity. }
  rewrite lookup_insert_ne by congruence.
  destruct (decide (code = "JPY"%string)) as [->|Hjpy].
  { rewrite lookup_singleton_eq. exists 0.0062. split; [reflexivity|]. intros x. reflexivity. }
  rewrite lookup_singleton_ne by congruence.
  exists 1.0. split; [reflexivity|]. intros x. reflexivity.
Qed.

(** X23. [convert_to_eur] keeps the order and the sign of the amounts of one
    currency code, whatever the code: of two amounts the greater does not
    convert to the smaller, and an amount that is not negative converts to
    an amount that is not negative. *)
Theorem convert_to_eur_keeps_order (code : string) (a b : Q) :
  (a <= b -> convert_to_eur a code <= convert_to_eur b code) /\
  (0 <= a -> 0 <= convert_to_eur a code).
Proof.
  destruct (convert_to_eur_rate code) as (r & Hr & Hc).
  rewrite !Hc. split; intros; nra.
Qed.

Lemma convert_to_eur_keeps_order_witness :
  convert_to_eur 100 "JPY" <= convert_to_eur 200 "JPY".
Proof.
  apply (proj1 (convert_to_eur_keeps_order "JPY" 100 200)). vm_compute. discriminate.
Defined.

(** The same amounts in binary64. *)
Example convert_to_eur_binary64 :
  convert_to_eur 100%float "JPY" = 0.62%float /\
  convert_to_eur 200%float "JPY" = 1.24%float /\
  convert_to_eur 200%float "EUR" = 200%float /\
  convert_to_eur 200%float "CHF" = 200%float.
Proof. vm_compute. split_and!; reflexivity. Qed.

End TotalFacts.
(** ** The comparison table as rows of text *)

Section ReportingFacts.
Import QuotationComparator Reporting.
Local Open Scope list_scope.
Variable format_float : string -> Q -> string.

Lemma breakdown_at_returns (breakdown : list (Z * BreakdownRow Q)) (year : Z) :
  In year breakdown.*1 -> exists row, breakdown_at breakdown year = Returns row.
Proof.
  intros Hin. apply list_elem_of_In, list_elem_of_fmap in Hin.
  destruct Hin as (p & Hp & Hin). unfold breakdown_at.
  destruct (list_find_elem_of (fun p => p.1 = year) breakdown p Hin (eq_sym Hp))
    as ([i p'] & ->).
  eexists. reflexivity.
Qed.

Lemma last_In {B} (l : list B) (x d : B) : In (List.last (x :: l) d) (x :: l).
Proof.
  revert x. induction l as [|y r IH]; intros x; [left; reflexivity|].
  right. apply (IH y).
Qed.

(** [_format_price_summary] never raises: the years it looks up are keys of
    the breakdown. *)
Lemma format_price_summary_returns (breakdown : list (Z * BreakdownRow Q)) :
  exists s, _format_price_summary format_float breakdown = Returns s.
Proof.
  unfold _format_price_summary. destruct breakdown as [|p l]; [eexists; reflexivity|].
  pose proof (stable_sort_perm Z.ltb (p :: l).*1) as Hperm.
  set (years := stable_sort Z.ltb (p :: l).*1) in *.
  destruct years as [|y0 rest] eqn:Ey; [eexists; reflexivity|].
  assert (H0 : In y0 (p :: l).*1) by (apply (Permutation_in _ Hperm); left; reflexivity).
  destruct (breakdown_at_returns _ _ H0) as (r0 & Hr0).
  destruct rest as [|y1 rest'].
  - rewrite Hr0. eexists. reflexivity.
  - assert (H1 : In (List.last (y0 :: y1 :: rest') y0) (p :: l).*1).
    { apply (Permutation_in _ Hperm), last_In. }
    destruct (breakdown_at_returns _ _ H1) as (r1 & Hr1).
    cbv zeta. rewrite Hr0, bind_returns, Hr1. eexists. reflexivity.
Qed.

Lemma sorted_le_last (l : list Z) (x d : Z) :
  StronglySorted Z.le l -> In x l -> (x <= List.last l d)%Z.
Proof.
  induction 1 as [|a r Hs IH Ha]; intros Hin; [inversion Hin|].
  destruct r as [|b r'].
  - destruct Hin as [<-|[]]. simpl. lia.
  - change (List.last (a :: b :: r') d) with (List.last (b :: r') d).
    destruct Hin as [<-|Hin]; [|apply IH, Hin].
    rewrite List.Forall_forall in Ha. apply Ha, last_In.
Qed.

Lemma years_sorted (l : list Z) : StronglySorted Z.le (stable_sort Z.ltb l).
Proof.
  apply (StronglySorted_weaken (fun a b => Z.ltb b a = false)).
  - intros a b H. apply Z.ltb_ge in H. exact H.
  - apply stable_sort_sorted.
    + intros x y H. apply Z.ltb_lt in H. apply Z.ltb_ge. lia.
    + intros x y z H1 H2. apply Z.ltb_ge in H1, H2. apply Z.ltb_ge. lia.
Qed.

(** The entry of a year that the breakdown holds once. *)
Lemma breakdown_at_unique (breakdown : list (Z * BreakdownRow Q))
    (entry : Z * BreakdownRow Q) :
  In entry breakdown ->
  (forall p, In p breakdown -> p.1 = entry.1 -> p = entry) ->
  breakdown_at breakdown entry.1 = Returns entry.2.
Proof.
  intros Hin Hu. unfold breakdown_at.
  destruct (list_find_elem_of (fun p => p.1 = entry.1) breakdown entry
              (proj2 (list_elem_of_In _ _) Hin) eq_refl) as ([i p] & Hf).
  rewrite Hf. apply list_find_Some in Hf. destruct Hf as (Hi & Hp & _).
  rewrite (Hu p); [reflexivity | | exact Hp].
  apply list_elem_of_In, (list_elem_of_lookup_2 _ i), Hi.
Qed.

(** X26. [_format_price_summary] never raises and answers "N/A" for an
    empty breakdown.  For a breakdown of two or more years it reads the
    entries of the earliest and of the latest year only: the years between
    them, whatever their prices, do not change the text. *)
Theorem price_summary_reads_first_and_last
    (breakdown between : list (Z * BreakdownRow Q)) (first last : Z * BreakdownRow Q) :
  Permutation breakdown (first :: last :: between) ->
  (first.1 < last.1)%Z ->
  Forall (fun p => (first.1 < p.1 < last.1)%Z) between ->
  _format_price_summary format_float [] = Returns "N/A"%string /\
  (exists text, _format_price_summary format_float breakdown = Returns text) /\
  _format_price_summary format_float breakdown =
  _format_price_summary format_float [first; last].
Proof.
  intros Hperm Hlt Hbetween.
  split; [reflexivity|]. split; [apply format_price_summary_returns|].
  rewrite List.Forall_forall in Hbetween.
  assert (Hkeys : forall p, In p breakdown ->
                    p = first \/ p = last \/ (first.1 < p.1 < last.1)%Z).
  { intros p Hp. apply (Permutation_in _ Hperm) in Hp.
    destruct Hp as [<-|[<-|Hp]]; auto. }
  assert (Hfirst : breakdown_at breakdown first.1 = Returns first.2).
  { apply breakdown_at_unique.
    - apply (Permutation_in _ (Permutation_sym Hperm)). left. reflexivity.
    - intros p Hp E. destruct (Hkeys p Hp) as [H|[H|H]]; [exact H | subst p; lia | lia]. }
  assert (Hlast : breakdown_at breakdown last.1 = Returns last.2).
  { apply breakdown_at_unique.
    - apply (Permutation_in _ (Permutation_sym Hperm)). right. left. reflexivity.
    - intros p Hp E. destruct (Hkeys p Hp) as [H|[H|H]]; [subst p; lia | exact H | lia]. }
  assert (Hyears : Permutation (stable_sort Z.ltb breakdown.*1)
                               (first.1 :: last.1 :: between.*1)).
  { rewrite (stable_sort_perm Z.ltb breakdown.*1).
    apply (Permutation_map fst) in Hperm. exact Hperm. }
  assert (Hbounds : forall y, In y (stable_sort Z.ltb breakdown.*1) ->
                              (first.1 <= y <= last.1)%Z).
  { intros y Hy. apply (Permutation_in _ Hyears) in Hy.
    destruct Hy as [<-|[<-|Hy]]; [lia | lia|].
    apply list_elem_of_In, list_elem_of_fmap in Hy. destruct Hy as (p & -> & Hp).
    apply list_elem_of_In, Hbetween in Hp. lia. }
  pose proof (years_sorted breakdown.*1) as Hsorted.
  assert (Hlen : length (stable_sort Z.ltb breakdown.*1) = S (S (length between))).
  { rewrite (Permutation_length Hyears). simpl. rewrite length_fmap. reflexivity. }
  unfold _format_price_summary.
  destruct breakdown as [|b0 bs] eqn:Eb.
  { apply Permutation_nil in Hperm. discriminate. }
  rewrite <- Eb in *. clear Eb b0 bs.
  destruct (stable_sort Z.ltb breakdown.*1) as [|y0 [|y1 rest]] eqn:Ey;
    [discriminate | discriminate|].
  assert (E0 : y0 = first.1).
  { assert (first.1 <= y0)%Z by (apply Hbounds; left; reflexivity).
    assert (In first.1 (y0 :: y1 :: rest)).
    { apply (Permutation_in _ (Permutation_sym Hyears)). left. reflexivity. }
    inversion Hsorted as [|a l Hs Ha]; subst. rewrite List.Forall_forall in Ha.
    destruct H0 as [->|Hin]; [reflexivity|]. pose proof (Ha _ Hin). lia. }
  assert (E1 : List.last (y0 :: y1 :: rest) y0 = last.1).
  { assert (List.last (y0 :: y1 :: rest) y0 <= last.1)%Z by (apply Hbounds, last_In).
    assert (In last.1 (y0 :: y1 :: rest)).
    { apply (Permutation_in _ (Permutation_sym Hyears)). right. left. reflexivity. }
    pose proof (sorted_le_last _ _ y0 Hsorted H0). lia. }
  cbv zeta. rewrite E1, E0, Hfirst, Hlast.
  assert (Etwo : stable_sort Z.ltb [first; last].*1 = [first.1; last.1]).
  { assert (Hf : (last.1 <? first.1)%Z = false) by (apply Z.ltb_ge; lia).
    change (stable_sort Z.ltb [first; last].*1)
      with (if (last.1 <? first.1)%Z then [last.1; first.1] else [first.1; last.1]).
    rewrite Hf. reflexivity. }
  rewrite Etwo.
  change (List.last [first.1; last.1] first.1) with last.1.
  rewrite (breakdown_at_unique [first; last] first),
          (breakdown_at_unique [first; last] last).
  - reflexivity.
  - right. left. reflexivity.
  - intros p [<-|[<-|[]]] E; [lia | reflexivity].
  - left. reflexivity.
  - intros p [<-|[<-|[]]] E; [reflexivity | lia].
Qed.

(** The row of an item that has its display rank, in a comparison that has
    its recommendation. *)
Lemma dataframe_row_run (comparison : Comparison Q) (item : Item Q) (n : nat)
    (r : RecommendationDict Q) :
  ranking item = Some n -> recommendation comparison = Some (Some r) ->
  exists row,
    dataframe_row format_float comparison item = Returns row /\
    Rank row = n /\ Supplier_Name row = supplier (data item) /\
    Recommendation row =
      (if (n =? 1)%nat &&
          bool_decide (recommended_supplier r = Some (supplier (data item)))
       then "RECOMMENDED" else "")%string.
Proof.
  intros Hrank Hrec. unfold dataframe_row.
  destruct (format_price_summary_returns (price_breakdown_eur (data item))) as (s & Hs).
  cbv zeta. rewrite Hs, bind_returns, Hrank.
  change (getitem (Some n)) with (Returns n). rewrite bind_returns.
  unfold recommended_supplier_of. rewrite Hrec.
  destruct (n =? 1)%nat.
  - rewrite bind_returns.
    change (mret ?x ≫= ?f) with (f x).
    eexists. split; [reflexivity|]. split_and!; reflexivity.
  - change (mret ?x ≫= ?f) with (f x).
    eexists. split; [reflexivity|]. split_and!; reflexivity.
Qed.

Lemma mapM_lookup {B C} (f : B -> outcome C) (g : nat -> B -> C -> Prop) (l : list B) :
  (forall i x, l !! i = Some x -> exists y, f x = Returns y /\ g i x y) ->
  exists ys,
    mapM f l = Returns ys /\ length ys = length l /\
    forall i y, ys !! i = Some y -> exists x, l !! i = Some x /\ g i x y.
Proof.
  revert g. induction l as [|x r IH]; intros g Hf.
  - exists []. split_and!; [reflexivity | reflexivity|]. intros i y Hy.
    rewrite lookup_nil in Hy. discriminate.
  - destruct (Hf 0%nat x eq_refl) as (y & Hy & Hg).
    destruct (IH (fun i => g (S i))) as (ys & Hys & Hlen & Hall).
    { intros i x' Hx'. apply (Hf (S i) x' Hx'). }
    exists (y :: ys). split_and!.
    + simpl. rewrite Hy, bind_returns, Hys. reflexivity.
    + simpl. rewrite Hlen. reflexivity.
    + intros [|i] y' Hy'; simpl in Hy'.
      * injection Hy' as <-. exists x. split; [reflexivity | exact Hg].
      * apply (Hall i y' Hy').
Qed.

(** X25. On the result of [compare], [to_dataframe] never raises and gives
    one row per quotation (none for an empty list), in the order of the
    table, with the supplier of the table row and Rank [i + 1] at position
    [i].  The "Recommendation" column is "RECOMMENDED" or empty: only the
    first row can be marked, and it is marked exactly when the supplier
    named in the recommendation is its supplier name, so that a model naming
    another supplier leaves every row unmarked. *)
Theorem to_dataframe_of_compare (strftime_ymd : models.datetime -> string)
    (llm : list (Item Q) -> outcome (models.Recommendation Q)) (now : string)
    (quotations : list (models.ExtractedQuotation Q)) (c : Comparison Q) :
  compare strftime_ymd llm now quotations = Returns c ->
  exists rows,
    to_dataframe format_float c = Returns rows /\
    length rows = length quotations /\
    (forall table, comparison_table c = Some table ->
       map Supplier_Name rows = map (fun it => supplier (data it)) table) /\
    (forall i row, rows !! i = Some row ->
       Rank row = S i /\
       (Recommendation row = "RECOMMENDED"%string \/ Recommendation row = EmptyString) /\
       (Recommendation row = "RECOMMENDED"%string <->
        i = 0%nat /\
        exists r, recommendation c = Some (Some r) /\
                  recommended_supplier r = Some (Supplier_Name row))).
Proof.
  destruct quotations as [|q qs].
  { intros H. injection H as <-. exists []. split_and!; try reflexivity.
    - intros table Ht. discriminate Ht.
    - intros i row Hi. rewrite lookup_nil in Hi. discriminate. }
  destruct (compare_unfold strftime_ymd q qs) as (built & scored & HF & Hsc & Hrun).
  rewrite Hrun. clear Hrun. intros Hc.
  destruct (generate_recommendation _ _) as [r|]; [|discriminate].
  rewrite bind_returns in Hc.
  destruct (_generate_summary _) as [s|]; [|discriminate].
  rewrite bind_returns in Hc. injection Hc as <-.
  set (table := ranked_table (imap new_item built) scored).
  set (c := {| comparison_table := Some table; summary := Some s;
               recommendation := Some (Some r); generated_at := Some now |}).
  destruct (mapM_lookup (dataframe_row format_float c)
              (fun i item row =>
                 Rank row = S i /\ Supplier_Name row = supplier (data item) /\
                 Recommendation row =
                   (if (S i =? 1)%nat &&
                       bool_decide (recommended_supplier r = Some (supplier (data item)))
                    then "RECOMMENDED" else "")%string) table)
    as (rows & Hrows & Hlen & Hall).
  { intros i item Hi.
    destruct (table_row_origin _ _ _ _ Hsc Hi) as (j & d & sc & _ & _ & Hrank & _).
    destruct (dataframe_row_run c item (S i) r Hrank eq_refl) as (row & Hrow & H1 & H2 & H3).
    exists row. split_and!; assumption. }
  exists rows. split; [exact Hrows|]. split_and!.
  - rewrite Hlen. subst table.
    rewrite ranked_table_length, <- (Forall2_length _ _ _ Hsc), length_imap.
    symmetry. apply (Forall2_length _ _ _ HF).
  - intros table' Ht. injection Ht as <-.
    apply list_eq. intros i.
    change (map Supplier_Name rows) with (Supplier_Name <$> rows).
    change (map (fun it => supplier (data it)) table)
      with ((fun it => supplier (data it)) <$> table).
    rewrite !list_lookup_fmap.
    destruct (rows !! i) as [row|] eqn:Ei.
    + destruct (Hall i row Ei) as (item & Hitem & _ & Hname & _).
      rewrite Hitem. simpl. rewrite Hname. reflexivity.
    + apply lookup_ge_None in Ei. rewrite Hlen in Ei.
      apply lookup_ge_None in Ei. rewrite Ei. reflexivity.
  - intros i row Hi.
    destruct (Hall i row Hi) as (item & Hitem & Hrank & Hname & Hnote).
    rewrite <- Hname in Hnote.
    split; [exact Hrank|]. rewrite Hnote.
    destruct i as [|i]; simpl.
    + destruct (bool_decide (recommended_supplier r = Some (Supplier_Name row))) eqn:E.
      * apply bool_decide_eq_true in E. split; [left; reflexivity|].
        split; [|reflexivity]. intros _. split; [reflexivity|]. exists r. split; [reflexivity | exact E].
      * apply bool_decide_eq_false in E. split; [right; reflexivity|].
        split; [discriminate|]. intros (_ & r' & Hr' & Hs'). injection Hr' as <-. contradiction.
    + split; [right; reflexivity|]. split; [discriminate|]. intros (H0 & _). discriminate H0.
Qed.

End ReportingFacts.

Lemma price_summary_reads_first_and_last_witness :
  let row := fun price : Q => {| unit_price := price; quantity := 1%Z; total := price |} in
  Reporting._format_price_summary Reporting.stub_format
    [(2026%Z, row 8%Q); (2024%Z, row 10%Q); (2025%Z, row 99%Q)] =
  Reporting._format_price_summary Reporting.stub_format [(2024%Z, row 10%Q); (2026%Z, row 8%Q)] /\
  Reporting._format_price_summary Reporting.stub_format [(2024%Z, row 10%Q); (2026%Z, row 8%Q)] =
  Returns "2024: €10/1:.2f → 2026: €8/1:.2f (↓ 20/1:.1f%)"%string.
Proof.
  intros row. split; [|vm_compute; reflexivity].
  apply (price_summary_reads_first_and_last Reporting.stub_format
           [(2026%Z, row 8%Q); (2024%Z, row 10%Q); (2025%Z, row 99%Q)]
           [(2025%Z, row 99%Q)] (2024%Z, row 10%Q) (2026%Z, row 8%Q)).
  - apply perm_trans with [(2024%Z, row 10%Q); (2026%Z, row 8%Q); (2025%Z, row 99%Q)];
      [apply perm_swap | reflexivity].
  - reflexivity.
  - constructor; [simpl; lia | constructor].
Defined.


Lemma to_dataframe_of_compare_witness :
  exists c rows,
    QuotationComparator.compare Samples.stub_strftime Samples.stub_recommendation
      "2024-02-01T09:00:00" [Samples.recurring_quote; Samples.plain_quote] = Returns c /\
    Reporting.to_dataframe Reporting.stub_format c = Returns rows /\
    length rows = 2%nat.
Proof.
  destruct (QuotationComparator.compare Samples.stub_strftime Samples.stub_recommendation
              "2024-02-01T09:00:00" [Samples.recurring_quote; Samples.plain_quote])
    as [c|e] eqn:Hc; [|vm_compute in Hc; discriminate].
  destruct (to_dataframe_of_compare Reporting.stub_format _ _ _ _ c Hc)
    as (rows & Hrows & Hlen & _).
  exists c, rows. split; [reflexivity|]. split; [exact Hrows | exact Hlen].
Defined.

(** The table of the two sample quotations: the model names no supplier, so
    the top row is the recommended one. *)
Example dataframe_of_two_quotations :
  (fun rows => map (fun r => (Reporting.Rank r, Reporting.Supplier_Name r,
                              Reporting.Recommendation r, Reporting.Payment_Days r,
                              Reporting.Years_Covered r)) rows)
  <$> (c ← QuotationComparator.compare Samples.stub_strftime Samples.stub_recommendation
             "2024-02-01T09:00:00" [Samples.recurring_quote; Samples.plain_quote];
       Reporting.to_dataframe Reporting.stub_format c) =
  Returns [(1%nat, "Borg", "RECOMMENDED", inl 45%Z, "2024");
           (2%nat, "Acme", "", inl 30%Z, "2024, 2025, 2026")].
Proof. vm_compute. reflexivity. Qed.
(** ** The composite score and the average price, in exact arithmetic *)

Section CompositeOrder.
Import ProcurementScorer QuotationComparator.
Local Open Scope Q_scope.
Local Open Scope list_scope.

Lemma base_total_mono (s s' : Scores Q) :
  tco_score s <= tco_score s' -> delivery_score s <= delivery_score s' ->
  payment_score s <= payment_score s' -> tooling_score s <= tooling_score s' ->
  moq_score s <= moq_score s' ->
  base_total WEIGHTS s <= base_total WEIGHTS s'.
Proof.
  intros H1 H2 H3 H4 H5. unfold base_total, WEIGHTS; q_ops. simpl.
  assert (W1 : 0 <= 0.35) by (unfold Qle; simpl; lia).
  assert (W2 : 0 <= 0.25) by (unfold Qle; simpl; lia).
  assert (W3 : 0 <= 0.20) by (unfold Qle; simpl; lia).
  assert (W4 : 0 <= 0.10) by (unfold Qle; simpl; lia).
  pose proof (Qmult_le_compat_r _ _ _ H1 W1).
  pose proof (Qmult_le_compat_r _ _ _ H2 W2).
  pose proof (Qmult_le_compat_r _ _ _ H3 W3).
  pose proof (Qmult_le_compat_r _ _ _ H4 W4).
  pose proof (Qmult_le_compat_r _ _ _ H5 W4).
  lra.
Qed.

Lemma base_total_nonneg (s : Scores Q) :
  0 <= tco_score s -> 0 <= delivery_score s -> 0 <= payment_score s ->
  0 <= tooling_score s -> 0 <= moq_score s -> 0 <= base_total WEIGHTS s.
Proof.
  intros H1 H2 H3 H4 H5. unfold base_total, WEIGHTS; q_ops. simpl.
  assert (W1 : 0 <= 0.35) by (unfold Qle; simpl; lia).
  assert (W2 : 0 <= 0.25) by (unfold Qle; simpl; lia).
  assert (W3 : 0 <= 0.20) by (unfold Qle; simpl; lia).
  assert (W4 : 0 <= 0.10) by (unfold Qle; simpl; lia).
  pose proof (Qmult_le_0_compat _ _ H1 W1).
  pose proof (Qmult_le_0_compat _ _ H2 W2).
  pose proof (Qmult_le_0_compat _ _ H3 W3).
  pose proof (Qmult_le_0_compat _ _ H4 W4).
  pose proof (Qmult_le_0_compat _ _ H5 W4).
  lra.
Qed.

Lemma penalty_factor_antitone (s s' : Scores Q) :
  (missing_data_penalty s <= missing_data_penalty s')%Z ->
  penalty_factor s' <= penalty_factor s.
Proof.
  intros H. unfold penalty_factor; q_ops. rewrite Zle_Qle in H.
  assert (inject_Z (missing_data_penalty s) / 100 <=
          inject_Z (missing_data_penalty s') / 100).
  { unfold Qdiv. apply Qmult_le_compat_r; [exact H|]. unfold Qle; simpl; lia. }
  lra.
Qed.

Lemma penalty_factor_nonneg (s : Scores Q) :
  (missing_data_penalty s <= 100)%Z -> 0 <= penalty_factor s.
Proof.
  intros H. unfold penalty_factor; q_ops. rewrite Zle_Qle in H.
  assert (inject_Z (missing_data_penalty s) / 100 <= 1).
  { apply Qle_shift_div_r; [reflexivity|]. change (inject_Z 100) with 100 in H. lra. }
  lra.
Qed.

(** X27. The composite score follows its inputs: with the same missing-data
    penalty (at most 100), scores that are not smaller on any of the five
    criteria give a composite score that is not smaller; and with the same
    five non-negative criterion scores, a greater penalty never gives a
    greater composite score. *)
Theorem weighted_total_monotone :
  (forall s s' : Scores Q,
     (missing_data_penalty s <= 100)%Z ->
     missing_data_penalty s' = missing_data_penalty s ->
     tco_score s <= tco_score s' -> delivery_score s <= delivery_score s' ->
     payment_score s <= payment_score s' -> tooling_score s <= tooling_score s' ->
     moq_score s <= moq_score s' ->
     _calculate_weighted_total s <= _calculate_weighted_total s') /\
  (forall s s' : Scores Q,
     0 <= tco_score s -> 0 <= delivery_score s -> 0 <= payment_score s ->
     0 <= tooling_score s -> 0 <= moq_score s ->
     tco_score s' = tco_score s -> delivery_score s' = delivery_score s ->
     payment_score s' = payment_score s -> tooling_score s' = tooling_score s ->
     moq_score s' = moq_score s ->
     (missing_data_penalty s <= missing_data_penalty s')%Z ->
     _calculate_weighted_total s' <= _calculate_weighted_total s).
Proof.
  split.
  - intros s s' Hp Hsame H1 H2 H3 H4 H5. unfold _calculate_weighted_total; q_ops.
    apply py_round_mono, max0_mono.
    pose proof (base_total_mono s s' H1 H2 H3 H4 H5) as Hb.
    pose proof (penalty_factor_nonneg s Hp) as Hf.
    assert (E : penalty_factor s' = penalty_factor s).
    { unfold penalty_factor; q_ops. rewrite Hsame. reflexivity. }
    rewrite E. apply Qmult_le_compat_r; assumption.
  - intros s s' H1 H2 H3 H4 H5 E1 E2 E3 E4 E5 Hp. unfold _calculate_weighted_total; q_ops.
    apply py_round_mono, max0_mono.
    pose proof (base_total_nonneg s H1 H2 H3 H4 H5) as Hb.
    pose proof (penalty_factor_antitone s s' Hp) as Hf.
    assert (E : base_total WEIGHTS s' = base_total WEIGHTS s).
    { unfold base_total; q_ops. rewrite E1, E2, E3, E4, E5. reflexivity. }
    rewrite E. rewrite (Qmult_comm _ (penalty_factor s')), (Qmult_comm _ (penalty_factor s)).
    apply Qmult_le_compat_r; assumption.
Qed.

Lemma weighted_total_monotone_witness :
  let s := {| tco_score := 50; delivery_score := 20; payment_score := 100;
              tooling_score := 0; moq_score := 20; missing_data_penalty := 30 |} in
  let s' := {| tco_score := 50; delivery_score := 20; payment_score := 100;
               tooling_score := 0; moq_score := 20; missing_data_penalty := 40 |} in
  _calculate_weighted_total s' <= _calculate_weighted_total s.
Proof.
  intros s s'.
  apply (proj2 weighted_total_monotone s s'); try reflexivity;
    unfold Qle; simpl; lia.
Defined.

End CompositeOrder.
